(** * Triton Food Works dashboard: the data pipeline, embedded and verified

    The development follows the TypeScript sources that carry the pipeline:
    - [src/app/page.tsx]                        (module [ServerPage]),
    - [src/components/ModernExcelDashboard.tsx] (module [Dashboard]),
    - [src/unnamed/part_002], the real-time client page (module [ClientPage]),
    - [src/unnamed/part_005], the sheets library (module [SheetsLibrary]),
    - [src/lib/useRealTimeSheetsData.ts], the data hook (module [RealTimeHook]).

    JavaScript strings are sequences of UTF-16 code units, JavaScript numbers
    are binary64 values, modelled by [number] below, and the sheets are
    association lists in property order. *)

From Stdlib Require Import ZArith NArith QArith Qround Qabs Qpower List Bool String Ascii Lia Lqa.
From Stdlib Require Import DecimalString Permutation Sorted.
Import ListNotations.

Set Implicit Arguments.

(* ================================================================== *)
(** ** JavaScript strings *)
(* ================================================================== *)

Module JsString.

(** A string is the list of its UTF-16 code units. *)
Definition jsstring := list N.

(** Source literals are written as Rocq strings, which hold UTF-8 bytes;
    [utf8_decode] turns them into code units (a code point above the basic
    plane becomes a surrogate pair, as in JavaScript). *)
Definition continuation (b : N) : N := (b mod 64)%N.

Definition surrogates (cp : N) : jsstring :=
  if (cp <? 65536)%N then [cp]
  else let c := (cp - 65536)%N in [(55296 + c / 1024)%N; (56320 + c mod 1024)%N].

Fixpoint utf8_decode (bs : list N) : jsstring :=
  match bs with
  | [] => []
  | b :: t =>
    if (b <? 128)%N then b :: utf8_decode t
    else if (b <? 224)%N then
      match t with
      | b2 :: t2 => ((b mod 32) * 64 + continuation b2)%N :: utf8_decode t2
      | [] => [b]
      end
    else if (b <? 240)%N then
      match t with
      | b2 :: b3 :: t3 =>
        ((b mod 16) * 4096 + continuation b2 * 64 + continuation b3)%N :: utf8_decode t3
      | _ => [b]
      end
    else
      match t with
      | b2 :: b3 :: b4 :: t4 =>
        surrogates ((b mod 8) * 262144 + continuation b2 * 4096
                    + continuation b3 * 64 + continuation b4)%N ++ utf8_decode t4
      | _ => [b]
      end
  end.

Definition js (s : string) : jsstring :=
  utf8_decode (map N_of_ascii (list_ascii_of_string s)).

Fixpoint eqb (a b : jsstring) : bool :=
  match a, b with
  | [], [] => true
  | x :: a', y :: b' => (x =? y)%N && eqb a' b'
  | _, _ => false
  end.

(** [String.prototype.startsWith] and [String.prototype.includes]. *)
Fixpoint startsWith (pre s : jsstring) : bool :=
  match pre, s with
  | [], _ => true
  | x :: pre', y :: s' => (x =? y)%N && startsWith pre' s'
  | _ :: _, [] => false
  end.

Fixpoint includes (s sub : jsstring) : bool :=
  startsWith sub s ||
  match s with
  | [] => false
  | _ :: s' => includes s' sub
  end.

(** Lower case.  The strings that the repository compares in lower case
    are matched against ASCII keywords; the model maps the letters A-Z and
    leaves every other code unit as it is. *)
Definition lowerUnit (c : N) : N :=
  if ((65 <=? c) && (c <=? 90))%N then (c + 32)%N else c.

Definition toLowerCase (s : jsstring) : jsstring := map lowerUnit s.

(** Upper case.  [String.prototype.toUpperCase] applies the full upper-case
    mapping of the Unicode Character Database (version 14) to every code
    point.  [upperRuns] lists the characters that map to one character, as
    runs [(first, last, stride, offset)]: each of [first], [first + stride],
    ..., [last] maps to itself plus [offset].  [upperSpecial] lists the
    characters that map to several. *)
Definition upperRuns : list (N * N * N * Z) :=
  [ (97, 122, 1, (-32)%Z);
    (181, 181, 1, 743%Z);
    (224, 246, 1, (-32)%Z);
    (248, 254, 1, (-32)%Z);
    (255, 255, 1, 121%Z);
    (257, 303, 2, (-1)%Z);
    (305, 305, 1, (-232)%Z);
    (307, 311, 2, (-1)%Z);
    (314, 328, 2, (-1)%Z);
    (331, 375, 2, (-1)%Z);
    (378, 382, 2, (-1)%Z);
    (383, 383, 1, (-300)%Z);
    (384, 384, 1, 195%Z);
    (387, 389, 2, (-1)%Z);
    (392, 392, 1, (-1)%Z);
    (396, 396, 1, (-1)%Z);
    (402, 402, 1, (-1)%Z);
    (405, 405, 1, 97%Z);
    (409, 409, 1, (-1)%Z);
    (410, 410, 1, 163%Z);
    (414, 414, 1, 130%Z);
    (417, 421, 2, (-1)%Z);
    (424, 424, 1, (-1)%Z);
    (429, 429, 1, (-1)%Z);
    (432, 432, 1, (-1)%Z);
    (436, 438, 2, (-1)%Z);
    (441, 441, 1, (-1)%Z);
    (445, 445, 1, (-1)%Z);
    (447, 447, 1, 56%Z);
    (453, 453, 1, (-1)%Z);
    (454, 454, 1, (-2)%Z);
    (456, 456, 1, (-1)%Z);
    (457, 457, 1, (-2)%Z);
    (459, 459, 1, (-1)%Z);
    (460, 460, 1, (-2)%Z);
    (462, 476, 2, (-1)%Z);
    (477, 477, 1, (-79)%Z);
    (479, 495, 2, (-1)%Z);
    (498, 498, 1, (-1)%Z);
    (499, 499, 1, (-2)%Z);
    (501, 501, 1, (-1)%Z);
    (505, 543, 2, (-1)%Z);
    (547, 563, 2, (-1)%Z);
    (572, 572, 1, (-1)%Z);
    (575, 576, 1, 10815%Z);
    (578, 578, 1, (-1)%Z);
    (583, 591, 2, (-1)%Z);
    (592, 592, 1, 10783%Z);
    (593, 593, 1, 10780%Z);
    (594, 594, 1, 10782%Z);
    (595, 595, 1, (-210)%Z);
    (596, 596, 1, (-206)%Z);
    (598, 599, 1, (-205)%Z);
    (601, 601, 1, (-202)%Z);
    (603, 603, 1, (-203)%Z);
    (604, 604, 1, 42319%Z);
    (608, 608, 1, (-205)%Z);
    (609, 609, 1, 42315%Z);
    (611, 611, 1, (-207)%Z);
    (613, 613, 1, 42280%Z);
    (614, 614, 1, 42308%Z);
    (616, 616, 1, (-209)%Z);
    (617, 617, 1, (-211)%Z);
    (618, 618, 1, 42308%Z);
    (619, 619, 1, 10743%Z);
    (620, 620, 1, 42305%Z);
    (623, 623, 1, (-211)%Z);
    (625, 625, 1, 10749%Z);
    (626, 626, 1, (-213)%Z);
    (629, 629, 1, (-214)%Z);
    (637, 637, 1, 10727%Z);
    (640, 640, 1, (-218)%Z);
    (642, 642, 1, 42307%Z);
    (643, 643, 1, (-218)%Z);
    (647, 647, 1, 42282%Z);
    (648, 648, 1, (-218)%Z);
    (649, 649, 1, (-69)%Z);
    (650, 651, 1, (-217)%Z);
    (652, 652, 1, (-71)%Z);
    (658, 658, 1, (-219)%Z);
    (669, 669, 1, 42261%Z);
    (670, 670, 1, 42258%Z);
    (837, 837, 1, 84%Z);
    (881, 883, 2, (-1)%Z);
    (887, 887, 1, (-1)%Z);
    (891, 893, 1, 130%Z);
    (940, 940, 1, (-38)%Z);
    (941, 943, 1, (-37)%Z);
    (945, 961, 1, (-32)%Z);
    (962, 962, 1, (-31)%Z);
    (963, 971, 1, (-32)%Z);
    (972, 972, 1, (-64)%Z);
    (973, 974, 1, (-63)%Z);
    (976, 976, 1, (-62)%Z);
    (977, 977, 1, (-57)%Z);
    (981, 981, 1, (-47)%Z);
    (982, 982, 1, (-54)%Z);
    (983, 983, 1, (-8)%Z);
    (985, 1007, 2, (-1)%Z);
    (1008, 1008, 1, (-86)%Z);
    (1009, 1009, 1, (-80)%Z);
    (1010, 1010, 1, 7%Z);
    (1011, 1011, 1, (-116)%Z);
    (1013, 1013, 1, (-96)%Z);
    (1016, 1016, 1, (-1)%Z);
    (1019, 1019, 1, (-1)%Z);
    (1072, 1103, 1, (-32)%Z);
    (1104, 1119, 1, (-80)%Z);
    (1121, 1153, 2, (-1)%Z);
    (1163, 1215, 2, (-1)%Z);
    (1218, 1230, 2, (-1)%Z);
    (1231, 1231, 1, (-15)%Z);
    (1233, 1327, 2, (-1)%Z);
    (1377, 1414, 1, (-48)%Z);
    (4304, 4346, 1, 3008%Z);
    (4349, 4351, 1, 3008%Z);
    (5112, 5117, 1, (-8)%Z);
    (7296, 7296, 1, (-6254)%Z);
    (7297, 7297, 1, (-6253)%Z);
    (7298, 7298, 1, (-6244)%Z);
    (7299, 7300, 1, (-6242)%Z);
    (7301, 7301, 1, (-6243)%Z);
    (7302, 7302, 1, (-6236)%Z);
    (7303, 7303, 1, (-6181)%Z);
    (7304, 7304, 1, 35266%Z);
    (7545, 7545, 1, 35332%Z);
    (7549, 7549, 1, 3814%Z);
    (7566, 7566, 1, 35384%Z);
    (7681, 7829, 2, (-1)%Z);
    (7835, 7835, 1, (-59)%Z);
    (7841, 7935, 2, (-1)%Z);
    (7936, 7943, 1, 8%Z);
    (7952, 7957, 1, 8%Z);
    (7968, 7975, 1, 8%Z);
    (7984, 7991, 1, 8%Z);
    (8000, 8005, 1, 8%Z);
    (8017, 8023, 2, 8%Z);
    (8032, 8039, 1, 8%Z);
    (8048, 8049, 1, 74%Z);
    (8050, 8053, 1, 86%Z);
    (8054, 8055, 1, 100%Z);
    (8056, 8057, 1, 128%Z);
    (8058, 8059, 1, 112%Z);
    (8060, 8061, 1, 126%Z);
    (8112, 8113, 1, 8%Z);
    (8126, 8126, 1, (-7205)%Z);
    (8144, 8145, 1, 8%Z);
    (8160, 8161, 1, 8%Z);
    (8165, 8165, 1, 7%Z);
    (8526, 8526, 1, (-28)%Z);
    (8560, 8575, 1, (-16)%Z);
    (8580, 8580, 1, (-1)%Z);
    (9424, 9449, 1, (-26)%Z);
    (11312, 11359, 1, (-48)%Z);
    (11361, 11361, 1, (-1)%Z);
    (11365, 11365, 1, (-10795)%Z);
    (11366, 11366, 1, (-10792)%Z);
    (11368, 11372, 2, (-1)%Z);
    (11379, 11379, 1, (-1)%Z);
    (11382, 11382, 1, (-1)%Z);
    (11393, 11491, 2, (-1)%Z);
    (11500, 11502, 2, (-1)%Z);
    (11507, 11507, 1, (-1)%Z);
    (11520, 11557, 1, (-7264)%Z);
    (11559, 11559, 1, (-7264)%Z);
    (11565, 11565, 1, (-7264)%Z);
    (42561, 42605, 2, (-1)%Z);
    (42625, 42651, 2, (-1)%Z);
    (42787, 42799, 2, (-1)%Z);
    (42803, 42863, 2, (-1)%Z);
    (42874, 42876, 2, (-1)%Z);
    (42879, 42887, 2, (-1)%Z);
    (42892, 42892, 1, (-1)%Z);
    (42897, 42899, 2, (-1)%Z);
    (42900, 42900, 1, 48%Z);
    (42903, 42921, 2, (-1)%Z);
    (42933, 42947, 2, (-1)%Z);
    (42952, 42954, 2, (-1)%Z);
    (42961, 42961, 1, (-1)%Z);
    (42967, 42969, 2, (-1)%Z);
    (42998, 42998, 1, (-1)%Z);
    (43859, 43859, 1, (-928)%Z);
    (43888, 43967, 1, (-38864)%Z);
    (65345, 65370, 1, (-32)%Z);
    (66600, 66639, 1, (-40)%Z);
    (66776, 66811, 1, (-40)%Z);
    (66967, 67003, 2, (-39)%Z);
    (66968, 66976, 2, (-39)%Z);
    (66980, 66992, 2, (-39)%Z);
    (66996, 67000, 2, (-39)%Z);
    (67004, 67004, 1, (-39)%Z);
    (68800, 68850, 1, (-64)%Z);
    (71872, 71903, 1, (-32)%Z);
    (93792, 93823, 1, (-32)%Z);
    (125218, 125251, 1, (-34)%Z) ]%N.

Definition upperSpecial : list (N * list N) :=
  [ (223, [83; 83]);
    (329, [700; 78]);
    (496, [74; 780]);
    (912, [921; 776; 769]);
    (944, [933; 776; 769]);
    (1415, [1333; 1362]);
    (7830, [72; 817]);
    (7831, [84; 776]);
    (7832, [87; 778]);
    (7833, [89; 778]);
    (7834, [65; 702]);
    (8016, [933; 787]);
    (8018, [933; 787; 768]);
    (8020, [933; 787; 769]);
    (8022, [933; 787; 834]);
    (8064, [7944; 921]);
    (8065, [7945; 921]);
    (8066, [7946; 921]);
    (8067, [7947; 921]);
    (8068, [7948; 921]);
    (8069, [7949; 921]);
    (8070, [7950; 921]);
    (8071, [7951; 921]);
    (8072, [7944; 921]);
    (8073, [7945; 921]);
    (8074, [7946; 921]);
    (8075, [7947; 921]);
    (8076, [7948; 921]);
    (8077, [7949; 921]);
    (8078, [7950; 921]);
    (8079, [7951; 921]);
    (8080, [7976; 921]);
    (8081, [7977; 921]);
    (8082, [7978; 921]);
    (8083, [7979; 921]);
    (8084, [7980; 921]);
    (8085, [7981; 921]);
    (8086, [7982; 921]);
    (8087, [7983; 921]);
    (8088, [7976; 921]);
    (8089, [7977; 921]);
    (8090, [7978; 921]);
    (8091, [7979; 921]);
    (8092, [7980; 921]);
    (8093, [7981; 921]);
    (8094, [7982; 921]);
    (8095, [7983; 921]);
    (8096, [8040; 921]);
    (8097, [8041; 921]);
    (8098, [8042; 921]);
    (8099, [8043; 921]);
    (8100, [8044; 921]);
    (8101, [8045; 921]);
    (8102, [8046; 921]);
    (8103, [8047; 921]);
    (8104, [8040; 921]);
    (8105, [8041; 921]);
    (8106, [8042; 921]);
    (8107, [8043; 921]);
    (8108, [8044; 921]);
    (8109, [8045; 921]);
    (8110, [8046; 921]);
    (8111, [8047; 921]);
    (8114, [8122; 921]);
    (8115, [913; 921]);
    (8116, [902; 921]);
    (8118, [913; 834]);
    (8119, [913; 834; 921]);
    (8124, [913; 921]);
    (8130, [8138; 921]);
    (8131, [919; 921]);
    (8132, [905; 921]);
    (8134, [919; 834]);
    (8135, [919; 834; 921]);
    (8140, [919; 921]);
    (8146, [921; 776; 768]);
    (8147, [921; 776; 769]);
    (8150, [921; 834]);
    (8151, [921; 776; 834]);
    (8162, [933; 776; 768]);
    (8163, [933; 776; 769]);
    (8164, [929; 787]);
    (8166, [933; 834]);
    (8167, [933; 776; 834]);
    (8178, [8186; 921]);
    (8179, [937; 921]);
    (8180, [911; 921]);
    (8182, [937; 834]);
    (8183, [937; 834; 921]);
    (8188, [937; 921]);
    (64256, [70; 70]);
    (64257, [70; 73]);
    (64258, [70; 76]);
    (64259, [70; 70; 73]);
    (64260, [70; 70; 76]);
    (64261, [83; 84]);
    (64262, [83; 84]);
    (64275, [1348; 1350]);
    (64276, [1348; 1333]);
    (64277, [1348; 1339]);
    (64278, [1358; 1350]);
    (64279, [1348; 1341]) ]%N.

Definition inRun (cp : N) (run : N * N * N * Z) : bool :=
  let '(first, last, stride, _) := run in
  ((first <=? cp) && (cp <=? last) && ((cp - first) mod stride =? 0))%N.

Definition upperPoint (cp : N) : list N :=
  match find (fun e => (fst e =? cp)%N) upperSpecial with
  | Some (_, mapped) => mapped
  | None =>
    match find (inRun cp) upperRuns with
    | Some (_, _, _, offset) => [Z.to_N (Z.of_N cp + offset)]
    | None => [cp]
    end
  end.

Definition isHighSurrogate (c : N) : bool := ((55296 <=? c) && (c <=? 56319))%N.
Definition isLowSurrogate (c : N) : bool := ((56320 <=? c) && (c <=? 57343))%N.

Definition codePoint (high low : N) : N :=
  (65536 + (high - 55296) * 1024 + (low - 56320))%N.

(** A surrogate pair is mapped as the code point it stands for; a lone
    surrogate is left as it is. *)
Fixpoint toUpperCase (s : jsstring) : jsstring :=
  match s with
  | [] => []
  | c :: rest =>
    match rest with
    | d :: rest' =>
      if isHighSurrogate c && isLowSurrogate d
      then flat_map surrogates (upperPoint (codePoint c d)) ++ toUpperCase rest'
      else flat_map surrogates (upperPoint c) ++ toUpperCase rest
    | [] => flat_map surrogates (upperPoint c)
    end
  end.

(** ECMAScript WhiteSpace and LineTerminator code units, as used by
    [String.prototype.trim] and by the numeric parsers. *)
Definition isWhiteSpace (c : N) : bool :=
  existsb (N.eqb c)
    [9; 10; 11; 12; 13; 32; 160; 5760; 8232; 8233; 8239; 8287; 12288; 65279]%N
  || ((8192 <=? c) && (c <=? 8202))%N.

Fixpoint trimStart (s : jsstring) : jsstring :=
  match s with
  | c :: s' => if isWhiteSpace c then trimStart s' else s
  | [] => []
  end.

Definition trimEnd (s : jsstring) : jsstring := rev (trimStart (rev s)).
Definition trim (s : jsstring) : jsstring := trimEnd (trimStart s).

(** [s.replace(/[...]/g, '')] for a character class: drop the code units in
    the class. *)
Definition removeAll (class : N -> bool) (s : jsstring) : jsstring :=
  filter (fun c => negb (class c)) s.

Definition isDigit (c : N) : bool := ((48 <=? c) && (c <=? 57))%N.

(** [Array.prototype.includes] on an array of strings. *)
Definition inList (s : jsstring) (l : list jsstring) : bool := existsb (eqb s) l.

End JsString.
Import JsString.

(* ================================================================== *)
(** ** JavaScript numbers *)
(* ================================================================== *)

Module JsNumber.

(** A JavaScript number is an IEEE binary64 value.  The model keeps NaN and
    the two infinities, and stands for every finite number by the rational it
    denotes.  The result of every operation is rounded to the nearest
    binary64 value, ties to even ([binary64]): 53 significant bits, the
    subnormal numbers down to 2^-1074, and infinity from 2^1024 - 2^970 on.
    The sign of zero is not kept. *)
Inductive number :=
| NaN
| PInf
| NInf
| Fin (q : Q).

Definition Qlt_bool (a b : Q) : bool := negb (Qle_bool b a).

(** The nearest integer, ties to the even one. *)
Definition roundHalfEven (m : Q) : Z :=
  let f := Qfloor m in
  match Qcompare (m - inject_Z f) (1 # 2) with
  | Lt => f
  | Gt => (f + 1)%Z
  | Eq => if Z.even f then f else (f + 1)%Z
  end.

(** The binary exponent of a positive rational: [2^e <= a < 2^(e+1)]. *)
Definition ilog2 (a : Q) : Z :=
  let k := (Z.log2 (Qnum a) - Z.log2 (Zpos (Qden a)))%Z in
  if Qle_bool (2 ^ k) a then k else (k - 1)%Z.

(** The exponent of the unit in the last place: 53 bits in the normal
    range, 2^-1074 below it. *)
Definition ulpExponent (a : Q) : Z := Z.max (ilog2 a - 52) (-1074).

Definition nearestPositive (a : Q) : Q :=
  inject_Z (roundHalfEven (a / 2 ^ ulpExponent a)) * 2 ^ ulpExponent a.

(** Rounding to nearest, ties to even, with an unbounded exponent. *)
Definition nearest (q : Q) : Q :=
  match Qcompare q 0 with
  | Eq => 0
  | Gt => nearestPositive q
  | Lt => - nearestPositive (- q)
  end.

(** The binary64 value of a rational: a rounded magnitude of 2^1024 or more
    overflows. *)
Definition binary64 (q : Q) : number :=
  let r := nearest q in
  if Qle_bool (2 ^ 1024) r then PInf
  else if Qle_bool r (- 2 ^ 1024) then NInf
  else Fin (Qred r).

Definition zero : number := Fin 0.
Definition ofZ (z : Z) : number := binary64 (inject_Z z).
Definition ofNat (n : nat) : number := ofZ (Z.of_nat n).

Definition neg (a : number) : number :=
  match a with
  | NaN => NaN
  | PInf => NInf
  | NInf => PInf
  | Fin q => Fin (Qred (- q))
  end.

Definition abs (a : number) : number :=
  match a with
  | NaN => NaN
  | PInf | NInf => PInf
  | Fin q => Fin (Qred (Qabs q))
  end.

Definition add (a b : number) : number :=
  match a, b with
  | NaN, _ | _, NaN => NaN
  | PInf, NInf | NInf, PInf => NaN
  | PInf, _ | _, PInf => PInf
  | NInf, _ | _, NInf => NInf
  | Fin x, Fin y => binary64 (x + y)
  end.

Definition sub (a b : number) : number := add a (neg b).

(** Sign of a number for the products and quotients with an infinity. *)
Definition sgn (a : number) : comparison :=
  match a with
  | NaN => Eq
  | PInf => Gt
  | NInf => Lt
  | Fin q => (q ?= 0)%Q
  end.

Definition signedInf (s1 s2 : comparison) : number :=
  match s1, s2 with
  | Eq, _ | _, Eq => NaN
  | Gt, Gt | Lt, Lt => PInf
  | _, _ => NInf
  end.

Definition mul (a b : number) : number :=
  match a, b with
  | NaN, _ | _, NaN => NaN
  | Fin x, Fin y => binary64 (x * y)
  | _, _ => signedInf (sgn a) (sgn b)
  end.

(** Division; a zero divisor counts as +0. *)
Definition div (a b : number) : number :=
  match a, b with
  | NaN, _ | _, NaN => NaN
  | Fin x, Fin y =>
    if Qeq_bool y 0 then signedInf (sgn a) Gt
    else binary64 (x / y)
  | Fin _, _ => Fin 0
  | _, Fin y => signedInf (sgn a) (if Qeq_bool y 0 then Gt else sgn b)
  | _, _ => NaN
  end.

(** The relational operators; every comparison with NaN is false. *)
Definition lt (a b : number) : bool :=
  match a, b with
  | NaN, _ | _, NaN => false
  | _, NInf => false
  | NInf, _ => true
  | PInf, _ => false
  | _, PInf => true
  | Fin x, Fin y => Qlt_bool x y
  end.

Definition gt (a b : number) : bool := lt b a.

Definition le (a b : number) : bool :=
  match a, b with
  | NaN, _ | _, NaN => false
  | NInf, _ => true
  | _, PInf => true
  | _, NInf => false
  | PInf, _ => false
  | Fin x, Fin y => Qle_bool x y
  end.

Definition ge (a b : number) : bool := le b a.

Definition isNaN (a : number) : bool :=
  match a with NaN => true | _ => false end.

Definition isFinite (a : number) : bool :=
  match a with Fin _ => true | _ => false end.

(** ToBoolean on a number: false for NaN and for zero. *)
Definition truthy (a : number) : bool :=
  match a with
  | NaN => false
  | Fin q => negb (Qeq_bool q 0)
  | _ => true
  end.

(** [a || 0]. *)
Definition orZero (a : number) : number := if truthy a then a else zero.

(** [Math.round]: the nearest integer, ties towards plus infinity. *)
Definition round (a : number) : number :=
  match a with
  | Fin q => ofZ (Qfloor (q + (1 # 2)))
  | _ => a
  end.

(** [parseFloat(x.toFixed(f))] for f = 1, 2: below 10^21 the magnitude is
    rounded to [f] decimals, ties upwards; from 10^21 on, and for NaN and the
    infinities, [toFixed] prints the number itself and [parseFloat] reads it
    back. *)
Definition roundFixed (f : nat) (a : number) : number :=
  match a with
  | Fin q =>
    if Qle_bool (inject_Z (10 ^ 21)) (Qabs q) then a
    else
      let scale := inject_Z (10 ^ Z.of_nat f) in
      let n := Qfloor (Qabs q * scale + (1 # 2)) in
      let m := inject_Z n / scale in
      binary64 (if Qle_bool 0 q then m else - m)
  | _ => a
  end.

(** *** parseFloat *)

Fixpoint spanDigits (s : jsstring) : jsstring * jsstring :=
  match s with
  | c :: s' =>
    if isDigit c then let (d, r) := spanDigits s' in (c :: d, r) else ([], s)
  | [] => ([], [])
  end.

Definition digitsValue (ds : jsstring) : N :=
  fold_left (fun acc c => (acc * 10 + (c - 48))%N) ds 0%N.

(** The value of the decimal [m * 10^e], [m] written with at most [len]
    digits.  Exponents far outside the binary64 range are settled without
    computing the power. *)
Definition decimalValue (m : N) (len e : Z) : number :=
  if (m =? 0)%N then Fin 0
  else if (400 <? e)%Z then PInf
  else if (len + e <? -330)%Z then Fin 0
  else
    binary64 (if (0 <=? e)%Z then inject_Z (Z.of_N m * 10 ^ e)
             else inject_Z (Z.of_N m) / inject_Z (10 ^ (- e))).

(** ExponentPart: [e] or [E], an optional sign and at least one digit;
    anything else is not part of the literal. *)
Definition exponentPart (s : jsstring) : Z :=
  match s with
  | c :: r =>
    if ((c =? 101) || (c =? 69))%N then
      let '(minus, r') :=
        match r with
        | d :: r1 =>
          if (d =? 45)%N then (true, r1)
          else if (d =? 43)%N then (false, r1) else (false, r)
        | [] => (false, r)
        end in
      let (ds, _) := spanDigits r' in
      match ds with
      | [] => 0%Z
      | _ => let v := Z.of_N (digitsValue ds) in if minus then (- v)%Z else v
      end
    else 0%Z
  | [] => 0%Z
  end.

(** StrUnsignedDecimalLiteral: the longest prefix that is [Infinity], or
    digits with an optional fraction and exponent. *)
Definition unsignedLiteral (s : jsstring) : number :=
  if startsWith (js "Infinity") s then PInf
  else
    let (ip, r1) := spanDigits s in
    let '(fp, r2) :=
      match r1 with
      | c :: r => if (c =? 46)%N then spanDigits r else ([], r1)
      | [] => ([], r1)
      end in
    match ip ++ fp with
    | [] => NaN
    | ds => decimalValue (digitsValue ds) (Z.of_nat (List.length ds))
                         (exponentPart r2 - Z.of_nat (List.length fp))
    end.

Definition parseFloat (s : jsstring) : number :=
  let t := trimStart s in
  match t with
  | c :: r =>
    if (c =? 45)%N then neg (unsignedLiteral r)
    else if (c =? 43)%N then unsignedLiteral r
    else unsignedLiteral t
  | [] => NaN
  end.

End JsNumber.
Import JsNumber.

(* ================================================================== *)
(** ** Values, rows and sheets *)
(* ================================================================== *)

Module Data.

(** The values the pipeline's [any]-typed helpers tell apart. *)
Inductive value :=
| VUndefined
| VNull
| VNum (n : number)
| VStr (s : jsstring).

(** ToBoolean. *)
Definition toBoolean (v : value) : bool :=
  match v with
  | VUndefined | VNull => false
  | VNum n => truthy n
  | VStr [] => false
  | VStr _ => true
  end.

(** [SheetRows = Array<Record<string, string>>]: a row maps column names to
    string cells; it is kept as the list of its own properties, in property
    order, with distinct keys.  Properties inherited from [Object.prototype]
    are left out: none of them reads as a number or as a date. *)
Definition Row := list (jsstring * jsstring).

(** [row[key]]: the cell, or [undefined] when the row has no such property. *)
Fixpoint get (row : Row) (key : jsstring) : value :=
  match row with
  | [] => VUndefined
  | (k, v) :: rest => if eqb key k then VStr v else get rest key
  end.

(** One tab of the spreadsheet.  [SheetsData] declares both properties; the
    code nevertheless guards some of its accesses ([sheetData?.rows?.length],
    [!sheetData.headers]), so a property may be recorded as missing
    ([None]) and an unguarded access to a missing one throws. *)
Record Sheet := {
  headers : option (list jsstring);
  rows : option (list Row)
}.

Definition SheetsData := list (jsstring * Sheet).

Fixpoint sheet (sheetsData : SheetsData) (name : jsstring) : option Sheet :=
  match sheetsData with
  | [] => None
  | (n, sh) :: rest => if eqb name n then Some sh else sheet rest name
  end.

(** [sheetsData?.Name?.rows || []]. *)
Definition rowsOrEmpty (sheetsData : SheetsData) (name : jsstring) : list Row :=
  match sheet sheetsData name with
  | Some sh => match rows sh with Some rs => rs | None => [] end
  | None => []
  end.

(** A snapshot as [SheetsData] declares it: every sheet has both properties. *)
Definition wellTyped (sheetsData : SheetsData) : Prop :=
  Forall (fun e => headers (snd e) <> None /\ rows (snd e) <> None) sheetsData.

(** Code that can throw returns a [result]. *)
Inductive result (A : Type) :=
| Ok (a : A)
| TypeError.
Arguments TypeError {A}.

Definition bind {A B} (r : result A) (k : A -> result B) : result B :=
  match r with
  | Ok a => k a
  | TypeError => TypeError
  end.

Fixpoint mapM {A B} (f : A -> result B) (l : list A) : result (list B) :=
  match l with
  | [] => Ok []
  | a :: l' => bind (f a) (fun b => bind (mapM f l') (fun bs => Ok (b :: bs)))
  end.

(** [sheet.rows] and [sheet.headers] where the code reads through them. *)
Definition rowsOf (sh : Sheet) : result (list Row) :=
  match rows sh with Some rs => Ok rs | None => TypeError end.
Definition headersOf (sh : Sheet) : result (list jsstring) :=
  match headers sh with Some hs => Ok hs | None => TypeError end.

End Data.
Import Data.

Notation "x <- c ;; k" := (bind c (fun x => k))
  (at level 61, c at next level, right associativity).

(* ================================================================== *)
(** ** src/app/page.tsx *)
(* ================================================================== *)

Module ServerPage.

Record ProductionMetrics := {
  activeBatches : nat;
  totalExpectedYield : number;
  totalHarvested : number;
  harvestEfficiency : number
}.

Record QualityMetrics := {
  rejectionRate : number;
  avgQualityScore : number;
  onTimePercentage : number;
  totalDeliveries : nat;
  onTimeDeliveries : nat;
  q_totalHarvested : number
}.

Inductive Trend := neutral | positive | negative.

Record FinancialData := {
  total : number;
  sources : nat;
  categories : nat;
  records : nat;
  trend : Trend
}.

(** The character class of [/[,kg₹$]/g]. *)
Definition strippedChar (c : N) : bool :=
  existsb (N.eqb c) [44; 107; 103; 8377; 36]%N.

(** [cleanNumericValue].  For a number, [String(value)] holds none of the
    stripped characters and [parseFloat] reads it back. *)
Definition cleanNumericValue (v : value) : number :=
  match v with
  | VNull | VUndefined => zero
  | VStr s => orZero (parseFloat (removeAll strippedChar s))
  | VNum n => orZero n
  end.

Fixpoint tryFieldNames (row : Row) (fieldNames : list jsstring) : number :=
  match fieldNames with
  | [] => zero
  | field :: rest =>
    match get row field with
    | VUndefined => tryFieldNames row rest
    | v => cleanNumericValue v
    end
  end.

Definition expectedYieldFields : list jsstring :=
  [js "ExpectedYield(kg)"; js "ExpectedYield"; js "Expected Yield"].
Definition revisedYieldFields : list jsstring :=
  [js "RevisedYield(kg)"; js "RevisedYield"; js "Revised Yield"].
Definition harvestedFields : list jsstring :=
  [js "QtyHarvested(kg)"; js "QtyHarvested"; js "Quantity Harvested"; js "Harvest Qty"].
Definition rejectedFields : list jsstring :=
  [js "Rejected(kg)"; js "Rejected"; js "Qty Rejected"].
Definition acceptedFields : list jsstring :=
  [js "Accepted(kg)"; js "Accepted"; js "Qty Accepted"].
Definition qcFields : list jsstring :=
  [js "QC"; js "Quality"; js "QualityScore"].

(** [value > 0 ? parseFloat(((num / den) * 100).toFixed(f)) : 0]. *)
Definition percentage (f : nat) (num den : number) : number :=
  if gt den zero then roundFixed f (mul (div num den) (ofZ 100)) else zero.

Section Clock.

(** [Date.parse], whose fallback for strings that are not in the ISO format
    is implementation-defined: the time value in milliseconds, [None] for an
    invalid date.  [now] is the time value of [new Date()], frozen for the
    duration of a call. *)
Variable Date_parse : jsstring -> option Z.
Variable now : Z.

(** The filter of [activeBatches]: an [ExpectedHarvest] cell that is truthy
    and that [new Date] reads as a date not before [now]. *)
Definition isActiveBatch (row : Row) : bool :=
  match get row (js "ExpectedHarvest") with
  | VStr s =>
    negb (eqb s []) &&
    match Date_parse s with
    | Some t => (now <=? t)%Z
    | None => false
    end
  | _ => false
  end.

(** [revised || expected]. *)
Definition yieldOf (row : Row) : number :=
  let expected := tryFieldNames row expectedYieldFields in
  let revised := tryFieldNames row revisedYieldFields in
  if truthy revised then revised else expected.

Definition calculateProductionMetrics (sheetsData : SheetsData) : ProductionMetrics :=
  let batches := rowsOrEmpty sheetsData (js "Batches") in
  let harvestLog := rowsOrEmpty sheetsData (js "Harvest_Log") in
  let activeBatches := List.length (filter isActiveBatch batches) in
  let totalExpectedYield :=
    fold_left (fun sum row => add sum (yieldOf row)) batches zero in
  let totalHarvested :=
    fold_left (fun sum row => add sum (tryFieldNames row harvestedFields)) harvestLog zero in
  {| activeBatches := activeBatches;
     totalExpectedYield := totalExpectedYield;
     totalHarvested := totalHarvested;
     harvestEfficiency := percentage 1 totalHarvested totalExpectedYield |}.

End Clock.

Record QualityAcc := {
  acc_totalHarvested : number;
  acc_totalRejected : number;
  acc_totalAccepted : number;
  acc_qcScores : list number
}.

Definition qualityStep (acc : QualityAcc) (row : Row) : QualityAcc :=
  let harvested := tryFieldNames row harvestedFields in
  let rejected := tryFieldNames row rejectedFields in
  let accepted := tryFieldNames row acceptedFields in
  let qc := tryFieldNames row qcFields in
  {| acc_totalHarvested := add (acc_totalHarvested acc) harvested;
     acc_totalRejected := add (acc_totalRejected acc) rejected;
     acc_totalAccepted := add (acc_totalAccepted acc) accepted;
     acc_qcScores := if gt qc zero then acc_qcScores acc ++ [qc] else acc_qcScores acc |}.

(** [String(row['OnTime(0/1)']) === '1']. *)
Definition isOnTime (row : Row) : bool :=
  match get row (js "OnTime(0/1)") with
  | VStr s => eqb s (js "1")
  | _ => false
  end.

Definition calculateHarvestMetrics (sheetsData : SheetsData) : QualityMetrics :=
  let harvestLog := rowsOrEmpty sheetsData (js "Harvest_Log") in
  let postHarvest := rowsOrEmpty sheetsData (js "Post_Harvest") in
  let qualityData :=
    fold_left qualityStep harvestLog
      {| acc_totalHarvested := zero; acc_totalRejected := zero;
         acc_totalAccepted := zero; acc_qcScores := [] |} in
  let scores := acc_qcScores qualityData in
  let avgQualityScore :=
    match scores with
    | [] => zero
    | _ => roundFixed 1 (div (fold_left add scores zero) (ofNat (List.length scores)))
    end in
  let onTimeDeliveries := List.length (filter isOnTime postHarvest) in
  let totalDeliveries := List.length postHarvest in
  {| rejectionRate :=
       percentage 1 (acc_totalRejected qualityData) (acc_totalHarvested qualityData);
     avgQualityScore := avgQualityScore;
     onTimePercentage :=
       percentage 1 (ofNat onTimeDeliveries) (ofNat totalDeliveries);
     totalDeliveries := totalDeliveries;
     onTimeDeliveries := onTimeDeliveries;
     q_totalHarvested := acc_totalHarvested qualityData |}.

(** *** Sheet classification *)

Record SheetTypeConfig := {
  cfg_type : jsstring;
  cfg_keywords : list jsstring;
  cfg_headers : list jsstring;
  cfg_color : jsstring;
  cfg_icon : jsstring
}.

(** [SHEET_TYPE_CONFIG], in declaration order (the order of
    [Object.entries]). *)
Definition SHEET_TYPE_CONFIG : list SheetTypeConfig :=
  [ {| cfg_type := js "production-batches";
       cfg_keywords := [js "BATCH"];
       cfg_headers := [js "BatchID"; js "SownDate"];
       cfg_color := js "green"; cfg_icon := js "🌱" |};
    {| cfg_type := js "harvest-tracking";
       cfg_keywords := [js "HARVEST"];
       cfg_headers := [js "QtyHarvested"; js "HarvestDate"];
       cfg_color := js "orange"; cfg_icon := js "🌾" |};
    {| cfg_type := js "sourcing-procurement";
       cfg_keywords := [js "SOURCING"; js "PROCUREMENT"];
       cfg_headers := [js "Vendor"; js "Supplier"];
       cfg_color := js "blue"; cfg_icon := js "🚚" |};
    {| cfg_type := js "post-harvest-logistics";
       cfg_keywords := [js "POST_HARVEST"; js "POST-HARVEST"];
       cfg_headers := [js "Sorting"; js "Packaging"; js "Transit"];
       cfg_color := js "purple"; cfg_icon := js "📦" |};
    {| cfg_type := js "financial-revenue";
       cfg_keywords := [];
       cfg_headers := [js "Revenue"; js "Income"; js "Sales"];
       cfg_color := js "emerald"; cfg_icon := js "💰" |};
    {| cfg_type := js "financial-expense";
       cfg_keywords := [];
       cfg_headers := [js "Expense"; js "Cost"; js "Amount"];
       cfg_color := js "red"; cfg_icon := js "💸" |};
    {| cfg_type := js "production-settings";
       cfg_keywords := [js "SETTINGS"];
       cfg_headers := [js "PricePerKg"; js "GermDays"];
       cfg_color := js "gray"; cfg_icon := js "⚙️" |} ].

Definition hasKeyword (nameUpper : jsstring) (config : SheetTypeConfig) : bool :=
  existsb (fun keyword => includes nameUpper keyword) (cfg_keywords config).

(** [headers.some(h => h && h.includes(header))] for some configured
    [header]. *)
Definition hasHeader (headers : list jsstring) (config : SheetTypeConfig) : bool :=
  existsb (fun header =>
             existsb (fun h => negb (eqb h []) && includes h header) headers)
          (cfg_headers config).

Definition entryMatches (name : jsstring) (headers : list jsstring)
           (config : SheetTypeConfig) : bool :=
  hasKeyword (toUpperCase name) config || hasHeader headers config.

(** The [for ... of Object.entries(SHEET_TYPE_CONFIG)] loop. *)
Fixpoint detectIn (table : list SheetTypeConfig) (name : jsstring)
         (headers : list jsstring) : jsstring :=
  match table with
  | [] => js "general"
  | config :: rest =>
    if entryMatches name headers config then cfg_type config
    else detectIn rest name headers
  end.

Definition detectSheetType (name : jsstring) (headers : list jsstring) : jsstring :=
  detectIn SHEET_TYPE_CONFIG name headers.

(** [SHEET_TYPE_CONFIG[type]]. *)
Definition configOf (type : jsstring) : option SheetTypeConfig :=
  find (fun config => eqb type (cfg_type config)) SHEET_TYPE_CONFIG.

Definition getSheetColor (name : jsstring) (headers : list jsstring) : jsstring :=
  match configOf (detectSheetType name headers) with
  | Some config => cfg_color config
  | None => js "slate"
  end.

Definition getSheetIcon (name : jsstring) (headers : list jsstring) : jsstring :=
  match configOf (detectSheetType name headers) with
  | Some config => cfg_icon config
  | None => js "📄"
  end.

(** *** Financial detection *)

Definition revenueFields : list jsstring := [js "revenue"; js "income"; js "sales"].
Definition expenseFields : list jsstring :=
  [js "expense"; js "cost"; js "amount"; js "outstanding"].
Definition searchFields (isRevenue : bool) : list jsstring :=
  if isRevenue then revenueFields else expenseFields.

Definition categoryFields : list jsstring :=
  [js "Crop"; js "Variety"; js "Type"; js "Department"; js "Vendor"; js "Description"].

(** The predicate of [sheetData.headers.filter(...)]. *)
Definition isRelevantColumn (isRevenue : bool) (header : jsstring) : bool :=
  negb (eqb header []) &&
  existsb (fun field =>
             includes (toLowerCase header) field ||
             (includes header (js "₹") &&
              (if isRevenue then includes (toLowerCase header) (js "revenue")
               else negb (includes (toLowerCase header) (js "revenue")))))
          (searchFields isRevenue).

(** The running state of [detectFinancialData]; [fin_categories] is the
    [Set], kept as the list of its distinct members in insertion order. *)
Record FinancialAcc := {
  fin_total : number;
  fin_sources : nat;
  fin_categories : list jsstring;
  fin_records : nat
}.

Definition setAdd (set : list jsstring) (s : jsstring) : list jsstring :=
  if inList s set then set else set ++ [s].

(** [if (row[field]) categories.add(row[field])] over the category fields. *)
Definition addCategories (row : Row) (set : list jsstring) : list jsstring :=
  fold_left (fun cats field =>
               match get row field with
               | VStr (c :: s) => setAdd cats (c :: s)
               | _ => cats
               end)
            categoryFields set.

Definition addCell (row : Row) (acc : FinancialAcc) (col : jsstring) : FinancialAcc :=
  let value := cleanNumericValue (get row col) in
  if gt value zero then
    {| fin_total := add (fin_total acc) value;
       fin_sources := fin_sources acc;
       fin_categories := addCategories row (fin_categories acc);
       fin_records := S (fin_records acc) |}
  else acc.

Definition relevantColumns (isRevenue : bool) (headers : list jsstring) : list jsstring :=
  filter (isRelevantColumn isRevenue) headers.

Definition addSheet (isRevenue : bool) (acc : FinancialAcc)
           (entry : jsstring * Sheet) : FinancialAcc :=
  match rows (snd entry), headers (snd entry) with
  | Some (r :: rs), Some hs =>
    match relevantColumns isRevenue hs with
    | [] => acc
    | cols =>
      fold_left (fun a row => fold_left (addCell row) cols a) (r :: rs)
        {| fin_total := fin_total acc;
           fin_sources := S (fin_sources acc);
           fin_categories := fin_categories acc;
           fin_records := fin_records acc |}
    end
  | _, _ => acc
  end.

Definition detectFinancialData (sheetsData : SheetsData) (isRevenue : bool) : FinancialData :=
  let acc :=
    fold_left (addSheet isRevenue) sheetsData
      {| fin_total := zero; fin_sources := 0; fin_categories := []; fin_records := 0 |} in
  {| total := fin_total acc;
     sources := fin_sources acc;
     categories := List.length (fin_categories acc);
     records := fin_records acc;
     trend := neutral |}.

Definition detectRevenueData (sheetsData : SheetsData) : FinancialData :=
  detectFinancialData sheetsData true.

Definition detectExpenseData (sheetsData : SheetsData) : FinancialData :=
  detectFinancialData sheetsData false.

Record FinancialMetrics := {
  revenue : number;
  expenses : number;
  profit : number;
  profitMargin : number;
  revenueStreams : nat;
  expenseCategories : nat
}.

Definition calculateFinancialMetrics (sheetsData : SheetsData) : FinancialMetrics :=
  let revenue := detectRevenueData sheetsData in
  let expenses := detectExpenseData sheetsData in
  let profit := sub (total revenue) (total expenses) in
  {| revenue := total revenue;
     expenses := total expenses;
     profit := profit;
     profitMargin :=
       if gt (total revenue) zero
       then roundFixed 2 (mul (div profit (total revenue)) (ofZ 100))
       else zero;
     revenueStreams := sources revenue;
     expenseCategories := categories expenses |}.

(** *** Summary cards and the dashboard object *)

(** A template literal: its text and the numbers spliced into it. *)
Inductive fragment :=
| Text (s : jsstring)
| Interp (n : number).

Record SummaryCard := {
  card_title : jsstring;
  card_value : number;
  card_subtitle : list fragment;
  card_type : jsstring;
  card_trend : Trend;
  card_color : jsstring;
  card_icon : jsstring
}.

(** [Object.values(sheetsData).reduce((sum, sheet) => sum + sheet.rows.length, 0)]:
    reading [length] through a missing [rows] throws. *)
Fixpoint countRecords (sheetsData : SheetsData) (sum : nat) : result nat :=
  match sheetsData with
  | [] => Ok sum
  | (_, sh) :: rest =>
    rs <- rowsOf sh ;; countRecords rest (sum + List.length rs)
  end.

Section Assembly.

Variable Date_parse : jsstring -> option Z.
Variable now : Z.

Definition onTimeCard (quality : QualityMetrics) : list SummaryCard :=
  if (0 <? totalDeliveries quality)%nat then
    [ {| card_title := js "On-Time Delivery";
         card_value := onTimePercentage quality;
         card_subtitle :=
           [Interp (ofNat (onTimeDeliveries quality)); Text (js "/");
            Interp (ofNat (totalDeliveries quality)); Text (js " deliveries")];
         card_type := js "logistics";
         card_trend := if ge (onTimePercentage quality) (ofZ 90) then positive else neutral;
         card_color := js "indigo";
         card_icon := js "Clock" |} ]
  else [].

Definition generateAgriculturalSummaryCards (sheetsData : SheetsData)
  : result (list SummaryCard) :=
  let production := calculateProductionMetrics Date_parse now sheetsData in
  let quality := calculateHarvestMetrics sheetsData in
  let revenue := detectRevenueData sheetsData in
  let expenses := detectExpenseData sheetsData in
  let profit := sub (total revenue) (total expenses) in
  let gain := ge profit zero in
  let cards :=
    [ {| card_title := js "Total Revenue";
         card_value := total revenue;
         card_subtitle := [Interp (ofNat (sources revenue)); Text (js " revenue streams")];
         card_type := js "financial";
         card_trend := neutral;
         card_color := js "green";
         card_icon := js "TrendingUp" |};
      {| card_title := js "Total Expenses";
         card_value := total expenses;
         card_subtitle :=
           [Interp (ofNat (categories expenses)); Text (js " expense categories")];
         card_type := js "financial";
         card_trend := neutral;
         card_color := js "red";
         card_icon := js "CreditCard" |};
      {| card_title := js "Net Profit";
         card_value := profit;
         card_subtitle := [Text (if gain then js "Profitable" else js "Loss")];
         card_type := js "financial";
         card_trend := if gain then positive else negative;
         card_color := if gain then js "green" else js "red";
         card_icon := if gain then js "TrendingUp" else js "TrendingDown" |};
      {| card_title := js "Active Batches";
         card_value := ofNat (activeBatches production);
         card_subtitle := [Text (js "Currently growing")];
         card_type := js "production";
         card_trend := neutral;
         card_color := js "blue";
         card_icon := js "Package" |};
      {| card_title := js "Total Harvested";
         card_value := q_totalHarvested quality;
         card_subtitle :=
           [Interp (harvestEfficiency production); Text (js "% efficiency")];
         card_type := js "production";
         card_trend :=
           if ge (harvestEfficiency production) (ofZ 80) then positive else neutral;
         card_color := js "orange";
         card_icon := js "Truck" |};
      {| card_title := js "Quality Score";
         card_value := avgQualityScore quality;
         card_subtitle :=
           [Interp (rejectionRate quality); Text (js "% rejection rate")];
         card_type := js "quality";
         card_trend := if ge (avgQualityScore quality) (ofZ 7) then positive else neutral;
         card_color := js "purple";
         card_icon := js "Award" |} ]
    ++ onTimeCard quality in
  totalRecords <- countRecords sheetsData 0 ;;
  Ok (cards ++
      [ {| card_title := js "Total Records";
           card_value := ofNat totalRecords;
           card_subtitle :=
             [Interp (ofNat (List.length sheetsData)); Text (js " data sheets")];
           card_type := js "data";
           card_trend := neutral;
           card_color := js "gray";
           card_icon := js "FileText" |} ]).

Record Metadata := {
  meta_title : jsstring;
  totalSheets : nat;
  totalRecords : nat;
  lastUpdated : Z;
  businessType : jsstring;
  connectionStatus : jsstring
}.

Record OperationalMetrics := {
  op_total : nat;
  op_active : nat;
  op_completed : nat;
  op_pending : nat;
  op_completionRate : nat
}.

Record SheetInfo := {
  info_name : jsstring;
  info_type : jsstring;
  info_records : nat;
  info_headers : list jsstring;
  info_color : jsstring;
  info_icon : jsstring;
  info_lastRecord : option Row
}.

Record SheetConfig := {
  conf_name : jsstring;
  conf_type : jsstring;
  conf_icon : jsstring;
  conf_color : jsstring;
  conf_recordCount : nat;
  conf_headers : list jsstring;
  conf_keyColumns : list jsstring
}.

Record DashboardData := {
  metadata : Metadata;
  production : ProductionMetrics;
  quality : QualityMetrics;
  dash_revenue : FinancialData;
  dash_expenses : FinancialData;
  summaryCards : list SummaryCard;
  financial : FinancialMetrics;
  financialMetrics : FinancialMetrics;
  operationalMetrics : OperationalMetrics;
  sheets : list SheetInfo;
  sheetsConfig : list SheetConfig;
  rawData : SheetsData
}.

(** One element of [sheets]; [data.headers] reaches [headers.some] inside
    [detectSheetType], and [data.rows.length] reads through [rows]. *)
Definition sheetInfo (entry : jsstring * Sheet) : result SheetInfo :=
  let (name, data) := entry in
  hs <- headersOf data ;;
  rs <- rowsOf data ;;
  Ok {| info_name := name;
        info_type := detectSheetType name hs;
        info_records := List.length rs;
        info_headers := hs;
        info_color := getSheetColor name hs;
        info_icon := getSheetIcon name hs;
        info_lastRecord := last (map Some rs) None |}.

(** One element of [sheetsConfig]; its [metrics] property is the empty
    object. *)
Definition sheetConfig (entry : jsstring * Sheet) : result SheetConfig :=
  let (name, data) := entry in
  hs <- headersOf data ;;
  rs <- rowsOf data ;;
  Ok {| conf_name := name;
        conf_type := detectSheetType name hs;
        conf_icon := getSheetIcon name hs;
        conf_color := getSheetColor name hs;
        conf_recordCount := List.length rs;
        conf_headers := hs;
        conf_keyColumns := firstn 3 hs |}.

Definition generateDynamicDashboard (sheetsData : SheetsData) : result DashboardData :=
  let production := calculateProductionMetrics Date_parse now sheetsData in
  let quality := calculateHarvestMetrics sheetsData in
  let financial := calculateFinancialMetrics sheetsData in
  totalRecords <- countRecords sheetsData 0 ;;
  cards <- generateAgriculturalSummaryCards sheetsData ;;
  sheets <- mapM sheetInfo sheetsData ;;
  sheetsConfig <- mapM sheetConfig sheetsData ;;
  Ok {| metadata :=
          {| meta_title := js "Triton Food Works Masterbook";
             totalSheets := List.length sheetsData;
             totalRecords := totalRecords;
             lastUpdated := now;
             businessType := js "Agriculture & Food Processing";
             connectionStatus := js "connected" |};
        production := production;
        quality := quality;
        dash_revenue := detectRevenueData sheetsData;
        dash_expenses := detectExpenseData sheetsData;
        summaryCards := cards;
        financial := financial;
        financialMetrics := financial;
        operationalMetrics :=
          {| op_total := totalRecords;
             op_active := activeBatches production;
             op_completed := 0;
             op_pending := 0;
             op_completionRate := 0 |};
        sheets := sheets;
        sheetsConfig := sheetsConfig;
        rawData := sheetsData |}.

End Assembly.

(** *** The page component *)

(** [fallbackData] of [Home]. *)
Definition fallbackData (now : Z) : DashboardData :=
  {| metadata :=
       {| meta_title := js "Triton Food Works Masterbook";
          totalSheets := 0;
          totalRecords := 0;
          lastUpdated := now;
          businessType := js "Agriculture & Food Processing";
          connectionStatus := js "disconnected" |};
     production :=
       {| activeBatches := 0; totalExpectedYield := zero; totalHarvested := zero;
          harvestEfficiency := zero |};
     quality :=
       {| rejectionRate := zero; avgQualityScore := zero; onTimePercentage := zero;
          totalDeliveries := 0; onTimeDeliveries := 0; q_totalHarvested := zero |};
     dash_revenue :=
       {| total := zero; sources := 0; categories := 0; records := 0; trend := neutral |};
     dash_expenses :=
       {| total := zero; sources := 0; categories := 0; records := 0; trend := neutral |};
     summaryCards :=
       [ {| card_title := js "Error Loading Data";
            card_value := zero;
            card_subtitle := [Text (js "Please check connection")];
            card_type := js "error";
            card_trend := neutral;
            card_color := js "red";
            card_icon := js "AlertCircle" |} ];
     financial :=
       {| revenue := zero; expenses := zero; profit := zero; profitMargin := zero;
          revenueStreams := 0; expenseCategories := 0 |};
     financialMetrics :=
       {| revenue := zero; expenses := zero; profit := zero; profitMargin := zero;
          revenueStreams := 0; expenseCategories := 0 |};
     operationalMetrics :=
       {| op_total := 0; op_active := 0; op_completed := 0; op_pending := 0;
          op_completionRate := 0 |};
     sheets := [];
     sheetsConfig := [];
     rawData := [] |}.

(** [Home]: the [data] handed to the dashboard component.  [fetched] is what
    the race of [getAllSheets] against the timeout settles to, [None] when it
    rejects.  An empty mapping throws inside the [try] block, and so does a
    failing assembly; both end in the [catch] branch. *)
Definition Home (Date_parse : jsstring -> option Z) (now : Z)
           (fetched : option SheetsData) : DashboardData :=
  match fetched with
  | Some (entry :: rest) =>
    match generateDynamicDashboard Date_parse now (entry :: rest) with
    | Ok dashboardData => dashboardData
    | TypeError => fallbackData now
    end
  | _ => fallbackData now
  end.

End ServerPage.

(* ================================================================== *)
(** ** src/components/ModernExcelDashboard.tsx *)
(* ================================================================== *)

Module Dashboard.

(** The string members of [EMPTY_VALUES]; its other members are [null],
    [undefined] and the number 0. *)
Definition EMPTY_STRINGS : list jsstring :=
  [js ""; js "0"; js "N/A"; js "n/a"; js "na"; js "NA"; js "-"; js "null"; js "undefined"].

Definition isEmptyValue (v : value) : bool :=
  match v with
  | VUndefined | VNull => true
  | VNum n => match n with Fin q => Qeq_bool q 0 | _ => false end
  | VStr s =>
    inList s EMPTY_STRINGS ||
    let trimmed := toLowerCase (trim s) in
    eqb trimmed [] ||
    inList trimmed [js "n/a"; js "na"; js "null"; js "undefined"; js "-"]
  end.

(** The operand of the numeric tests: [parseFloat] of a string, the number
    itself, and no number for the other values. *)
Definition numValue (v : value) : option number :=
  match v with
  | VStr s => Some (parseFloat s)
  | VNum n => Some n
  | _ => None
  end.

Definition isExcelDate (v : value) : bool :=
  match numValue v with
  | Some n => negb (isNaN n) && gt n (ofZ 30000) && lt n (ofZ 2958466)
  | None => false
  end.

(** Truncation towards zero. *)
Definition Qtrunc (q : Q) : Z :=
  if Qle_bool 0 q then Qfloor q else Qceiling q.

(** The time value of [new Date(ms)]: TimeClip. *)
Definition TimeClip (ms : number) : option Z :=
  match ms with
  | Fin q =>
    if Qle_bool (Qabs q) (inject_Z 8640000000000000) then Some (Qtrunc q) else None
  | _ => None
  end.

(** [Date.UTC(1970, 0, 1) + (serial - 25569) * 86400 * 1000]. *)
Definition serialToMs (serial : number) : number :=
  add (ofZ 0) (mul (mul (sub serial (ofZ 25569)) (ofZ 86400)) (ofZ 1000)).

Definition getUTCHours (t : Z) : Z := ((t / 3600000) mod 24)%Z.
Definition getUTCMinutes (t : Z) : Z := ((t / 60000) mod 60)%Z.

(** What [formatDate] returns: [String(value)] for an invalid date, else the
    date printed by [toLocaleDateString] (day, short month, year, in UTC),
    followed by the [toLocaleTimeString] hour and minute when the date has a
    time.  The printed text is determined by the time value, which is what
    the model keeps. *)
Inductive formatted :=
| Unparsed (v : value)
| DateOnly (t : Z)
| DateTime (t : Z).

Section Parse.

Variable Date_parse : jsstring -> option Z.

(** The [Date] object that [formatDate] builds ([None]: Invalid Date). *)
Definition dateOf (v : value) : option Z :=
  match v with
  | VStr s =>
    let n := parseFloat s in
    if negb (isNaN n) && gt n (ofZ 30000) then TimeClip (serialToMs n)
    else Date_parse s
  | VNum n => TimeClip (serialToMs n)
  | VNull => Some 0%Z
  | VUndefined => None
  end.

Definition formatDate (v : value) : formatted :=
  match dateOf v with
  | None => Unparsed v
  | Some t =>
    let hours := getUTCHours t in
    let minutes := getUTCMinutes t in
    let hasTime := negb (hours =? 0)%Z || negb (minutes =? 0)%Z in
    if hasTime then DateTime t else DateOnly t
  end.

End Parse.

Definition importantFields : list jsstring :=
  [js "BatchID"; js "Date"; js "Employee"; js "Vendor"; js "Description";
   js "Amount"; js "Cost"; js "QtyHarvested"].

Definition fillerTokens : list jsstring :=
  [js "tbd"; js "tbc"; js "pending"; js "temp"; js "test"; js "na"; js "n/a"].

(** The test before [meaningfulCount++]: the two [continue]s of the loop
    body are not taken. *)
Definition isMeaningful (v : value) : bool :=
  negb (isEmptyValue v) &&
  match v with
  | VStr s =>
    let trimmed := trim s in
    negb (List.length trimmed <=? 1)%nat &&
    negb (inList (toLowerCase trimmed) fillerTokens)
  | _ => true
  end.

Definition isImportantField (key : jsstring) : bool :=
  let fieldLower := toLowerCase key in
  existsb (fun field =>
             includes fieldLower (toLowerCase field) ||
             eqb fieldLower (toLowerCase field))
          importantFields
  || includes fieldLower (js "id")
  || includes fieldLower (js "name")
  || includes fieldLower (js "amount")
  || includes fieldLower (js "qty")
  || includes fieldLower (js "price")
  || includes fieldLower (js "cost").

(** The loop state: [meaningfulCount] and [hasImportantField]. *)
Definition contentStep (st : nat * bool) (entry : jsstring * jsstring) : nat * bool :=
  let (key, cell) := entry in
  let value := VStr cell in
  if isMeaningful value then
    (S (fst st),
     if isImportantField key && negb (isEmptyValue value) then true else snd st)
  else st.

Definition hasMinimalContent (record : Row) : bool :=
  let (meaningfulCount, hasImportantField) := fold_left contentStep record (0%nat, false) in
  (2 <=? meaningfulCount)%nat && hasImportantField.

(** *** Record ranking *)

(** The fields counted by the comparator of [filterRecords]. *)
Definition scoreFields : list jsstring :=
  [js "BatchID"; js "Date"; js "Amount"; js "Employee"; js "Vendor"; js "Description"].

(** [aScore]: the number of score fields with [a[field] && !isEmptyValue(a[field])]. *)
Definition score (a : Row) : nat :=
  fold_left (fun score field =>
               (score + if toBoolean (get a field) && negb (isEmptyValue (get a field))
                        then 1 else 0)%nat)
            scoreFields 0%nat.

(** [Array.prototype.sort] with the comparator [(a, b) => bScore - aScore].
    The sort is stable, which fixes its result: records in descending score,
    records of equal score in their original order.  [insertByScore] puts a
    record in front of the first record that does not outrank it. *)
Fixpoint insertByScore (x : Row) (sorted : list Row) : list Row :=
  match sorted with
  | [] => [x]
  | y :: rest =>
    if (score y <=? score x)%nat then x :: sorted else y :: insertByScore x rest
  end.

Definition sortByScore (records : list Row) : list Row :=
  fold_right insertByScore [] records.

Definition filterRecords (records : list Row) : list Row :=
  sortByScore (filter hasMinimalContent records).

Definition INITIAL_RECORDS_LIMIT : nat := 6.

(** [getLimitedRecords]; [showAll] is [showAllRecords[sheetName] || false]. *)
Definition getLimitedRecords (records : list Row) (showAll : bool) : list Row :=
  let filteredRecords := filterRecords records in
  if showAll || (List.length filteredRecords <=? INITIAL_RECORDS_LIMIT)%nat
  then filteredRecords
  else firstn INITIAL_RECORDS_LIMIT filteredRecords.

(** *** Date strings *)

(** The five patterns of [isDateString] are anchored sequences of digit
    groups [\d{min,max}] and separators.  A digit group is followed by a
    separator or by the end of the string, so it matches exactly when the
    whole run of digits at that place has a length between [min] and
    [max]. *)
Inductive token :=
| Digits (min max : nat)
| Sep (c : N).

Fixpoint matches (pattern : list token) (s : jsstring) : bool :=
  match pattern with
  | [] => match s with [] => true | _ => false end
  | Sep c :: pattern' =>
    match s with
    | x :: s' => (x =? c)%N && matches pattern' s'
    | [] => false
    end
  | Digits min max :: pattern' =>
    let (ds, rest) := spanDigits s in
    (min <=? List.length ds)%nat && (List.length ds <=? max)%nat && matches pattern' rest
  end.

Definition datePatterns : list (list token) :=
  [ [Digits 1 2; Sep 47; Digits 1 2; Sep 47; Digits 4 4];
    [Digits 4 4; Sep 45; Digits 1 2; Sep 45; Digits 1 2];
    [Digits 1 2; Sep 45; Digits 1 2; Sep 45; Digits 4 4];
    [Digits 1 2; Sep 46; Digits 1 2; Sep 46; Digits 4 4];
    [Digits 4 4; Sep 47; Digits 1 2; Sep 47; Digits 1 2] ].

Section DateStrings.

Variable Date_parse : jsstring -> option Z.

Definition isDateString (v : value) : bool :=
  match v with
  | VStr s =>
    existsb (fun pattern => matches pattern s) datePatterns &&
    match Date_parse s with Some _ => true | None => false end
  | _ => false
  end.

End DateStrings.

End Dashboard.

(* ================================================================== *)
(** ** src/unnamed/part_002: the real-time client page *)
(* ================================================================== *)

Module ClientPage.

(** The class of [/[^\d.-]/g]: everything but digits, the dot and the minus
    sign. *)
Definition nonNumericChar (c : N) : bool :=
  negb (isDigit c || (c =? 46)%N || (c =? 45)%N).

(** The number read from one candidate cell: [parseFloat] of the cleaned
    string, or [Number(x)] of a number; [None] for [undefined] and [null]. *)
Definition candidateValue (v : value) : option number :=
  match v with
  | VUndefined | VNull => None
  | VStr s => Some (parseFloat (removeAll nonNumericChar s))
  | VNum n => Some n
  end.

Fixpoint extractNumericValue (row : Row) (fieldNames : list jsstring) : number :=
  match fieldNames with
  | [] => zero
  | fieldName :: rest =>
    match candidateValue (get row fieldName) with
    | Some value =>
      if negb (isNaN value) && isFinite value then abs value
      else extractNumericValue row rest
    | None => extractNumericValue row rest
    end
  end.

(** [sheetsData[sheetName]] is processed only when [Array.isArray] holds;
    [None] stands for any other value. *)
Definition SheetsData := list (jsstring * option (list Row)).

(** [sheets.filter(name => name.toLowerCase().includes(k1) || ...)]. *)
Definition sheetsNamed (keywords : list jsstring) (sheetsData : SheetsData) : SheetsData :=
  filter (fun e => existsb (fun k => includes (toLowerCase (fst e)) k) keywords) sheetsData.

(** The rows visited by [selected.forEach(... data.forEach(row => ...))]. *)
Definition rowsOfSheets (selected : SheetsData) : list Row :=
  flat_map (fun e => match snd e with Some data => data | None => [] end) selected.

(** [a || b] on cells. *)
Definition orElse (a b : value) : value := if toBoolean a then a else b.

(** [String(row.category || row.type || row.source || 'Other')]; the cells
    are strings. *)
Definition categoryOf (row : Row) : jsstring :=
  match orElse (get row (js "category"))
               (orElse (get row (js "type")) (get row (js "source"))) with
  | VStr (c :: s) => c :: s
  | _ => js "Other"
  end.

Record MoneyAcc := {
  m_total : number;
  m_count : nat;
  m_categories : list jsstring
}.

(** The body of the revenue loop and of the expense loop, which differ in
    their candidate fields only. *)
Definition moneyStep (fields : list jsstring) (acc : MoneyAcc) (row : Row) : MoneyAcc :=
  let amount := extractNumericValue row fields in
  let category := categoryOf row in
  if gt amount zero then
    {| m_total := add (m_total acc) amount;
       m_count := S (m_count acc);
       m_categories := ServerPage.setAdd (m_categories acc) category |}
  else acc.

Definition moneyStart : MoneyAcc :=
  {| m_total := zero; m_count := 0; m_categories := [] |}.

Definition revenueAmountFields : list jsstring :=
  [js "amount"; js "revenue"; js "income"; js "value"; js "total"].
Definition expenseAmountFields : list jsstring :=
  [js "amount"; js "expense"; js "cost"; js "value"; js "total"].

Definition revenueSheets : SheetsData -> SheetsData :=
  sheetsNamed [js "revenue"; js "income"; js "sales"; js "earnings"].
Definition expenseSheets : SheetsData -> SheetsData :=
  sheetsNamed [js "expense"; js "cost"; js "expenditure"; js "spending"].

(** [totalRevenue], [revenueStreams] and [revenueCategories] after the
    revenue loop. *)
Definition revenueLoop (sheetsData : SheetsData) : MoneyAcc :=
  fold_left (moneyStep revenueAmountFields)
            (rowsOfSheets (revenueSheets sheetsData)) moneyStart.

(** [totalExpenses], [expenseSources] and [expenseCategories] after the
    expense loop. *)
Definition expenseLoop (sheetsData : SheetsData) : MoneyAcc :=
  fold_left (moneyStep expenseAmountFields)
            (rowsOfSheets (expenseSheets sheetsData)) moneyStart.

Definition expectedYieldNames : list jsstring :=
  [js "expected_yield"; js "expectedYield"; js "target_yield"; js "planned_yield"].
Definition harvestedNames : list jsstring :=
  [js "harvested"; js "actual_yield"; js "harvest_amount"; js "yield"].

Definition productionSheets : SheetsData -> SheetsData :=
  sheetsNamed [js "production"; js "harvest"; js "batch"; js "crop"].

(** [totalExpectedYield] and [totalHarvested] in the production loop. *)
Definition yieldStep (acc : number * number) (row : Row) : number * number :=
  (add (fst acc) (extractNumericValue row expectedYieldNames),
   add (snd acc) (extractNumericValue row harvestedNames)).

Definition yieldStart : number * number := (zero, zero).

Definition yieldLoop (sheetsData : SheetsData) : number * number :=
  fold_left yieldStep (rowsOfSheets (productionSheets sheetsData)) yieldStart.

Definition qualityScoreNames : list jsstring :=
  [js "quality_score"; js "qualityScore"; js "inspection_score"; js "grade"].
Definition rejectedNames : list jsstring :=
  [js "rejected"; js "rejection_count"; js "failed_inspection"].
Definition totalItemNames : list jsstring :=
  [js "total_items"; js "batch_size"; js "quantity"].

Definition qualitySheets : SheetsData -> SheetsData :=
  sheetsNamed [js "quality"; js "inspection"; js "delivery"; js "logistics"].

Record QualityTotals := {
  qualityScores : list number;
  rejectedItems : number;
  totalItems : number
}.

(** The numeric part of the quality loop body. *)
Definition qualityStep (acc : QualityTotals) (row : Row) : QualityTotals :=
  let qualityScore := extractNumericValue row qualityScoreNames in
  let rejected := extractNumericValue row rejectedNames in
  let total := extractNumericValue row totalItemNames in
  {| qualityScores :=
       if gt qualityScore zero then qualityScores acc ++ [qualityScore]
       else qualityScores acc;
     rejectedItems := add (rejectedItems acc) rejected;
     totalItems := add (totalItems acc) total |}.

Definition qualityStart : QualityTotals :=
  {| qualityScores := []; rejectedItems := zero; totalItems := zero |}.

Definition qualityLoop (sheetsData : SheetsData) : QualityTotals :=
  fold_left qualityStep (rowsOfSheets (qualitySheets sheetsData)) qualityStart.

(** [revenueRecords] and [expenseRecords]: the number of rows visited. *)
Definition revenueRecords (sheetsData : SheetsData) : nat :=
  List.length (rowsOfSheets (revenueSheets sheetsData)).
Definition expenseRecords (sheetsData : SheetsData) : nat :=
  List.length (rowsOfSheets (expenseSheets sheetsData)).

(** The totals as the dashboard object reports them. *)
Definition revenueTotal (sheetsData : SheetsData) : number :=
  round (m_total (revenueLoop sheetsData)).
Definition expensesTotal (sheetsData : SheetsData) : number :=
  round (m_total (expenseLoop sheetsData)).

(** *** Sheet types, counters and profit *)

Definition determineSheetType (sheetName : jsstring) : jsstring :=
  let name := toLowerCase sheetName in
  if includes name (js "revenue") || includes name (js "income")
     || includes name (js "sales") then js "revenue"
  else if includes name (js "expense") || includes name (js "cost") then js "expense"
  else if includes name (js "production") || includes name (js "harvest")
          || includes name (js "batch") then js "production"
  else if includes name (js "quality") || includes name (js "inspection") then js "quality"
  else if includes name (js "delivery") || includes name (js "logistics") then js "logistics"
  else js "general".

(** [String(row.status).toLowerCase()] under the guard [row.status]. *)
Definition statusOf (row : Row) : option jsstring :=
  match get row (js "status") with
  | VStr (c :: s) => Some (toLowerCase (c :: s))
  | _ => None
  end.

(** The filter of [activeBatches] in the production block. *)
Definition isGrowing (row : Row) : bool :=
  match statusOf row with
  | Some status =>
    inList status [js "active"; js "growing"; js "in-progress"; js "ongoing"]
  | None => false
  end.

Definition activeBatches (sheetsData : SheetsData) : nat :=
  List.length (filter isGrowing (rowsOfSheets (productionSheets sheetsData))).

(** The delivery counters of the quality block: [totalDeliveries] and
    [onTimeDeliveries]. *)
Definition deliveryStatusOf (row : Row) : option jsstring :=
  match orElse (get row (js "delivery_status")) (get row (js "deliveryStatus")) with
  | VStr (c :: s) => Some (toLowerCase (c :: s))
  | _ => None
  end.

Definition deliveryStep (acc : nat * nat) (row : Row) : nat * nat :=
  match deliveryStatusOf row with
  | Some status =>
    (S (fst acc),
     if includes status (js "on-time") || includes status (js "ontime")
        || eqb status (js "delivered")
     then S (snd acc) else snd acc)
  | None => acc
  end.

Definition deliveryCounts (sheetsData : SheetsData) : nat * nat :=
  fold_left deliveryStep (rowsOfSheets (qualitySheets sheetsData)) (0%nat, 0%nat).

(** [total > 0 ? Math.round((part / total) * 100) : 0] on two counters. *)
Definition roundedShare (part total : nat) : number :=
  if (0 <? total)%nat then round (mul (div (ofNat part) (ofNat total)) (ofZ 100)) else zero.

Definition onTimePercentage (sheetsData : SheetsData) : number :=
  roundedShare (snd (deliveryCounts sheetsData)) (fst (deliveryCounts sheetsData)).

(** The operational counters, over the rows of every sheet. *)
Record OperationCounts := {
  totalOperations : nat;
  activeOperations : nat;
  completedOperations : nat;
  pendingOperations : nat
}.

Definition operationStep (acc : OperationCounts) (row : Row) : OperationCounts :=
  match statusOf row with
  | Some status =>
    if inList status [js "active"; js "ongoing"; js "in-progress"; js "processing"] then
      {| totalOperations := S (totalOperations acc);
         activeOperations := S (activeOperations acc);
         completedOperations := completedOperations acc;
         pendingOperations := pendingOperations acc |}
    else if inList status [js "completed"; js "finished"; js "done"; js "delivered"] then
      {| totalOperations := S (totalOperations acc);
         activeOperations := activeOperations acc;
         completedOperations := S (completedOperations acc);
         pendingOperations := pendingOperations acc |}
    else if inList status [js "pending"; js "scheduled"; js "planned"; js "waiting"] then
      {| totalOperations := S (totalOperations acc);
         activeOperations := activeOperations acc;
         completedOperations := completedOperations acc;
         pendingOperations := S (pendingOperations acc) |}
    else
      {| totalOperations := S (totalOperations acc);
         activeOperations := activeOperations acc;
         completedOperations := completedOperations acc;
         pendingOperations := pendingOperations acc |}
  | None => acc
  end.

Definition operationStart : OperationCounts :=
  {| totalOperations := 0; activeOperations := 0; completedOperations := 0;
     pendingOperations := 0 |}.

Definition operationCounts (sheetsData : SheetsData) : OperationCounts :=
  fold_left operationStep (rowsOfSheets sheetsData) operationStart.

Definition completionRate (sheetsData : SheetsData) : number :=
  roundedShare (completedOperations (operationCounts sheetsData))
               (totalOperations (operationCounts sheetsData)).

(** [profit], [profitMargin] and [revenueTrend]. *)
Definition profit (sheetsData : SheetsData) : number :=
  sub (m_total (revenueLoop sheetsData)) (m_total (expenseLoop sheetsData)).

Definition profitMargin (sheetsData : SheetsData) : number :=
  if gt (m_total (revenueLoop sheetsData)) zero
  then round (mul (div (profit sheetsData) (m_total (revenueLoop sheetsData))) (ofZ 100))
  else zero.

Inductive Trend := up | down | neutral.

Definition revenueTrend (sheetsData : SheetsData) : Trend :=
  if gt (profitMargin sheetsData) (ofZ 20) then up
  else if lt (profitMargin sheetsData) (ofZ 5) then down
  else neutral.

End ClientPage.

(* ================================================================== *)
(** ** src/unnamed/part_005: the sheets library *)
(* ================================================================== *)

Module SheetsLibrary.

(** A cell as the spreadsheet readers deliver it. *)
Inductive cell :=
| CUndefined
| CNull
| CNum (n : number)
| CStr (s : jsstring)
| CBool (b : bool).

Definition cellTruthy (c : cell) : bool :=
  match c with
  | CUndefined | CNull => false
  | CNum n => truthy n
  | CStr [] => false
  | CStr _ => true
  | CBool b => b
  end.

(** [cellValue !== 0]. *)
Definition isZero (n : number) : bool :=
  match n with
  | Fin q => Qeq_bool q 0
  | _ => false
  end.

(** The decimal numeral of a natural number. *)
Definition natString (n : nat) : jsstring :=
  js (NilEmpty.string_of_uint (Nat.to_uint n)).

(** [header || `col_${index + 1}`]. *)
Definition columnKey (header : jsstring) (index : nat) : jsstring :=
  match header with
  | [] => js "col_" ++ natString (S index)
  | _ => header
  end.

(** The name under which [Object.prototype] has an accessor: an assignment
    to it calls the setter and stores no property. *)
Definition protoKey : jsstring := js "__proto__".

(** Storing a property: an existing one keeps its place and a new one goes
    last.  (A key that is an array index is listed before the others by the
    engine; what is proved of the library's rows and snapshots uses
    membership and lookup only, not the order of the properties.) *)
Fixpoint setOwn (obj : Row) (key value : jsstring) : Row :=
  match obj with
  | [] => [(key, value)]
  | (k, v) :: rest =>
    if eqb key k then (k, value) :: rest else (k, v) :: setOwn rest key value
  end.

(** [obj[key] = value] for a string [value].  Under the key [__proto__] the
    setter ignores a value that is not an object, and [obj] stays as it
    is. *)
Definition setProp (obj : Row) (key value : jsstring) : Row :=
  if eqb key protoKey then obj else setOwn obj key value.

Fixpoint setOwnSheet (result : SheetsData) (name : jsstring) (sh : Sheet) : SheetsData :=
  match result with
  | [] => [(name, sh)]
  | (n, old) :: rest =>
    if eqb name n then (n, sh) :: rest else (n, old) :: setOwnSheet rest name sh
  end.

(** [result[name] = sheet].  Under the name [__proto__] the setter makes the
    sheet the prototype of [result] and stores no property.  The prototype
    has the properties [headers] and [rows] only, which are no sheet names
    that the pipeline looks up, so the model keeps [result] as it is. *)
Definition setSheet (result : SheetsData) (name : jsstring) (sh : Sheet) : SheetsData :=
  if eqb name protoKey then result else setOwnSheet result name sh.

Definition emptySheet : Sheet := {| headers := Some []; rows := Some [] |}.

(** [createDemoData()]. *)
Definition createDemoData : SheetsData :=
  [
    (js "Revenue Tracking",
     {| headers := Some [js "Date"; js "Source"; js "Amount"; js "Category"; js "Status"];
        rows := Some
          [ [(js "Date", js "2025-09-01"); (js "Source", js "Product Sales"); (js "Amount", js "₹125,000"); (js "Category", js "Sales"); (js "Status", js "Completed")];
            [(js "Date", js "2025-09-02"); (js "Source", js "Service Revenue"); (js "Amount", js "₹85,000"); (js "Category", js "Services"); (js "Status", js "Completed")];
            [(js "Date", js "2025-09-03"); (js "Source", js "Consulting"); (js "Amount", js "₹45,000"); (js "Category", js "Professional"); (js "Status", js "Pending")];
            [(js "Date", js "2025-09-04"); (js "Source", js "License Fees"); (js "Amount", js "₹30,000"); (js "Category", js "Licensing"); (js "Status", js "Completed")];
            [(js "Date", js "2025-09-05"); (js "Source", js "Subscription"); (js "Amount", js "₹75,000"); (js "Category", js "Recurring"); (js "Status", js "Completed")] ] |});
    (js "Expense Tracking",
     {| headers := Some [js "Date"; js "Vendor"; js "Amount"; js "Category"; js "Status"];
        rows := Some
          [ [(js "Date", js "2025-09-01"); (js "Vendor", js "Office Supplies"); (js "Amount", js "₹15,000"); (js "Category", js "Operations"); (js "Status", js "Paid")];
            [(js "Date", js "2025-09-02"); (js "Vendor", js "Marketing Agency"); (js "Amount", js "₹45,000"); (js "Category", js "Marketing"); (js "Status", js "Paid")];
            [(js "Date", js "2025-09-03"); (js "Vendor", js "Software Licenses"); (js "Amount", js "₹25,000"); (js "Category", js "Technology"); (js "Status", js "Pending")];
            [(js "Date", js "2025-09-04"); (js "Vendor", js "Travel Expenses"); (js "Amount", js "₹18,000"); (js "Category", js "Travel"); (js "Status", js "Paid")];
            [(js "Date", js "2025-09-05"); (js "Vendor", js "Utilities"); (js "Amount", js "₹12,000"); (js "Category", js "Utilities"); (js "Status", js "Paid")] ] |});
    (js "Production Data",
     {| headers := Some [js "Batch ID"; js "Product"; js "Quantity"; js "Status"; js "Date"];
        rows := Some
          [ [(js "Batch ID", js "BTH-001"); (js "Product", js "Organic Rice"); (js "Quantity", js "500 kg"); (js "Status", js "Active"); (js "Date", js "2025-09-01")];
            [(js "Batch ID", js "BTH-002"); (js "Product", js "Wheat Flour"); (js "Quantity", js "300 kg"); (js "Status", js "Completed"); (js "Date", js "2025-09-02")];
            [(js "Batch ID", js "BTH-003"); (js "Product", js "Pulses Mix"); (js "Quantity", js "200 kg"); (js "Status", js "Active"); (js "Date", js "2025-09-03")];
            [(js "Batch ID", js "BTH-004"); (js "Product", js "Spice Blend"); (js "Quantity", js "150 kg"); (js "Status", js "Processing"); (js "Date", js "2025-09-04")];
            [(js "Batch ID", js "BTH-005"); (js "Product", js "Organic Oils"); (js "Quantity", js "100 L"); (js "Status", js "Active"); (js "Date", js "2025-09-05")] ] |});
    (js "Inventory Management",
     {| headers := Some [js "Item"; js "Current Stock"; js "Minimum Required"; js "Unit Price"; js "Status"];
        rows := Some
          [ [(js "Item", js "Raw Rice"); (js "Current Stock", js "2500 kg"); (js "Minimum Required", js "1000 kg"); (js "Unit Price", js "₹45/kg"); (js "Status", js "In Stock")];
            [(js "Item", js "Wheat"); (js "Current Stock", js "1800 kg"); (js "Minimum Required", js "800 kg"); (js "Unit Price", js "₹35/kg"); (js "Status", js "In Stock")];
            [(js "Item", js "Packaging Materials"); (js "Current Stock", js "500 units"); (js "Minimum Required", js "200 units"); (js "Unit Price", js "₹15/unit"); (js "Status", js "Low Stock")];
            [(js "Item", js "Labels"); (js "Current Stock", js "1000 units"); (js "Minimum Required", js "300 units"); (js "Unit Price", js "₹5/unit"); (js "Status", js "In Stock")];
            [(js "Item", js "Storage Containers"); (js "Current Stock", js "150 units"); (js "Minimum Required", js "100 units"); (js "Unit Price", js "₹125/unit"); (js "Status", js "In Stock")] ] |}) ].

Section Readers.

(** [String(x)] of a number, Number::toString, is a parameter. *)
Variable numberToString : number -> jsstring.

Definition String_ (c : cell) : jsstring :=
  match c with
  | CUndefined => js "undefined"
  | CNull => js "null"
  | CNum n => numberToString n
  | CStr s => s
  | CBool true => js "true"
  | CBool false => js "false"
  end.

(** **** fetchPublishedSheet *)

Definition publishedHeader (h : cell) : jsstring :=
  match h with
  | CUndefined | CNull => []
  | _ => trim (String_ h)
  end.

(** The string stored for a cell, and whether the cell sets [hasData]. *)
Definition publishedCell (c : cell) : jsstring * bool :=
  match c with
  | CUndefined | CNull => ([], false)
  | CNum n => (numberToString n, negb (isZero n))
  | _ => let stringValue := trim (String_ c) in (stringValue, negb (eqb stringValue []))
  end.

(** [headers.forEach((header, index) => ...)] on one row. *)
Fixpoint publishedRowFrom (index : nat) (headers : list jsstring) (row : list cell)
         (obj : Row) (hasData : bool) : Row * bool :=
  match headers with
  | [] => (obj, hasData)
  | header :: rest =>
    let (stringValue, data) := publishedCell (nth index row CUndefined) in
    publishedRowFrom (S index) rest row
                     (setProp obj (columnKey header index) stringValue)
                     (hasData || data)
  end.

Definition publishedRow (headers : list jsstring) (row : list cell) : Row * bool :=
  publishedRowFrom 0 headers row [] false.

Definition MAX_CONSECUTIVE_EMPTY : nat := 5.

(** The [for] loop over the data rows; [consecutiveEmptyRows] is its
    counter, and reaching the maximum is its [break]. *)
Fixpoint collectRows (headers : list jsstring) (data : list (list cell))
         (consecutiveEmptyRows : nat) : list Row :=
  match data with
  | [] => []
  | row :: rest =>
    let (obj, hasData) := publishedRow headers row in
    if hasData then obj :: collectRows headers rest 0
    else if (MAX_CONSECUTIVE_EMPTY <=? S consecutiveEmptyRows)%nat then []
         else collectRows headers rest (S consecutiveEmptyRows)
  end.

Definition publishedSheet (jsonData : list (list cell)) : Sheet :=
  match jsonData with
  | [] => emptySheet
  | first :: data =>
    let headers := map publishedHeader first in
    {| headers := Some headers; rows := Some (collectRows headers data 0) |}
  end.

(** The workbook is the list of its sheets, each with the rows that
    [sheet_to_json] returns for it. *)
Definition fetchPublishedSheet (workbook : list (jsstring * list (list cell))) : SheetsData :=
  fold_left (fun result e => setSheet result (fst e) (publishedSheet (snd e))) workbook [].

(** **** getAllSheets *)

(** [String(h || "").trim()]. *)
Definition apiHeader (h : cell) : jsstring :=
  if cellTruthy h then trim (String_ h) else [].

(** [r[i] !== undefined && r[i] !== null ? String(r[i]) : ""]. *)
Definition apiCell (c : cell) : jsstring :=
  match c with
  | CUndefined | CNull => []
  | _ => String_ c
  end.

Fixpoint apiRowFrom (index : nat) (headers : list jsstring) (r : list cell)
         (obj : Row) : Row :=
  match headers with
  | [] => obj
  | h :: rest =>
    apiRowFrom (S index) rest r (setProp obj (columnKey h index) (apiCell (nth index r CUndefined)))
  end.

Definition apiRow (headers : list jsstring) (r : list cell) : Row :=
  apiRowFrom 0 headers r [].

Definition apiSheet (values : list (list cell)) : Sheet :=
  match values with
  | [] => emptySheet
  | first :: data =>
    let headers := map apiHeader first in
    {| headers := Some headers; rows := Some (map (apiRow headers) data) |}
  end.

(** [titles[idx]] beside each value range; a range beyond the titles is
    stored under the key that [undefined] converts to. *)
Fixpoint titled (idx : nat) (titles : list jsstring) (ranges : list (list (list cell)))
  : list (jsstring * list (list cell)) :=
  match ranges with
  | [] => []
  | values :: rest => (nth idx titles (js "undefined"), values) :: titled (S idx) titles rest
  end.

(** The [forEach] over the value ranges. *)
Definition apiSnapshot (titles : list jsstring) (ranges : list (list (list cell)))
  : SheetsData :=
  fold_left (fun result e => setSheet result (fst e) (apiSheet (snd e)))
            (titled 0 titles ranges) [].

(** [.map(s => s.properties?.title).filter(Boolean)]: the titles that are
    non-empty strings. *)
Definition truthyTitles (sheetTitles : list (option jsstring)) : list jsstring :=
  flat_map (fun t => match t with Some (c :: r) => [c :: r] | _ => [] end) sheetTitles.

(** What [getAllSheets] meets: the spreadsheet id of the environment, the
    workbook that a published spreadsheet downloads as, and the answers of
    the two requests to the Sheets API.  [None] is a missing variable, a
    failed download, or a request that throws (also when the client cannot
    be created). *)
Record Environment := {
  spreadsheetId : option jsstring;
  workbook : option (list (jsstring * list (list cell)));
  sheetTitles : option (list (option jsstring));
  valueRanges : option (list (list (list cell)))
}.

(** [getAllSheets]; [None] when [getEnv] throws, which is outside the [try]
    blocks, so that the promise is rejected. *)
Definition getAllSheets (env : Environment) : option SheetsData :=
  match spreadsheetId env with
  | None | Some [] => None
  | Some id =>
    if startsWith (js "2PACX") id then
      match workbook env with
      | Some wb => Some (fetchPublishedSheet wb)
      | None => Some createDemoData
      end
    else
      match sheetTitles env with
      | None => Some createDemoData
      | Some sheets =>
        match truthyTitles sheets with
        | [] => Some createDemoData
        | titles =>
          match valueRanges env with
          | Some ranges => Some (apiSnapshot titles ranges)
          | None => Some createDemoData
          end
        end
      end
    end.

End Readers.

End SheetsLibrary.

(* ================================================================== *)
(** ** src/lib/useRealTimeSheetsData.ts: the retry schedule *)
(* ================================================================== *)

Module RealTimeHook.

(** How one fetch ends: with data, with an error whose message contains
    [aborted], or with another error. *)
Inductive fetchOutcome :=
| Succeeded
| Aborted
| Failed.

(** Where the chain of attempts ends: [setConnectionStatus('connected')],
    [setConnectionStatus('disconnected')], or the silent return of the
    abort branch. *)
Inductive ending :=
| Connected
| Disconnected
| Cancelled.

Section Retry.

(** The options, with integer values, and the outcome of each attempt. *)
Variables (retryAttempts retryDelay : Z).
Variable outcome : Z -> fetchOutcome.

(** [fetchData(isRefresh, attempt)] and the calls it schedules through
    [setTimeout]: the delays waited, in order, and the ending.  [remaining]
    is [retryAttempts - attempt], so that [attempt < retryAttempts] reads
    [remaining > 0]. *)
Fixpoint retry (remaining : nat) (attempt : Z) : list Z * ending :=
  match outcome attempt with
  | Succeeded => ([], Connected)
  | Aborted => ([], Cancelled)
  | Failed =>
    match remaining with
    | O => ([], Disconnected)
    | S remaining' =>
      let delay := (retryDelay * 2 ^ (attempt - 1))%Z in
      let (delays, e) := retry remaining' (attempt + 1) in
      (delay :: delays, e)
    end
  end.

Definition fetchData (attempt : Z) : list Z * ending :=
  retry (Z.to_nat (retryAttempts - attempt)) attempt.

End Retry.

End RealTimeHook.

(* ================================================================== *)
(** * Reference definitions and example inputs *)
(* ================================================================== *)

Import ServerPage Dashboard.

(** The snapshot of the example: one sheet, header row with [RevenueAmount],
    two rows of category [Sales]. *)
Definition revenueExample : SheetsData :=
  [ (js "Sheet1",
     {| headers := Some [js "Category"; js "RevenueAmount"];
        rows := Some
          [ [(js "Category", js "Sales"); (js "RevenueAmount", js "₹1,000")];
            [(js "Category", js "Sales"); (js "RevenueAmount", js "₹2,000")] ] |}) ].

(** The same rows with the descriptive column named [Type]. *)
Definition revenueExampleTyped : SheetsData :=
  [ (js "Sheet1",
     {| headers := Some [js "Type"; js "RevenueAmount"];
        rows := Some
          [ [(js "Type", js "Sales"); (js "RevenueAmount", js "₹1,000")];
            [(js "Type", js "Sales"); (js "RevenueAmount", js "₹2,000")] ] |}) ].

(** The number of meaningful fields of a record, and whether one of its
    meaningful fields has an important name. *)
Definition meaningfulFields (record : Row) : nat :=
  List.length (filter (fun e => isMeaningful (VStr (snd e))) record).

Definition hasImportantMeaningful (record : Row) : bool :=
  existsb (fun e => isMeaningful (VStr (snd e)) && isImportantField (fst e)) record.

(** The predicate as the specification words it: at least two meaningful
    fields, and at least one field with an important name. *)
Definition isSubstantive_spec (record : Row) : bool :=
  (2 <=? meaningfulFields record)%nat &&
  existsb (fun e => isImportantField (fst e)) record.

(** The records of the quality-filter examples. *)
Definition notesComment : Row := [(js "Notes", js "ok"); (js "Comment", js "fine")].
Definition batchShortNote : Row := [(js "BatchID", js "B1"); (js "Notes", js "x")].
Definition batchNote : Row := [(js "BatchID", js "B1"); (js "Notes", js "ok")].
Definition emptyBatchNotes : Row :=
  [(js "BatchID", js ""); (js "Notes", js "ok"); (js "Comment", js "fine")].

(** The normalizer as the specification words it: strip the comma and the
    currency symbols ₹ $ € £ ¥, drop the unit suffix [kg], parse, and give 0
    when nothing parses or the input is null or undefined. *)
Definition specStrippedChar (c : N) : bool :=
  existsb (N.eqb c) [44; 8377; 36; 8364; 163; 165]%N.

Definition dropSuffix (suffix s : jsstring) : jsstring :=
  if startsWith (rev suffix) (rev s)
  then firstn (List.length s - List.length suffix) s
  else s.

Definition normalizeAmount_spec (v : value) : number :=
  match v with
  | VNull | VUndefined => zero
  | VNum n => if isNaN n then zero else n
  | VStr s =>
    let n := parseFloat (dropSuffix (js "kg") (removeAll specStrippedChar s)) in
    if isNaN n then zero else n
  end.

(** A sheet that the classifier files under production and that carries a
    revenue column. *)
Definition batchesWithRevenue : SheetsData :=
  [ (js "Batches",
     {| headers := Some [js "BatchID"; js "Revenue"];
        rows := Some [ [(js "BatchID", js "B1"); (js "Revenue", js "1000")] ] |}) ].

(** The number of rows of a snapshot. *)
Definition totalRows (sheetsData : SheetsData) : nat :=
  list_sum (map (fun e => match rows (snd e) with
                          | Some rs => List.length rs
                          | None => 0%nat
                          end) sheetsData).

(** The titles of the six leading cards. *)
Definition fixedTitles : list jsstring :=
  [js "Total Revenue"; js "Total Expenses"; js "Net Profit"; js "Active Batches";
   js "Total Harvested"; js "Quality Score"].

(** A snapshot with one recorded delivery. *)
Definition oneDelivery : SheetsData :=
  [ (js "Post_Harvest",
     {| headers := Some [js "Batch"; js "OnTime(0/1)"];
        rows := Some [ [(js "Batch", js "B1"); (js "OnTime(0/1)", js "1")] ] |}) ].

(** The all-zero metric objects. *)
Definition zeroProduction : ProductionMetrics :=
  {| activeBatches := 0; totalExpectedYield := Fin 0; totalHarvested := Fin 0;
     harvestEfficiency := Fin 0 |}.

Definition zeroQuality : QualityMetrics :=
  {| rejectionRate := Fin 0; avgQualityScore := Fin 0; onTimePercentage := Fin 0;
     totalDeliveries := 0; onTimeDeliveries := 0; q_totalHarvested := Fin 0 |}.

Definition zeroFinancialData : FinancialData :=
  {| total := Fin 0; sources := 0; categories := 0; records := 0; trend := neutral |}.

Definition zeroFinancialMetrics : FinancialMetrics :=
  {| revenue := Fin 0; expenses := Fin 0; profit := Fin 0; profitMargin := Fin 0;
     revenueStreams := 0; expenseCategories := 0 |}.

(** A sheet with a header row and no data row, and one whose rows lack every
    column the aggregators look for. *)
Definition sparseSnapshot : SheetsData :=
  [ (js "Batches", {| headers := Some []; rows := Some [] |});
    (js "Harvest_Log", {| headers := Some [js "Note"]; rows := Some [ [(js "Note", js "dry")] ] |}) ].

(** The aggregator as the specification words it: the rows are those of the
    sheets classified [production-batches], and the expected-harvest date is
    read by the value normalizer, which converts serial dates. *)
Definition normalizeDate_spec (Date_parse : jsstring -> option Z) (s : jsstring) : option Z :=
  if isExcelDate (VStr s) then TimeClip (serialToMs (parseFloat s)) else Date_parse s.

Definition productionRows_spec (sheetsData : SheetsData) : list Row :=
  flat_map (fun e =>
              match headers (snd e), rows (snd e) with
              | Some hs, Some rs =>
                if eqb (detectSheetType (fst e) hs) (js "production-batches") then rs else []
              | _, _ => []
              end) sheetsData.

Definition activeBatches_spec (Date_parse : jsstring -> option Z) (now : Z)
           (sheetsData : SheetsData) : nat :=
  List.length
    (filter (fun row =>
               match get row (js "ExpectedHarvest") with
               | VStr s =>
                 match normalizeDate_spec Date_parse s with
                 | Some t => (now <=? t)%Z
                 | None => false
                 end
               | _ => false
               end)
            (productionRows_spec sheetsData)).

(** A sheet classified [production-batches] under another name than
    [Batches], and a [Batches] sheet with a serial expected-harvest date. *)
Definition batchLog : SheetsData :=
  [ (js "Batch_Log",
     {| headers := Some [js "BatchID"; js "ExpectedHarvest"];
        rows := Some [ [(js "BatchID", js "B1"); (js "ExpectedHarvest", js "2999-01-01")] ] |}) ].

Definition serialBatches : SheetsData :=
  [ (js "Batches",
     {| headers := Some [js "BatchID"; js "ExpectedHarvest"];
        rows := Some [ [(js "BatchID", js "B1"); (js "ExpectedHarvest", js "45901")] ] |}) ].

(** The rationals that are binary64 values, but for the upper end of the
    range: at most 53 significant bits, in units of 2^-1074 or more. *)
Definition isFloat (x : Q) : Prop :=
  exists z g, (Z.abs z < 2 ^ 53)%Z /\ (-1074 <= g)%Z /\ x == inject_Z z * 2 ^ g.

(** The rationals that [binary64] leaves as they are. *)
Definition representable (q : Q) : Prop :=
  exists r, binary64 q = Fin r /\ r == q.

(** A total that only ever received non-negative amounts. *)
Definition nonnegative (n : number) : Prop :=
  match n with
  | PInf => True
  | Fin q => 0 <= q /\ representable q
  | _ => False
  end.

(** The number a candidate field offers: its cell parses to a finite
    number. *)
Definition finiteCandidate (row : Row) (fieldName : jsstring) : option number :=
  match ClientPage.candidateValue (get row fieldName) with
  | Some n => if isFinite n then Some n else None
  | None => None
  end.

(** Client-page sheets whose second row carries negative cells. *)
Definition negativeRevenue : ClientPage.SheetsData :=
  [ (js "Revenue", Some [ [(js "amount", js "1000")]; [(js "amount", js "-500")] ]) ].
Definition negativeExpense : ClientPage.SheetsData :=
  [ (js "Expenses", Some [ [(js "amount", js "1000")]; [(js "amount", js "-500")] ]) ].
Definition negativeYield : ClientPage.SheetsData :=
  [ (js "Harvest",
     Some [ [(js "expected_yield", js "1000"); (js "harvested", js "800")];
            [(js "expected_yield", js "-500"); (js "harvested", js "-200")] ]) ].
Definition negativeQuality : ClientPage.SheetsData :=
  [ (js "Quality",
     Some [ [(js "quality_score", js "90"); (js "rejected", js "2"); (js "total_items", js "10")];
            [(js "quality_score", js "-80"); (js "rejected", js "-3"); (js "total_items", js "-10")] ]) ].

(** A string that opens with one to four digits and a date separator, the
    shape shared by the five date patterns. *)
Definition dateShaped (s : jsstring) : Prop :=
  exists ds c rest,
    spanDigits s = (ds, c :: rest) /\ (1 <= List.length ds <= 4)%nat /\
    ((c = 47%N \/ c = 45%N) \/
     (c = 46%N /\ exists fp r, spanDigits rest = (fp, 46%N :: r))).

(** A row whose first yield column is present and empty. *)
Definition emptyFirstYield : Row :=
  [(js "ExpectedYield(kg)", js ""); (js "ExpectedYield", js "100")].

(** A revenue sheet with a negative and a zero cell. *)
Definition mixedRevenue : SheetsData :=
  [ (js "Income",
     {| headers := Some [js "Revenue"];
        rows := Some [ [(js "Revenue", js "1000")]; [(js "Revenue", js "-500")];
                       [(js "Revenue", js "0")] ] |}) ].

(** An amount that [detectFinancialData] adds: positive. *)
Definition positiveAmount (v : number) : Prop :=
  v = PInf \/ exists y, v = Fin y /\ 0 < y.

(** Client-page sheets: one that the revenue loop reads although
    [determineSheetType] calls it [general], and one named for both loops. *)
Definition earningsSheet : ClientPage.SheetsData :=
  [ (js "Earnings", Some [ [(js "amount", js "250")] ]) ].
Definition costOfSales : ClientPage.SheetsData :=
  [ (js "Cost of Sales", Some [ [(js "amount", js "250")] ]) ].

(** Whether a row has a truthy [status]. *)
Definition hasStatus (row : Row) : bool :=
  match ClientPage.statusOf row with Some _ => true | None => false end.

(** The property names that the sheets library gives to the columns,
    column by column. *)
Fixpoint columnKeysFrom (index : nat) (headers : list jsstring) : list jsstring :=
  match headers with
  | [] => []
  | header :: rest =>
    SheetsLibrary.columnKey header index :: columnKeysFrom (S index) rest
  end.

Definition columnKeys (headers : list jsstring) : list jsstring :=
  columnKeysFrom 0 headers.

(** The loop [headers.forEach((h, i) => obj[key h i] = text(r[i]))] that
    both readers run, with the text of a cell left open. *)
Fixpoint fillFrom (text : SheetsLibrary.cell -> jsstring) (index : nat)
         (headers : list jsstring) (r : list SheetsLibrary.cell) (obj : Row) : Row :=
  match headers with
  | [] => obj
  | h :: rest =>
    fillFrom text (S index) rest r
             (SheetsLibrary.setProp obj (SheetsLibrary.columnKey h index)
                                    (text (nth index r SheetsLibrary.CUndefined)))
  end.

(** Number::toString on the integers and the three special values. *)
Definition integerToString (n : number) : jsstring :=
  match n with
  | NaN => js "NaN"
  | PInf => js "Infinity"
  | NInf => js "-Infinity"
  | Fin q => js (NilEmpty.string_of_int (Z.to_int (Qfloor q)))
  end.

(** A sheet with a yield column whose header is repeated, and a row of it. *)
Definition repeatedHeaders : list jsstring :=
  [js "Batch"; js "ExpectedYield"; js ""; js "ExpectedYield"].

Definition repeatedRow : list SheetsLibrary.cell :=
  [SheetsLibrary.CStr (js "B-7"); SheetsLibrary.CNum (ofZ 40);
   SheetsLibrary.CStr (js "note"); SheetsLibrary.CStr (js "")].

(** Rows of a published sheet: two with data, a run of five without, and
    one more with data. *)
Definition blankRow : list SheetsLibrary.cell :=
  [SheetsLibrary.CStr (js "  "); SheetsLibrary.CNum zero; SheetsLibrary.CNull].

Definition dataRow (batch : string) : list SheetsLibrary.cell :=
  [SheetsLibrary.CStr (js batch); SheetsLibrary.CNum (ofZ 12)].

Definition interruptedRows : list (list SheetsLibrary.cell) :=
  [dataRow "B-1"; blankRow; dataRow "B-2"]
    ++ [blankRow; blankRow; []; blankRow; blankRow]
    ++ [dataRow "B-3"].

(** The sheets of a snapshot as the library builds it: both properties are
    there, and every row has the column keys of the headers as its
    properties. *)
Definition rectangular (sh : Sheet) : Prop :=
  exists hs rs,
    headers sh = Some hs /\ rows sh = Some rs /\
    Forall (fun row =>
              NoDup (map fst row) /\
              forall k, In k (map fst row)
                        <-> In k (columnKeys hs) /\ k <> SheetsLibrary.protoKey) rs.

(** The names under which every object finds a property of
    [Object.prototype]: read on a row that has no such column, they give a
    function or an object, never [undefined]. *)
Definition objectPrototypeNames : list jsstring :=
  [js "__defineGetter__"; js "__defineSetter__"; js "__lookupGetter__";
   js "__lookupSetter__"; js "__proto__"; js "constructor"; js "hasOwnProperty";
   js "isPrototypeOf"; js "propertyIsEnumerable"; js "toLocaleString";
   js "toString"; js "valueOf"].

(** A sheet with a column named [__proto__]. *)
Definition protoHeaders : list jsstring := [js "Batch"; js "__proto__"; js "Qty"].
Definition protoRow : list SheetsLibrary.cell :=
  [SheetsLibrary.CStr (js "B-1"); SheetsLibrary.CStr (js "x"); SheetsLibrary.CStr (js "12")].

(** The loop over the sheets that both readers run, with the reading of one
    sheet left open. *)
Definition readSheets (build : list (list SheetsLibrary.cell) -> Sheet)
           (workbook : list (jsstring * list (list SheetsLibrary.cell)))
           (result : SheetsData) : SheetsData :=
  fold_left (fun result e => SheetsLibrary.setSheet result (fst e) (build (snd e)))
            workbook result.

(** A server that fails twice and then answers, and one that never answers. *)
Definition answersThird (attempt : Z) : RealTimeHook.fetchOutcome :=
  if (attempt <? 3)%Z then RealTimeHook.Failed else RealTimeHook.Succeeded.

Definition neverAnswers (attempt : Z) : RealTimeHook.fetchOutcome := RealTimeHook.Failed.

(** The time waited over a list of delays. *)
Definition totalDelay (delays : list Z) : Z := fold_right Z.add 0%Z delays.

(* ================================================================== *)
(** * Verification *)
(* ================================================================== *)

(** ** Strings *)

Lemma eqb_refl (s : jsstring) : eqb s s = true.
Proof. induction s as [|c s IH]; simpl; [reflexivity|]. now rewrite N.eqb_refl. Qed.

Lemma eqb_eq (a b : jsstring) : eqb a b = true <-> a = b.
Proof.
  split.
  - revert b; induction a as [|x a IH]; intros [|y b]; simpl; try discriminate; auto.
    intros H. apply andb_true_iff in H as [Hx Hab].
    apply N.eqb_eq in Hx. f_equal; auto.
  - intros ->. apply eqb_refl.
Qed.

Lemma inList_In (s : jsstring) (l : list jsstring) : inList s l = true <-> In s l.
Proof.
  unfold inList. rewrite existsb_exists. split.
  - intros [x [Hin Heq]]. apply eqb_eq in Heq. now subst.
  - intros Hin. exists s. split; [assumption | apply eqb_refl].
Qed.

Example js_rupee : js "₹1" = [8377; 49]%N.
Proof. reflexivity. Qed.

Example js_astral : js "🌱" = [55356; 57137]%N.
Proof. reflexivity. Qed.

(** ** parseFloat *)

Example parseFloat_examples :
  parseFloat (js " -12.5e1x") = Fin (-125) /\
  parseFloat (js ".5") = Fin (1 # 2) /\
  parseFloat (js "5.e2") = Fin 500 /\
  parseFloat (js "1,000") = Fin 1 /\
  parseFloat (js "abc") = NaN /\
  parseFloat (js "") = NaN /\
  parseFloat (js "-Infinity") = NInf /\
  parseFloat (js "1.8e308") = PInf /\
  parseFloat (js "1e-400") = Fin 0.
Proof. repeat split; vm_compute; reflexivity. Qed.

Example roundFixed_examples :
  roundFixed 1 (mul (div (Fin 200) (Fin 300)) (ofZ 100)) = binary64 (667 # 10) /\
  roundFixed 2 (Fin (-1 # 8)) = binary64 (-13 # 100) /\
  roundFixed 1 NaN = NaN.
Proof. repeat split; vm_compute; reflexivity. Qed.

(** ** Sheet classification (C3) *)

Section Classification.

Variables (name : jsstring) (headers : list jsstring).

(** The loop returns the type of the first matching entry of any table. *)
Lemma detectIn_first (table : list SheetTypeConfig) :
  (exists before config after,
      table = before ++ config :: after /\
      (forall c, In c before -> entryMatches name headers c = false) /\
      entryMatches name headers config = true /\
      detectIn table name headers = cfg_type config)
  \/
  ((forall c, In c table -> entryMatches name headers c = false) /\
   detectIn table name headers = js "general").
Proof.
  induction table as [|config rest IH].
  - right. split; [intros c []| reflexivity].
  - simpl. destruct (entryMatches name headers config) eqn:Hm.
    + left. exists [], config, rest. repeat split; try assumption. intros c [].
    + destruct IH as [(before & c0 & after & Heq & Hno & Hyes & Hres) | [Hno Hres]].
      * left. exists (config :: before), c0, after. subst rest. repeat split; try assumption.
        intros c [<- | Hin]; [assumption | now apply Hno].
      * right. split; [|assumption].
        intros c [<- | Hin]; [assumption | now apply Hno].
Qed.

Lemma entryMatches_iff (config : SheetTypeConfig) :
  entryMatches name headers config = true <->
  (exists keyword, In keyword (cfg_keywords config) /\
                   includes (toUpperCase name) keyword = true)
  \/
  (exists header h, In header (cfg_headers config) /\ In h headers /\
                    h <> [] /\ includes h header = true).
Proof.
  unfold entryMatches, hasKeyword, hasHeader.
  rewrite orb_true_iff, !existsb_exists. split.
  - intros [[k [Hin Hk]] | [hd [Hin Hh]]].
    + left. now exists k.
    + right. apply existsb_exists in Hh as [h [Hh1 Hh2]].
      apply andb_true_iff in Hh2 as [Hne Hinc].
      exists hd, h. repeat split; try assumption.
      intros ->. discriminate.
  - intros [[k [Hin Hk]] | (hd & h & Hin & Hh & Hne & Hinc)].
    + left. now exists k.
    + right. exists hd. split; [assumption|].
      apply existsb_exists. exists h. split; [assumption|].
      apply andb_true_iff. split; [|assumption].
      destruct h; [contradiction|reflexivity].
Qed.

End Classification.

(** C3.  [detectSheetType] returns the type of the first entry of
    [SHEET_TYPE_CONFIG], in declaration order, that matches: one of its
    keywords occurs in the uppercased sheet name, or one of its header
    substrings occurs in some header.  When no entry matches the result is
    [general].  The sheet [Batch_Revenue] with headers [BatchID; Revenue] is
    classified [production-batches], not [financial-revenue]; so it is by
    its name alone, and so is [batch_revenue], whose name matches only once
    it is uppercased.  The name is uppercased with the full Unicode mapping
    ([harveſt] reads [HARVEST]); the headers are compared as they are. *)
Theorem detectSheetType_first_match :
  (forall name headers,
      (exists before config after,
          SHEET_TYPE_CONFIG = before ++ config :: after /\
          (forall c, In c before -> entryMatches name headers c = false) /\
          entryMatches name headers config = true /\
          detectSheetType name headers = cfg_type config)
      \/
      ((forall c, In c SHEET_TYPE_CONFIG -> entryMatches name headers c = false) /\
       detectSheetType name headers = js "general"))
  /\
  (forall name headers config,
      entryMatches name headers config = true <->
      (exists keyword, In keyword (cfg_keywords config) /\
                       includes (toUpperCase name) keyword = true)
      \/
      (exists header h, In header (cfg_headers config) /\ In h headers /\
                        h <> [] /\ includes h header = true))
  /\
  map cfg_type SHEET_TYPE_CONFIG =
    [js "production-batches"; js "harvest-tracking"; js "sourcing-procurement";
     js "post-harvest-logistics"; js "financial-revenue"; js "financial-expense";
     js "production-settings"]
  /\
  detectSheetType (js "Batch_Revenue") [js "BatchID"; js "Revenue"]
    = js "production-batches"
  /\
  detectSheetType (js "Batch_Revenue") [js "BatchID"; js "Revenue"]
    <> js "financial-revenue"
  /\
  (detectSheetType (js "Batch_Revenue") [js "Revenue"] = js "production-batches" /\
   detectSheetType (js "batch_revenue") [js "Revenue"] = js "production-batches" /\
   detectSheetType (js "Ledger") [js "Revenue"] = js "financial-revenue" /\
   detectSheetType (js "Ledger") [js "REVENUE"] = js "general" /\
   detectSheetType (js "Ledger") [js "batchid"] = js "general")
  /\
  (toUpperCase (js "batch_revenue") = js "BATCH_REVENUE" /\
   toUpperCase (js "harveſt") = js "HARVEST" /\
   toUpperCase (js "poﬆ_harveﬆ") = js "POST_HARVEST" /\
   detectSheetType (js "harveſt") [] = js "harvest-tracking" /\
   detectSheetType (js "poﬆ_harveﬆ") [] = js "harvest-tracking").
Proof.
  split; [|split; [|split; [|split; [|split; [|split]]]]].
  - intros name headers. apply detectIn_first.
  - intros name headers config. apply entryMatches_iff.
  - reflexivity.
  - vm_compute. reflexivity.
  - vm_compute. discriminate.
  - repeat split; vm_compute; reflexivity.
  - repeat split; vm_compute; reflexivity.
Qed.

(** The same sheet under a name without a keyword falls through to the
    header tests, still in table order. *)
Example detectSheetType_by_header :
  detectSheetType (js "Ledger") [js "Date"; js "Revenue"] = js "financial-revenue" /\
  detectSheetType (js "Ledger") [js "Date"; js "Note"] = js "general".
Proof. split; vm_compute; reflexivity. Qed.

(** ** The revenue example (C1) *)

(** C1, as stated, fails: the example does not report one category. *)
Lemma revenue_example_not_one_category :
  ~ (total (detectRevenueData revenueExample) = Fin 3000 /\
     (1 <= sources (detectRevenueData revenueExample))%nat /\
     categories (detectRevenueData revenueExample) = 1%nat).
Proof. vm_compute. intros (_ & _ & H). discriminate H. Qed.

Lemma addCell_skips (row : Row) (acc : FinancialAcc) (col : jsstring) :
  gt (cleanNumericValue (get row col)) zero = false -> addCell row acc col = acc.
Proof. unfold addCell. now intros ->. Qed.

Lemma addCategories_no_field (row : Row) (set : list jsstring) :
  (forall field, In field categoryFields -> get row field = VUndefined) ->
  addCategories row set = set.
Proof.
  unfold addCategories. generalize categoryFields as fields.
  intros fields; revert set; induction fields as [|f fields IH]; intros set H; simpl.
  - reflexivity.
  - rewrite (H f (or_introl eq_refl)). apply IH. intros g Hg. apply H. now right.
Qed.

(** C1 (amended).  On the example the revenue aggregator reports total 3000,
    one source, two records and no category: [Category] is not one of the
    descriptive fields (Crop, Variety, Type, Department, Vendor,
    Description).  With the column named [Type] the single category [Sales]
    is counted.  A cell whose amount is not positive adds nothing, and a row
    without descriptive fields adds no category. *)
Theorem revenue_example_amended :
  detectRevenueData revenueExample
    = {| total := Fin 3000; sources := 1; categories := 0; records := 2;
         trend := neutral |}
  /\
  detectRevenueData revenueExampleTyped
    = {| total := Fin 3000; sources := 1; categories := 1; records := 2;
         trend := neutral |}
  /\
  categoryFields
    = [js "Crop"; js "Variety"; js "Type"; js "Department"; js "Vendor"; js "Description"]
  /\
  (forall row acc col,
      gt (cleanNumericValue (get row col)) zero = false -> addCell row acc col = acc)
  /\
  (forall row set,
      (forall field, In field categoryFields -> get row field = VUndefined) ->
      addCategories row set = set).
Proof.
  split; [|split; [|split; [|split]]].
  - vm_compute. reflexivity.
  - vm_compute. reflexivity.
  - reflexivity.
  - apply addCell_skips.
  - apply addCategories_no_field.
Qed.

(** ** The record-quality predicate (C2) *)

Lemma isMeaningful_not_empty (v : value) :
  isMeaningful v = true -> isEmptyValue v = false.
Proof.
  unfold isMeaningful. intros H. apply andb_true_iff in H as [H _].
  now apply negb_true_iff in H.
Qed.

Lemma contentStep_fold (record : Row) (n : nat) (b : bool) :
  fold_left contentStep record (n, b)
  = ((n + meaningfulFields record)%nat, b || hasImportantMeaningful record).
Proof.
  revert n b. induction record as [|[key cell] record IH]; intros n b.
  - simpl. now rewrite Nat.add_0_r, orb_false_r.
  - cbn [fold_left]. unfold contentStep at 2.
    unfold meaningfulFields, hasImportantMeaningful. cbn [filter existsb fst snd].
    destruct (isMeaningful (VStr cell)) eqn:Hm.
    + rewrite (isMeaningful_not_empty _ Hm). cbn [negb andb List.length].
      rewrite andb_true_r. rewrite IH.
      unfold meaningfulFields, hasImportantMeaningful.
      f_equal; [lia|].
      destruct (isImportantField key), b; reflexivity.
    + rewrite IH. reflexivity.
Qed.

(** C2, as stated, fails: the record [{BatchID: "B1", Notes: "x"}] is not
    accepted, and a record with two meaningful fields and an important name
    on an empty field is rejected as well. *)
Lemma batch_short_note_rejected :
  ~ (hasMinimalContent notesComment = false /\ hasMinimalContent batchShortNote = true)
  /\
  hasMinimalContent emptyBatchNotes <> isSubstantive_spec emptyBatchNotes.
Proof.
  split.
  - vm_compute. intros [_ H]. discriminate H.
  - vm_compute. discriminate.
Qed.

(** C2 (amended).  [hasMinimalContent] is the conjunction of two conditions:
    at least two fields are meaningful, and some meaningful field has an
    important name.  It rejects [{Notes: "ok", Comment: "fine"}]; it also
    rejects [{BatchID: "B1", Notes: "x"}], where the one-character note is
    not meaningful and a single meaningful field remains; it accepts
    [{BatchID: "B1", Notes: "ok"}]. *)
Theorem hasMinimalContent_conjunction :
  (forall record,
      hasMinimalContent record
      = (2 <=? meaningfulFields record)%nat && hasImportantMeaningful record)
  /\
  hasMinimalContent notesComment = false
  /\
  (meaningfulFields notesComment = 2%nat /\ hasImportantMeaningful notesComment = false)
  /\
  hasMinimalContent batchShortNote = false
  /\
  (meaningfulFields batchShortNote = 1%nat /\ hasImportantMeaningful batchShortNote = true)
  /\
  hasMinimalContent batchNote = true
  /\
  hasMinimalContent emptyBatchNotes = false.
Proof.
  split.
  - intros record. unfold hasMinimalContent. rewrite contentStep_fold. reflexivity.
  - repeat split; vm_compute; reflexivity.
Qed.

(** ** The amount normalizer (C4) *)

Lemma orZero_not_NaN (n : number) : orZero n <> NaN.
Proof. unfold orZero. destruct n; simpl; try discriminate. destruct (Qeq_bool q 0); discriminate. Qed.

Lemma cleanNumericValue_not_NaN (v : value) : cleanNumericValue v <> NaN.
Proof. destruct v; simpl; try discriminate; apply orZero_not_NaN. Qed.

Lemma removeAll_drop (class : N -> bool) (s1 s2 : jsstring) (c : N) :
  class c = true -> removeAll class (s1 ++ c :: s2) = removeAll class (s1 ++ s2).
Proof.
  intros H. unfold removeAll. rewrite !filter_app. simpl. now rewrite H.
Qed.

Lemma removeAll_keep (class : N -> bool) (s : jsstring) :
  (forall c, In c s -> class c = false) -> removeAll class s = s.
Proof.
  intros H. unfold removeAll. induction s as [|c s IH]; simpl; [reflexivity|].
  rewrite (H c (or_introl eq_refl)). simpl. f_equal. apply IH.
  intros d Hd. apply H. now right.
Qed.

Lemma strippedChar_iff (c : N) :
  strippedChar c = true <-> In c [44; 107; 103; 8377; 36]%N.
Proof.
  unfold strippedChar. rewrite existsb_exists. split.
  - intros [x [Hin Heq]]. apply N.eqb_eq in Heq. now subst.
  - intros Hin. exists c. split; [assumption | apply N.eqb_refl].
Qed.

(** C4, as stated, fails: the euro sign is not stripped, and [k] is removed
    where it is no unit suffix. *)
Lemma euro_not_stripped :
  cleanNumericValue (VStr (js "€100")) <> normalizeAmount_spec (VStr (js "€100"))
  /\
  cleanNumericValue (VStr (js "1k5")) <> normalizeAmount_spec (VStr (js "1k5")).
Proof. split; vm_compute; discriminate. Qed.

(** C4 (amended).  [cleanNumericValue] removes exactly the characters
    [,] [k] [g] [₹] [$], wherever they stand, parses the rest as a float and
    returns 0 when the parse gives NaN or the input is null or undefined; it
    never yields NaN.  It maps ["₹1,25,000"] to 125000 and [""] and [null]
    to 0.  The symbols € £ ¥ are not removed, so ["€100"], ["£100"] and
    ["¥100"] give 0, and [k] and [g] are removed inside a number as well. *)
Theorem cleanNumericValue_amended :
  (forall v, cleanNumericValue v <> NaN)
  /\
  (forall c, strippedChar c = true <-> In c [44; 107; 103; 8377; 36]%N)
  /\
  (forall s1 s2 c,
      strippedChar c = true ->
      cleanNumericValue (VStr (s1 ++ c :: s2)) = cleanNumericValue (VStr (s1 ++ s2)))
  /\
  (forall s,
      (forall c, In c s -> strippedChar c = false) ->
      cleanNumericValue (VStr s) = orZero (parseFloat s))
  /\
  cleanNumericValue (VStr (js "₹1,25,000")) = Fin 125000
  /\
  cleanNumericValue (VStr (js "")) = Fin 0
  /\
  cleanNumericValue VNull = Fin 0
  /\
  cleanNumericValue VUndefined = Fin 0
  /\
  cleanNumericValue (VStr (js "€100")) = Fin 0
  /\
  cleanNumericValue (VStr (js "£100")) = Fin 0
  /\
  cleanNumericValue (VStr (js "¥100")) = Fin 0
  /\
  cleanNumericValue (VStr (js "12.5kg")) = Fin (25 # 2)
  /\
  cleanNumericValue (VStr (js "1k5")) = Fin 15.
Proof.
  split; [apply cleanNumericValue_not_NaN|].
  split; [apply strippedChar_iff|].
  split.
  { intros s1 s2 c H. simpl. now rewrite (removeAll_drop strippedChar s1 s2 c H). }
  split.
  { intros s H. simpl. now rewrite (removeAll_keep strippedChar s H). }
  repeat split; vm_compute; reflexivity.
Qed.

(** ** Revenue and expense columns (C6) *)

Lemma revenue_column (header : jsstring) :
  isRelevantColumn true header
  = negb (eqb header []) && existsb (includes (toLowerCase header)) revenueFields.
Proof.
  unfold isRelevantColumn, searchFields, revenueFields. cbn [existsb].
  destruct (includes (toLowerCase header) (js "revenue")),
           (includes (toLowerCase header) (js "income")),
           (includes (toLowerCase header) (js "sales")),
           (includes header (js "₹")); reflexivity.
Qed.

Lemma expense_column (header : jsstring) :
  isRelevantColumn false header
  = negb (eqb header []) &&
    (existsb (includes (toLowerCase header)) expenseFields
     || (includes header (js "₹") && negb (includes (toLowerCase header) (js "revenue")))).
Proof.
  unfold isRelevantColumn, searchFields, expenseFields. cbn [existsb].
  destruct (includes (toLowerCase header) (js "expense")),
           (includes (toLowerCase header) (js "cost")),
           (includes (toLowerCase header) (js "amount")),
           (includes (toLowerCase header) (js "outstanding")),
           (includes header (js "₹")),
           (includes (toLowerCase header) (js "revenue")); reflexivity.
Qed.

(** C6, as stated, fails: the column [RevenueAmount] is a revenue column and
    an expense column at once. *)
Lemma column_in_both_totals :
  ~ (forall header,
        ~ (isRelevantColumn true header = true /\ isRelevantColumn false header = true)).
Proof.
  intros H. apply (H (js "RevenueAmount")). split; vm_compute; reflexivity.
Qed.

(** The cells of that column are added to both totals. *)
Example revenue_example_both_totals :
  total (detectRevenueData revenueExample) = Fin 3000 /\
  total (detectExpenseData revenueExample) = Fin 3000.
Proof. split; vm_compute; reflexivity. Qed.

(** C6 (amended).  Both detections scan every sheet, whatever its name and
    classification.  A column counts for revenue when its non-empty header,
    in lower case, contains [revenue], [income] or [sales]; it counts for
    expenses when it contains [expense], [cost], [amount] or [outstanding],
    or when the header contains ₹ and not [revenue].  The two tests are
    independent of each other: a header passing both is added to both
    totals, and only a header failing one of them is kept out of that
    total. *)
Theorem financial_columns_amended :
  (forall isRevenue acc name1 name2 sh,
      addSheet isRevenue acc (name1, sh) = addSheet isRevenue acc (name2, sh))
  /\
  (forall header,
      isRelevantColumn true header
      = negb (eqb header []) && existsb (includes (toLowerCase header)) revenueFields)
  /\
  (forall header,
      isRelevantColumn false header
      = negb (eqb header []) &&
        (existsb (includes (toLowerCase header)) expenseFields
         || (includes header (js "₹")
             && negb (includes (toLowerCase header) (js "revenue")))))
  /\
  (revenueFields = [js "revenue"; js "income"; js "sales"] /\
   expenseFields = [js "expense"; js "cost"; js "amount"; js "outstanding"])
  /\
  (forall isRevenue acc name hs r rs,
      relevantColumns isRevenue hs = [] ->
      addSheet isRevenue acc (name, {| headers := Some hs; rows := Some (r :: rs) |}) = acc)
  /\
  (detectSheetType (js "Batches") [js "BatchID"; js "Revenue"] = js "production-batches" /\
   total (detectRevenueData batchesWithRevenue) = Fin 1000)
  /\
  (isRelevantColumn true (js "RevenueAmount") = true /\
   isRelevantColumn false (js "RevenueAmount") = true).
Proof.
  split; [reflexivity|].
  split; [apply revenue_column|].
  split; [apply expense_column|].
  split; [split; reflexivity|].
  split.
  { intros isRevenue acc name hs r rs H. unfold addSheet. cbn [snd rows headers].
    now rewrite H. }
  split; split; vm_compute; reflexivity.
Qed.

(** ** Well-typed snapshots never throw *)

Lemma wellTyped_cons (e : jsstring * Sheet) (sheetsData : SheetsData) :
  wellTyped (e :: sheetsData) ->
  (exists hs rs, headers (snd e) = Some hs /\ rows (snd e) = Some rs) /\
  wellTyped sheetsData.
Proof.
  unfold wellTyped. intros H. inversion H as [|? ? [Hh Hr] Hrest]; subst.
  split; [|assumption].
  destruct (headers (snd e)) as [hs|]; [|contradiction].
  destruct (rows (snd e)) as [rs|]; [|contradiction].
  now exists hs, rs.
Qed.

Lemma countRecords_ok (sheetsData : SheetsData) (sum : nat) :
  wellTyped sheetsData ->
  countRecords sheetsData sum = Ok (sum + totalRows sheetsData)%nat.
Proof.
  revert sum. induction sheetsData as [|[name sh] rest IH]; intros sum H.
  - simpl. now rewrite Nat.add_0_r.
  - apply wellTyped_cons in H as [(hs & rs & Hh & Hr) Hrest].
    cbn [snd] in Hh, Hr. cbn [countRecords]. unfold rowsOf. rewrite Hr. cbn [bind].
    rewrite (IH _ Hrest). unfold totalRows. cbn [map snd]. rewrite Hr.
    unfold list_sum. cbn [fold_right]. f_equal. symmetry. apply Nat.add_assoc.
Qed.

Lemma mapM_ok {A B : Type} (f : A -> result B) (l : list A) :
  (forall a, In a l -> exists b, f a = Ok b) ->
  exists bs, mapM f l = Ok bs /\ List.length bs = List.length l.
Proof.
  induction l as [|a l IH]; intros H.
  - exists []. split; reflexivity.
  - destruct (H a (or_introl eq_refl)) as [b Hb].
    destruct IH as [bs [Hbs Hlen]]; [intros x Hx; apply H; now right|].
    exists (b :: bs). cbn [mapM]. rewrite Hb. cbn [bind]. rewrite Hbs. cbn [bind].
    split; [reflexivity | simpl; now rewrite Hlen].
Qed.

Lemma wellTyped_In (sheetsData : SheetsData) (e : jsstring * Sheet) :
  wellTyped sheetsData -> In e sheetsData ->
  exists hs rs, headers (snd e) = Some hs /\ rows (snd e) = Some rs.
Proof.
  unfold wellTyped. rewrite Forall_forall. intros H Hin.
  destruct (H e Hin) as [Hh Hr].
  destruct (headers (snd e)) as [hs|]; [|contradiction].
  destruct (rows (snd e)) as [rs|]; [|contradiction].
  now exists hs, rs.
Qed.

Lemma sheetInfo_ok (e : jsstring * Sheet) :
  (exists hs rs, headers (snd e) = Some hs /\ rows (snd e) = Some rs) ->
  exists i, sheetInfo e = Ok i.
Proof.
  destruct e as [name sh]. cbn [snd]. intros (hs & rs & Hh & Hr).
  unfold sheetInfo, headersOf, rowsOf. rewrite Hh, Hr. cbn [bind]. eexists. reflexivity.
Qed.

Lemma sheetConfig_ok (e : jsstring * Sheet) :
  (exists hs rs, headers (snd e) = Some hs /\ rows (snd e) = Some rs) ->
  exists c, sheetConfig e = Ok c.
Proof.
  destruct e as [name sh]. cbn [snd]. intros (hs & rs & Hh & Hr).
  unfold sheetConfig, headersOf, rowsOf. rewrite Hh, Hr. cbn [bind]. eexists. reflexivity.
Qed.

(** ** The summary cards (C8) *)

(** The card list of a well-typed snapshot: six fixed cards, the optional
    delivery card, and the record count. *)
Lemma summary_cards_titles (Date_parse : jsstring -> option Z) (now : Z)
      (sheetsData : SheetsData) :
  wellTyped sheetsData ->
  exists cards,
    generateAgriculturalSummaryCards Date_parse now sheetsData = Ok cards /\
    (7 <= List.length cards <= 8)%nat.
Proof.
  intros Hwt. unfold generateAgriculturalSummaryCards.
  rewrite (countRecords_ok 0 Hwt). cbn [bind].
  eexists. split; [reflexivity|].
  rewrite !length_app. unfold onTimeCard.
  destruct (0 <? totalDeliveries (calculateHarvestMetrics sheetsData))%nat;
    cbn [List.length]; lia.
Qed.

Lemma oneDelivery_wellTyped : wellTyped oneDelivery.
Proof. unfold wellTyped, oneDelivery. repeat constructor; discriminate. Defined.

(** C8.  For every well-typed snapshot the card list is produced, and its
    titles are, in this order: Total Revenue, Total Expenses, Net Profit,
    Active Batches, Total Harvested, Quality Score, then On-Time Delivery
    exactly when [totalDeliveries] (the number of rows of the Post_Harvest
    sheet) is at least 1, then Total Records.  With no delivery the On-Time
    Delivery card is absent. *)
Theorem summary_cards_order (Date_parse : jsstring -> option Z) (now : Z)
        (sheetsData : SheetsData) :
  wellTyped sheetsData ->
  exists cards,
    generateAgriculturalSummaryCards Date_parse now sheetsData = Ok cards /\
    totalDeliveries (calculateHarvestMetrics sheetsData)
      = List.length (rowsOrEmpty sheetsData (js "Post_Harvest")) /\
    ((1 <= totalDeliveries (calculateHarvestMetrics sheetsData))%nat ->
     map card_title cards
       = fixedTitles ++ [js "On-Time Delivery"; js "Total Records"]) /\
    (totalDeliveries (calculateHarvestMetrics sheetsData) = 0%nat ->
     map card_title cards = fixedTitles ++ [js "Total Records"] /\
     ~ In (js "On-Time Delivery") (map card_title cards)).
Proof.
  intros Hwt. unfold generateAgriculturalSummaryCards.
  rewrite (countRecords_ok 0 Hwt). cbn [bind].
  eexists. split; [reflexivity|]. split; [reflexivity|].
  rewrite !map_app. cbn [map card_title]. unfold onTimeCard.
  split.
  - intros H. apply Nat.ltb_lt in H. rewrite H. reflexivity.
  - intros H. rewrite H. cbn [Nat.ltb Nat.leb map app]. split; [reflexivity|].
    vm_compute. intuition discriminate.
Qed.

Lemma summary_cards_order_witness :
  exists cards,
    generateAgriculturalSummaryCards (fun _ => None) 0%Z oneDelivery = Ok cards /\
    map card_title cards
      = fixedTitles ++ [js "On-Time Delivery"; js "Total Records"].
Proof.
  destruct (summary_cards_order (fun _ => None) 0%Z oneDelivery_wellTyped)
    as (cards & Hcards & _ & Hsome & _).
  exists cards. split; [exact Hcards|]. apply Hsome. vm_compute. repeat constructor.
Defined.

(** ** The dashboard object (C9) *)

Lemma sparseSnapshot_wellTyped : wellTyped sparseSnapshot.
Proof. unfold wellTyped, sparseSnapshot. repeat constructor; discriminate. Defined.

Lemma tryFieldNames_missing (row : Row) (fieldNames : list jsstring) :
  (forall field, In field fieldNames -> get row field = VUndefined) ->
  tryFieldNames row fieldNames = zero.
Proof.
  induction fieldNames as [|f fs IH]; intros H; simpl; [reflexivity|].
  rewrite (H f (or_introl eq_refl)). apply IH. intros g Hg. apply H. now right.
Qed.

Lemma production_without_rows (Date_parse : jsstring -> option Z) (now : Z)
      (sheetsData : SheetsData) :
  rowsOrEmpty sheetsData (js "Batches") = [] ->
  rowsOrEmpty sheetsData (js "Harvest_Log") = [] ->
  calculateProductionMetrics Date_parse now sheetsData = zeroProduction.
Proof.
  intros Hb Hh. unfold calculateProductionMetrics. rewrite Hb, Hh. reflexivity.
Qed.

Lemma quality_without_rows (sheetsData : SheetsData) :
  rowsOrEmpty sheetsData (js "Harvest_Log") = [] ->
  rowsOrEmpty sheetsData (js "Post_Harvest") = [] ->
  calculateHarvestMetrics sheetsData = zeroQuality.
Proof.
  intros Hh Hp. unfold calculateHarvestMetrics. rewrite Hh, Hp. reflexivity.
Qed.

Lemma addSheet_no_rows (isRevenue : bool) (acc : FinancialAcc) (e : jsstring * Sheet) :
  rows (snd e) = Some [] -> addSheet isRevenue acc e = acc.
Proof. intros H. unfold addSheet. now rewrite H. Qed.

Lemma financial_without_rows (sheetsData : SheetsData) (isRevenue : bool) :
  (forall e, In e sheetsData -> rows (snd e) = Some []) ->
  detectFinancialData sheetsData isRevenue = zeroFinancialData.
Proof.
  intros H. unfold detectFinancialData.
  assert (Hfold : forall acc, fold_left (addSheet isRevenue) sheetsData acc = acc).
  { induction sheetsData as [|e rest IH]; intros acc; [reflexivity|].
    cbn [fold_left]. rewrite addSheet_no_rows by (apply H; now left).
    apply IH. intros x Hx. apply H. now right. }
  rewrite Hfold. reflexivity.
Qed.

(** C9.  For every snapshot of the declared type -- the empty mapping,
    sheets with empty header or row lists and rows without the expected
    columns included -- [generateDynamicDashboard] returns a dashboard object
    and does not throw.  The object describes every sheet, and where the
    input has nothing to offer its fields are zero or empty: no Batches and
    Harvest_Log rows give the zero production metrics, no Harvest_Log and
    Post_Harvest rows the zero quality metrics, sheets without rows the zero
    revenue, expense and financial metrics, and a row without any candidate
    column resolves to 0. *)
Theorem dashboard_fully_populated (Date_parse : jsstring -> option Z) (now : Z)
        (sheetsData : SheetsData) :
  wellTyped sheetsData ->
  exists d,
    generateDynamicDashboard Date_parse now sheetsData = Ok d /\
    (totalSheets (metadata d) = List.length sheetsData /\
     totalRecords (metadata d) = totalRows sheetsData /\
     List.length (sheets d) = List.length sheetsData /\
     List.length (sheetsConfig d) = List.length sheetsData /\
     (7 <= List.length (summaryCards d) <= 8)%nat) /\
    (production d = calculateProductionMetrics Date_parse now sheetsData /\
     quality d = calculateHarvestMetrics sheetsData /\
     dash_revenue d = detectRevenueData sheetsData /\
     dash_expenses d = detectExpenseData sheetsData /\
     financial d = calculateFinancialMetrics sheetsData /\
     financialMetrics d = calculateFinancialMetrics sheetsData) /\
    (rowsOrEmpty sheetsData (js "Batches") = [] ->
     rowsOrEmpty sheetsData (js "Harvest_Log") = [] ->
     production d = zeroProduction) /\
    (rowsOrEmpty sheetsData (js "Harvest_Log") = [] ->
     rowsOrEmpty sheetsData (js "Post_Harvest") = [] ->
     quality d = zeroQuality) /\
    ((forall e, In e sheetsData -> rows (snd e) = Some []) ->
     dash_revenue d = zeroFinancialData /\
     dash_expenses d = zeroFinancialData /\
     financial d = zeroFinancialMetrics) /\
    (forall row fieldNames,
        (forall field, In field fieldNames -> get row field = VUndefined) ->
        tryFieldNames row fieldNames = zero).
Proof.
  intros Hwt. unfold generateDynamicDashboard.
  rewrite (countRecords_ok 0 Hwt). cbn [bind].
  destruct (summary_cards_titles Date_parse now Hwt) as (cards & Hcards & Hlen).
  rewrite Hcards. cbn [bind].
  destruct (mapM_ok sheetInfo sheetsData) as (infos & Hinfos & Hli).
  { intros e He. apply sheetInfo_ok. now apply wellTyped_In with sheetsData. }
  destruct (mapM_ok sheetConfig sheetsData) as (confs & Hconfs & Hlc).
  { intros e He. apply sheetConfig_ok. now apply wellTyped_In with sheetsData. }
  rewrite Hinfos, Hconfs. cbn [bind].
  eexists. split; [reflexivity|].
  cbn [metadata totalSheets totalRecords sheets sheetsConfig summaryCards production
       quality dash_revenue dash_expenses financial financialMetrics].
  split; [repeat split; try assumption; lia|].
  split; [repeat split|].
  split; [apply production_without_rows|].
  split; [apply quality_without_rows|].
  split; [|apply tryFieldNames_missing].
  intros H. unfold detectRevenueData, detectExpenseData, calculateFinancialMetrics.
  unfold detectRevenueData, detectExpenseData.
  rewrite !(financial_without_rows sheetsData _ H). repeat split.
Qed.

Lemma dashboard_fully_populated_witness :
  exists d,
    generateDynamicDashboard (fun _ => None) 0%Z sparseSnapshot = Ok d /\
    List.length (sheets d) = 2%nat /\
    totalRecords (metadata d) = 1%nat /\
    dash_revenue d = zeroFinancialData.
Proof.
  destruct (dashboard_fully_populated (fun _ => None) 0%Z sparseSnapshot_wellTyped)
    as (d & Hd & (_ & Hrec & Hlen & _) & (_ & _ & Hrev & _) & _).
  exists d. split; [exact Hd|]. split; [exact Hlen|]. split; [exact Hrec|].
  rewrite Hrev. vm_compute. reflexivity.
Defined.

(** On the empty mapping every metric is zero, no sheet is described and the
    seven unconditional cards are listed. *)
Example dashboard_of_empty_mapping (Date_parse : jsstring -> option Z) (now : Z) :
  exists d,
    generateDynamicDashboard Date_parse now [] = Ok d /\
    production d = zeroProduction /\ quality d = zeroQuality /\
    dash_revenue d = zeroFinancialData /\ dash_expenses d = zeroFinancialData /\
    financial d = zeroFinancialMetrics /\ financialMetrics d = zeroFinancialMetrics /\
    sheets d = [] /\ sheetsConfig d = [] /\
    totalSheets (metadata d) = 0%nat /\ totalRecords (metadata d) = 0%nat /\
    map card_title (summaryCards d) = fixedTitles ++ [js "Total Records"].
Proof. eexists. split; [reflexivity|]. repeat split. Qed.

(** The hypothesis of C9 is needed: a sheet recorded without [rows] makes
    the unguarded [sheet.rows.length] throw. *)
Remark dashboard_throws_without_rows :
  generateDynamicDashboard (fun _ => None) 0%Z
    [ (js "Sheet1", {| headers := Some []; rows := None |}) ] = TypeError.
Proof. reflexivity. Qed.

(** ** The production aggregator (C7) *)

(** C7, as stated, fails twice: a sheet that is classified
    [production-batches] but is not named [Batches] contributes no row, and
    a serial expected-harvest date is not converted. *)
Lemma activeBatches_not_as_specified :
  activeBatches (calculateProductionMetrics (fun _ => Some 32472144000000%Z) 0%Z batchLog)
    <> activeBatches_spec (fun _ => Some 32472144000000%Z) 0%Z batchLog
  /\
  activeBatches (calculateProductionMetrics (fun _ => None) 0%Z serialBatches)
    <> activeBatches_spec (fun _ => None) 0%Z serialBatches.
Proof. split; vm_compute; discriminate. Qed.

Lemma isActiveBatch_iff (Date_parse : jsstring -> option Z) (now : Z) (row : Row) :
  isActiveBatch Date_parse now row = true <->
  exists s t, get row (js "ExpectedHarvest") = VStr s /\ s <> [] /\
              Date_parse s = Some t /\ (now <= t)%Z.
Proof.
  unfold isActiveBatch. split.
  - destruct (get row (js "ExpectedHarvest")) as [| | |s]; try discriminate.
    intros H. apply andb_true_iff in H as [Hne Hd].
    destruct (Date_parse s) as [t|] eqn:Hp; [|discriminate].
    exists s, t. split; [reflexivity|]. split; [|split; [exact Hp|]].
    + intros ->. discriminate.
    + now apply Z.leb_le.
  - intros (s & t & -> & Hne & -> & Hle).
    apply andb_true_iff. split; [|now apply Z.leb_le].
    destruct s; [contradiction|reflexivity].
Qed.

(** C7 (amended).  [calculateProductionMetrics] takes its batch rows from
    the sheet named [Batches] and its harvest rows from the sheet named
    [Harvest_Log], whatever the classification of the sheets: two snapshots
    that agree on these rows give the same metrics.  [activeBatches] counts
    the [Batches] rows whose [ExpectedHarvest] cell is non-empty and is read
    by the [Date] constructor, without serial-date conversion, as a date not
    before the current time; a row without an [ExpectedHarvest] value is not
    counted.  The expected-yield total adds, for each row, the revised yield
    when it is nonzero and the expected yield otherwise. *)
Theorem production_metrics_amended (Date_parse : jsstring -> option Z) (now : Z) :
  (forall sd sd',
      rowsOrEmpty sd (js "Batches") = rowsOrEmpty sd' (js "Batches") ->
      rowsOrEmpty sd (js "Harvest_Log") = rowsOrEmpty sd' (js "Harvest_Log") ->
      calculateProductionMetrics Date_parse now sd
      = calculateProductionMetrics Date_parse now sd')
  /\
  (forall sd,
      activeBatches (calculateProductionMetrics Date_parse now sd)
      = List.length (filter (isActiveBatch Date_parse now) (rowsOrEmpty sd (js "Batches"))))
  /\
  (forall row,
      isActiveBatch Date_parse now row = true <->
      exists s t, get row (js "ExpectedHarvest") = VStr s /\ s <> [] /\
                  Date_parse s = Some t /\ (now <= t)%Z)
  /\
  (forall row,
      get row (js "ExpectedHarvest") = VUndefined \/
      get row (js "ExpectedHarvest") = VStr [] ->
      isActiveBatch Date_parse now row = false)
  /\
  (forall sd,
      totalExpectedYield (calculateProductionMetrics Date_parse now sd)
      = fold_left (fun sum row => add sum (yieldOf row)) (rowsOrEmpty sd (js "Batches")) zero)
  /\
  (forall row,
      (truthy (tryFieldNames row revisedYieldFields) = true ->
       yieldOf row = tryFieldNames row revisedYieldFields) /\
      (truthy (tryFieldNames row revisedYieldFields) = false ->
       yieldOf row = tryFieldNames row expectedYieldFields))
  /\
  yieldOf [ (js "ExpectedYield", js "100"); (js "RevisedYield", js "80") ] = Fin 80
  /\
  yieldOf [ (js "ExpectedYield", js "100"); (js "RevisedYield", js "0") ] = Fin 100.
Proof.
  split.
  { intros sd sd' Hb Hh. unfold calculateProductionMetrics. now rewrite Hb, Hh. }
  split; [reflexivity|].
  split; [apply isActiveBatch_iff|].
  split.
  { intros row [H | H]; unfold isActiveBatch; rewrite H; reflexivity. }
  split; [reflexivity|].
  split.
  { intros row. unfold yieldOf. split; intros ->; reflexivity. }
  split; vm_compute; reflexivity.
Qed.

(** ** Numbers *)

Lemma Qlt_bool_iff (a b : Q) : Qlt_bool a b = true <-> a < b.
Proof.
  unfold Qlt_bool. rewrite negb_true_iff. split.
  - intros H. apply Qnot_le_lt. intros Hle. apply Qle_bool_iff in Hle. congruence.
  - intros H. destruct (Qle_bool b a) eqn:E; [|reflexivity].
    apply Qle_bool_iff in E. exfalso. apply (Qlt_not_le _ _ H E).
Qed.

(** *** Powers of two and binary exponents *)

Lemma pow2_pos (e : Z) : 0 < 2 ^ e.
Proof. apply Qpower_0_lt. reflexivity. Qed.

Lemma pow2_Z (e : Z) : (0 <= e)%Z -> 2 ^ e == inject_Z (2 ^ e).
Proof. intros H. symmetry. apply (Zpower_Qpower 2 e H). Qed.

Lemma pow2_plus (a b : Z) : 2 ^ (a + b) == 2 ^ a * 2 ^ b.
Proof. apply Qpower_plus. discriminate. Qed.

Lemma pow2_minus (a b : Z) : 2 ^ (a - b) == 2 ^ a / 2 ^ b.
Proof. apply Qpower_minus. discriminate. Qed.

Lemma pow2_le (a b : Z) : (a <= b)%Z -> 2 ^ a <= 2 ^ b.
Proof. intros H. apply Qpower_le_compat_l; [exact H | discriminate]. Qed.

Lemma pow2_lt (a b : Z) : (a < b)%Z -> 2 ^ a < 2 ^ b.
Proof. intros H. apply Qpower_lt_compat_l; [exact H | reflexivity]. Qed.

Lemma pow2_lt_inv (a b : Z) : 2 ^ a < 2 ^ b -> (a < b)%Z.
Proof. intros H. apply Qpower_lt_compat_l_inv with 2; [exact H | reflexivity]. Qed.

Lemma pow2_succ (a : Z) : 2 ^ (a + 1) == 2 * 2 ^ a.
Proof. rewrite pow2_plus. change (2 ^ 1) with 2. ring. Qed.

Lemma Qmake_mult_den (n : Z) (d : BinNums.positive) : (n # d) * inject_Z (Zpos d) == inject_Z n.
Proof. unfold Qeq, Qmult, inject_Z. simpl. rewrite Pos.mul_1_r. ring. Qed.

Lemma ilog2_spec (a : Q) : 0 < a -> 2 ^ ilog2 a <= a /\ a < 2 ^ (ilog2 a + 1).
Proof.
  intros Ha. destruct a as [n d].
  assert (Hn : (0 < n)%Z).
  { unfold Qlt in Ha. simpl in Ha. lia. }
  unfold ilog2. cbn [Qnum Qden].
  set (ln := Z.log2 n). set (ld := Z.log2 (Zpos d)).
  destruct (Z.log2_spec n Hn) as [Hn1 Hn2]. fold ln in Hn1, Hn2.
  destruct (Z.log2_spec (Zpos d) eq_refl) as [Hd1 Hd2]. fold ld in Hd1, Hd2.
  assert (Hln : (0 <= ln)%Z) by apply Z.log2_nonneg.
  assert (Hld : (0 <= ld)%Z) by apply Z.log2_nonneg.
  pose proof (Qmake_mult_den n d) as Hnd.
  assert (Hdpos : 0 < inject_Z (Zpos d)) by reflexivity.
  assert (Hup : n # d < 2 ^ (ln - ld + 1)).
  { replace (ln - ld + 1)%Z with ((ln + 1) - ld)%Z by lia.
    rewrite pow2_minus. apply Qlt_shift_div_l; [apply pow2_pos|].
    rewrite (pow2_Z Hld), (pow2_Z (e := ln + 1)) by lia.
    apply Qle_lt_trans with ((n # d) * inject_Z (Zpos d)).
    - apply Qmult_le_l; [exact Ha|]. rewrite <- Zle_Qle. exact Hd1.
    - rewrite Hnd. rewrite <- Zlt_Qlt. exact Hn2. }
  assert (Hlo : 2 ^ (ln - ld - 1) <= n # d).
  { replace (ln - ld - 1)%Z with (ln - (ld + 1))%Z by lia.
    rewrite pow2_minus. apply Qle_shift_div_r; [apply pow2_pos|].
    rewrite (pow2_Z Hln), (pow2_Z (e := ld + 1)) by lia.
    apply Qle_trans with ((n # d) * inject_Z (Zpos d)).
    - rewrite Hnd. rewrite <- Zle_Qle. exact Hn1.
    - apply Qmult_le_l; [exact Ha|]. rewrite <- Zle_Qle. lia. }
  destruct (Qle_bool (2 ^ (ln - ld)) (n # d)) eqn:E.
  - apply Qle_bool_iff in E. split; assumption.
  - split; [exact Hlo|].
    replace (ln - ld - 1 + 1)%Z with (ln - ld)%Z by lia.
    apply Qnot_le_lt. intros H. apply Qle_bool_iff in H. congruence.
Qed.

Lemma ilog2_unique (a : Q) (e : Z) : 2 ^ e <= a -> a < 2 ^ (e + 1) -> ilog2 a = e.
Proof.
  intros H1 H2.
  assert (Ha : 0 < a) by (pose proof (pow2_pos e); lra).
  destruct (ilog2_spec Ha) as [H3 H4].
  assert (e < ilog2 a + 1)%Z by (apply pow2_lt_inv; lra).
  assert (ilog2 a < e + 1)%Z by (apply pow2_lt_inv; lra).
  lia.
Qed.

Lemma ilog2_mono (a b : Q) : 0 < a -> a <= b -> (ilog2 a <= ilog2 b)%Z.
Proof.
  intros Ha Hab.
  destruct (ilog2_spec Ha) as [H1 H2].
  assert (Hb : 0 < b) by lra.
  destruct (ilog2_spec Hb) as [H3 H4].
  assert (ilog2 a < ilog2 b + 1)%Z by (apply pow2_lt_inv; lra).
  lia.
Qed.

Lemma ilog2_lt (a : Q) (k : Z) : 0 < a -> a < 2 ^ k -> (ilog2 a < k)%Z.
Proof.
  intros Ha Hk. destruct (ilog2_spec Ha) as [H1 _]. apply pow2_lt_inv. lra.
Qed.

Lemma ilog2_ge (a : Q) (k : Z) : 2 ^ k <= a -> (k <= ilog2 a)%Z.
Proof.
  intros Hk. assert (Ha : 0 < a) by (pose proof (pow2_pos k); lra).
  destruct (ilog2_spec Ha) as [_ H2].
  assert (k < ilog2 a + 1)%Z by (apply pow2_lt_inv; lra). lia.
Qed.

(** *** Rounding to the nearest integer *)

Lemma roundHalfEven_cases (m : Q) :
  let f := Qfloor m in
  (roundHalfEven m = f /\ m - inject_Z f <= 1 # 2 /\
   (m - inject_Z f == 1 # 2 -> Z.even f = true))
  \/
  (roundHalfEven m = (f + 1)%Z /\ 1 # 2 <= m - inject_Z f /\
   (m - inject_Z f == 1 # 2 -> Z.even f = false)).
Proof.
  cbv zeta. unfold roundHalfEven.
  destruct (Qcompare (m - inject_Z (Qfloor m)) (1 # 2)) eqn:E.
  - apply Qeq_alt in E. destruct (Z.even (Qfloor m)) eqn:Ev.
    + left. split; [reflexivity|]. split; [lra | auto].
    + right. split; [reflexivity|]. split; [lra | auto].
  - apply Qlt_alt in E. left. split; [reflexivity|]. split; [lra|].
    intros H. lra.
  - apply Qgt_alt in E. right. split; [reflexivity|]. split; [lra|].
    intros H. lra.
Qed.

Lemma Qfloor_bounds (m : Q) : inject_Z (Qfloor m) <= m /\ m < inject_Z (Qfloor m) + 1.
Proof.
  split; [apply Qfloor_le|].
  pose proof (Qlt_floor m) as H. rewrite inject_Z_plus in H. exact H.
Qed.

Lemma roundHalfEven_err (m : Q) :
  - (1 # 2) <= inject_Z (roundHalfEven m) - m /\ inject_Z (roundHalfEven m) - m <= 1 # 2.
Proof.
  destruct (Qfloor_bounds m) as [H1 H2].
  destruct (roundHalfEven_cases m) as [(-> & H & _) | (-> & H & _)].
  - lra.
  - rewrite inject_Z_plus. change (inject_Z 1) with 1. lra.
Qed.

Lemma roundHalfEven_Z (z : Z) : roundHalfEven (inject_Z z) = z.
Proof.
  unfold roundHalfEven. rewrite Qfloor_Z.
  assert (E : Qcompare (inject_Z z - inject_Z z) (1 # 2) = Lt).
  { apply Qlt_alt. unfold Qminus. rewrite Qplus_opp_r. reflexivity. }
  now rewrite E.
Qed.

Lemma roundHalfEven_comp (x y : Q) : x == y -> roundHalfEven x = roundHalfEven y.
Proof.
  intros H. unfold roundHalfEven. rewrite (Qfloor_comp _ _ H).
  assert (E : Qcompare (x - inject_Z (Qfloor y)) (1 # 2)
              = Qcompare (y - inject_Z (Qfloor y)) (1 # 2)).
  { apply Qcompare_comp; [now rewrite H | reflexivity]. }
  now rewrite E.
Qed.

Lemma roundHalfEven_mono (x y : Q) : x <= y -> (roundHalfEven x <= roundHalfEven y)%Z.
Proof.
  intros Hxy.
  pose proof (Qfloor_resp_le _ _ Hxy) as Hf.
  destruct (Qfloor_bounds x) as [Hx1 Hx2]. destruct (Qfloor_bounds y) as [Hy1 Hy2].
  destruct (roundHalfEven_cases x) as [(-> & Hx & Hxe) | (-> & Hx & Hxe)];
    destruct (roundHalfEven_cases y) as [(-> & Hy & Hye) | (-> & Hy & Hye)]; try lia.
  destruct (Z.eq_dec (Qfloor x) (Qfloor y)) as [E | E]; [|lia].
  exfalso. rewrite E in *.
  assert (Hx' : x - inject_Z (Qfloor y) == 1 # 2) by lra.
  assert (Hy' : y - inject_Z (Qfloor y) == 1 # 2) by lra.
  specialize (Hxe Hx'). specialize (Hye Hy'). congruence.
Qed.

Lemma roundHalfEven_half : roundHalfEven (1 # 2) = 0%Z.
Proof. reflexivity. Qed.

(** *** The nearest binary64 value of a positive rational *)

Lemma ulpExponent_cases (a : Q) :
  (ilog2 a - 52 <= ulpExponent a)%Z /\ (-1074 <= ulpExponent a)%Z /\
  (ulpExponent a = (ilog2 a - 52)%Z \/ ulpExponent a = (-1074)%Z).
Proof. unfold ulpExponent. lia. Qed.

Lemma scaled_nonneg (a : Q) (e : Z) : 0 < a -> 0 < a / 2 ^ e.
Proof.
  intros Ha. apply Qlt_shift_div_l; [apply pow2_pos|]. now rewrite Qmult_0_l.
Qed.

Lemma roundHalfEven_nonneg (m : Q) : 0 <= m -> (0 <= roundHalfEven m)%Z.
Proof.
  intros H. change 0%Z with (roundHalfEven (inject_Z 0)) at 1.
  rewrite <- (roundHalfEven_Z 0) at 1. now apply roundHalfEven_mono.
Qed.

Lemma mantissa_bound (a : Q) :
  0 < a ->
  (0 <= roundHalfEven (a / 2 ^ ulpExponent a))%Z /\
  ((0 <= ilog2 a + 1 - ulpExponent a)%Z ->
   (roundHalfEven (a / 2 ^ ulpExponent a) <= 2 ^ (ilog2 a + 1 - ulpExponent a))%Z) /\
  ((ilog2 a + 1 - ulpExponent a < 0)%Z -> roundHalfEven (a / 2 ^ ulpExponent a) = 0%Z).
Proof.
  intros Ha. destruct (ilog2_spec Ha) as [_ Hup].
  set (e := ilog2 a) in *. set (ex := ulpExponent a).
  assert (H0 : (0 <= roundHalfEven (a / 2 ^ ex))%Z).
  { apply roundHalfEven_nonneg. apply Qlt_le_weak. now apply scaled_nonneg. }
  assert (Hs : a / 2 ^ ex < 2 ^ (e + 1 - ex)).
  { rewrite pow2_minus. apply Qlt_shift_div_l; [apply pow2_pos|].
    unfold Qdiv. rewrite <- Qmult_assoc, (Qmult_comm (/ 2 ^ ex)), Qmult_inv_r.
    - now rewrite Qmult_1_r.
    - pose proof (pow2_pos ex). lra. }
  split; [exact H0|]. split.
  - intros Hp. rewrite <- (roundHalfEven_Z (2 ^ (e + 1 - ex))).
    apply roundHalfEven_mono. rewrite <- (pow2_Z Hp). now apply Qlt_le_weak.
  - intros Hp.
    assert (H1 : (roundHalfEven (a / 2 ^ ex) <= 0)%Z).
    { rewrite <- roundHalfEven_half. apply roundHalfEven_mono.
      apply Qle_trans with (2 ^ (e + 1 - ex)); [now apply Qlt_le_weak|].
      change (1 # 2) with (2 ^ (-1)). apply pow2_le. lia. }
    lia.
Qed.

Lemma nearestPositive_nonneg (a : Q) : 0 < a -> 0 <= nearestPositive a.
Proof.
  intros Ha. unfold nearestPositive.
  destruct (mantissa_bound Ha) as [H0 _].
  apply Qmult_le_0_compat; [|apply Qlt_le_weak, pow2_pos].
  rewrite <- (Zle_Qle 0). exact H0.
Qed.

Lemma scale_back (m : Q) (e : Z) : m / 2 ^ e * 2 ^ e == m.
Proof.
  unfold Qdiv. rewrite <- Qmult_assoc, (Qmult_comm (/ 2 ^ e)), Qmult_inv_r.
  - apply Qmult_1_r.
  - pose proof (pow2_pos e). lra.
Qed.

Lemma nearestPositive_upper (a : Q) : 0 < a -> nearestPositive a <= 2 ^ (ilog2 a + 1).
Proof.
  intros Ha. unfold nearestPositive.
  destruct (mantissa_bound Ha) as (H0 & H1 & H2).
  set (e := ilog2 a) in *. set (ex := ulpExponent a) in *.
  destruct (Z_lt_le_dec (e + 1 - ex) 0) as [Hp | Hp].
  - rewrite (H2 Hp). rewrite Qmult_0_l. apply Qlt_le_weak, pow2_pos.
  - specialize (H1 Hp).
    apply Qle_trans with (inject_Z (2 ^ (e + 1 - ex)) * 2 ^ ex).
    + apply Qmult_le_compat_r; [|apply Qlt_le_weak, pow2_pos].
      rewrite <- Zle_Qle. exact H1.
    + rewrite <- (pow2_Z Hp), <- pow2_plus.
      replace (e + 1 - ex + ex)%Z with (e + 1)%Z by lia. apply Qle_refl.
Qed.

Lemma nearestPositive_lower (a : Q) :
  0 < a -> (-1074 <= ilog2 a - 52)%Z -> 2 ^ ilog2 a <= nearestPositive a.
Proof.
  intros Ha Hn. unfold nearestPositive.
  destruct (ilog2_spec Ha) as [Hlo _].
  assert (Hex : ulpExponent a = (ilog2 a - 52)%Z) by (unfold ulpExponent; lia).
  rewrite Hex. set (e := ilog2 a) in *.
  assert (Hm : (2 ^ 52 <= roundHalfEven (a / 2 ^ (e - 52)))%Z).
  { rewrite <- (roundHalfEven_Z (2 ^ 52)) at 1. apply roundHalfEven_mono.
    rewrite <- (pow2_Z (e := 52)) by lia.
    apply Qle_shift_div_l; [apply pow2_pos|].
    rewrite <- pow2_plus. replace (52 + (e - 52))%Z with e by lia. exact Hlo. }
  apply Qle_trans with (inject_Z (2 ^ 52) * 2 ^ (e - 52)).
  - rewrite <- (pow2_Z (e := 52)) by lia. rewrite <- pow2_plus.
    replace (52 + (e - 52))%Z with e by lia. apply Qle_refl.
  - apply Qmult_le_compat_r; [|apply Qlt_le_weak, pow2_pos].
    rewrite <- Zle_Qle. exact Hm.
Qed.

Lemma nearestPositive_mono (a b : Q) :
  0 < a -> a <= b -> nearestPositive a <= nearestPositive b.
Proof.
  intros Ha Hab. assert (Hb : 0 < b) by lra.
  pose proof (ilog2_mono Ha Hab) as He.
  destruct (Z.eq_dec (ulpExponent a) (ulpExponent b)) as [E | E].
  - unfold nearestPositive. rewrite E.
    apply Qmult_le_compat_r; [|apply Qlt_le_weak, pow2_pos].
    rewrite <- Zle_Qle. apply roundHalfEven_mono.
    apply Qmult_le_compat_r; [exact Hab|].
    apply Qlt_le_weak, Qinv_lt_0_compat, pow2_pos.
  - assert (Hlt : (ilog2 a < ilog2 b)%Z /\ (-1074 <= ilog2 b - 52)%Z).
    { unfold ulpExponent in E. lia. }
    destruct Hlt as [Hlt Hn].
    apply Qle_trans with (2 ^ (ilog2 a + 1)); [now apply nearestPositive_upper|].
    apply Qle_trans with (2 ^ ilog2 b); [apply pow2_le; lia|].
    now apply nearestPositive_lower.
Qed.

Lemma nearestPositive_err (a : Q) :
  0 < a ->
  - (2 ^ ulpExponent a / 2) <= nearestPositive a - a /\
  nearestPositive a - a <= 2 ^ ulpExponent a / 2.
Proof.
  intros Ha. unfold nearestPositive. set (u := 2 ^ ulpExponent a).
  assert (Hu : 0 < u) by apply pow2_pos.
  destruct (roundHalfEven_err (a / u)) as [H1 H2].
  assert (Hau : a == a / u * u) by (symmetry; apply scale_back).
  set (n := inject_Z (roundHalfEven (a / u))) in *.
  set (m := a / u) in *.
  assert (E : n * u - a == (n - m) * u) by (rewrite Hau at 1; ring).
  rewrite E. split.
  - apply Qle_trans with (- (1 # 2) * u); [apply Qle_lteq; right; field|].
    apply Qmult_le_compat_r; [exact H1 | lra].
  - apply Qle_trans with ((1 # 2) * u); [|apply Qle_lteq; right; field].
    apply Qmult_le_compat_r; [exact H2 | lra].
Qed.

Lemma nearestPositive_exact (x : Q) : 0 < x -> isFloat x -> nearestPositive x == x.
Proof.
  intros Hx (z & g & Hz & Hg & Hxz).
  assert (Hzpos : (0 < z)%Z).
  { destruct (Z_lt_le_dec 0 z) as [H | H]; [exact H|]. exfalso.
    assert (inject_Z z * 2 ^ g <= 0).
    { rewrite <- (Qmult_0_l (2 ^ g)).
      apply Qmult_le_compat_r; [|apply Qlt_le_weak, pow2_pos].
      change (inject_Z z <= inject_Z 0). rewrite <- Zle_Qle. exact H. }
    lra. }
  assert (Hlt : x < 2 ^ (53 + g)).
  { rewrite Hxz, pow2_plus. apply Qmult_lt_compat_r; [apply pow2_pos|].
    rewrite (pow2_Z (e := 53)) by lia. rewrite <- Zlt_Qlt. lia. }
  pose proof (@ilog2_lt x (53 + g) Hx Hlt) as He.
  assert (Hex : (ulpExponent x <= g)%Z) by (unfold ulpExponent; lia).
  unfold nearestPositive. set (ex := ulpExponent x) in *.
  assert (Hscaled : x / 2 ^ ex == inject_Z (z * 2 ^ (g - ex))).
  { rewrite inject_Z_mult, <- (pow2_Z (e := g - ex)) by lia.
    rewrite pow2_minus, Hxz. field. pose proof (pow2_pos ex). lra. }
  rewrite (roundHalfEven_comp Hscaled), roundHalfEven_Z, <- Hscaled.
  apply scale_back.
Qed.

Lemma nearestPositive_float (a : Q) : 0 < a -> isFloat (nearestPositive a).
Proof.
  intros Ha. unfold nearestPositive.
  destruct (mantissa_bound Ha) as (H0 & H1 & H2).
  destruct (ulpExponent_cases a) as (Hx1 & Hx2 & _).
  set (e := ilog2 a) in *. set (ex := ulpExponent a) in *.
  set (n := roundHalfEven (a / 2 ^ ex)) in *.
  assert (Hn : (n <= 2 ^ 53)%Z).
  { destruct (Z_lt_le_dec (e + 1 - ex) 0) as [Hp | Hp].
    - rewrite (H2 Hp). lia.
    - eapply Z.le_trans; [exact (H1 Hp)|]. apply Z.pow_le_mono_r; lia. }
  destruct (Z.eq_dec n (2 ^ 53)) as [E | E].
  - exists (2 ^ 52)%Z, (ex + 1)%Z. split; [lia|]. split; [lia|].
    rewrite E, pow2_succ. change (inject_Z (2 ^ 53)) with (2 * inject_Z (2 ^ 52)). ring.
  - exists n, ex. split; [lia|]. split; [exact Hx2 | reflexivity].
Qed.

(** *** The nearest binary64 value *)

Lemma nearest_pos (q : Q) : 0 < q -> nearest q = nearestPositive q.
Proof.
  intros H. unfold nearest. destruct (Qcompare q 0) eqn:E; [| |reflexivity].
  - apply Qeq_alt in E. lra.
  - apply Qlt_alt in E. lra.
Qed.

Lemma nearest_neg (q : Q) : q < 0 -> nearest q = - nearestPositive (- q).
Proof.
  intros H. unfold nearest. destruct (Qcompare q 0) eqn:E; [|reflexivity|].
  - apply Qeq_alt in E. lra.
  - apply Qgt_alt in E. lra.
Qed.

Lemma nearest_zero (q : Q) : q == 0 -> nearest q = 0.
Proof.
  intros H. unfold nearest. destruct (Qcompare q 0) eqn:E; [reflexivity| |].
  - apply Qlt_alt in E. lra.
  - apply Qgt_alt in E. lra.
Qed.

Lemma sign_cases (q : Q) : q < 0 \/ q == 0 \/ 0 < q.
Proof.
  destruct (Qlt_le_dec q 0) as [H | H]; [now left|].
  destruct (Qlt_le_dec 0 q) as [H' | H']; [now right; right|].
  right. left. lra.
Qed.

Lemma nearest_sign (q : Q) : (0 <= q -> 0 <= nearest q) /\ (q <= 0 -> nearest q <= 0).
Proof.
  destruct (sign_cases q) as [H | [H | H]].
  - rewrite (nearest_neg H).
    assert (Hn : 0 < - q) by lra. pose proof (nearestPositive_nonneg Hn). split; intros; lra.
  - rewrite (nearest_zero H). split; intros; apply Qle_refl.
  - rewrite (nearest_pos H). pose proof (nearestPositive_nonneg H). split; intros; lra.
Qed.

Lemma nearest_mono (x y : Q) : x <= y -> nearest x <= nearest y.
Proof.
  intros Hxy.
  destruct (sign_cases x) as [Hx | [Hx | Hx]].
  - destruct (Qlt_le_dec y 0) as [Hy | Hy].
    + rewrite (nearest_neg Hx), (nearest_neg Hy).
      assert (nearestPositive (- y) <= nearestPositive (- x))
        by (apply nearestPositive_mono; lra).
      lra.
    + apply Qle_trans with 0.
      * apply (nearest_sign x). lra.
      * apply (nearest_sign y). exact Hy.
  - apply Qle_trans with 0.
    + apply (nearest_sign x). lra.
    + apply (nearest_sign y). lra.
  - assert (Hy : 0 < y) by lra.
    rewrite (nearest_pos Hx), (nearest_pos Hy). now apply nearestPositive_mono.
Qed.

Lemma isFloat_opp (x : Q) : isFloat x -> isFloat (- x).
Proof.
  intros (z & g & Hz & Hg & Hx). exists (- z)%Z, g.
  split; [lia|]. split; [exact Hg|]. rewrite Hx, inject_Z_opp. ring.
Qed.

Lemma isFloat_comp (x y : Q) : x == y -> isFloat x -> isFloat y.
Proof. intros H (z & g & Hz & Hg & Hx). exists z, g. now rewrite <- H. Qed.

Lemma isFloat_zero : isFloat 0.
Proof. exists 0%Z, 0%Z. split; [reflexivity|]. split; [lia | reflexivity]. Qed.

Lemma isFloat_Z (z : Z) : (Z.abs z < 2 ^ 53)%Z -> isFloat (inject_Z z).
Proof.
  intros H. exists z, 0%Z. split; [exact H|]. split; [lia|].
  change (2 ^ 0) with 1. ring.
Qed.

Lemma nearest_float (q : Q) : isFloat (nearest q).
Proof.
  destruct (sign_cases q) as [H | [H | H]].
  - rewrite (nearest_neg H). apply isFloat_opp, nearestPositive_float. lra.
  - rewrite (nearest_zero H). apply isFloat_zero.
  - rewrite (nearest_pos H). now apply nearestPositive_float.
Qed.

Lemma nearest_exact (x : Q) : isFloat x -> nearest x == x.
Proof.
  intros Hf. destruct (sign_cases x) as [H | [H | H]].
  - rewrite (nearest_neg H).
    assert (Hn : 0 < - x) by lra.
    rewrite (nearestPositive_exact Hn (isFloat_opp Hf)). ring.
  - rewrite (nearest_zero H). now symmetry.
  - rewrite (nearest_pos H). now apply nearestPositive_exact.
Qed.

Lemma nearest_err (q : Q) (k : Z) :
  Qabs q < 2 ^ k -> (-1021 <= k)%Z ->
  - 2 ^ (k - 54) <= nearest q - q /\ nearest q - q <= 2 ^ (k - 54).
Proof.
  intros Hq Hk.
  assert (Hpos : forall a, 0 < a -> a < 2 ^ k ->
                 - 2 ^ (k - 54) <= nearestPositive a - a /\
                 nearestPositive a - a <= 2 ^ (k - 54)).
  { intros a Ha Hak. destruct (nearestPositive_err Ha) as [H1 H2].
    pose proof (@ilog2_lt a k Ha Hak) as He.
    assert (Hex : (ulpExponent a <= k - 53)%Z) by (unfold ulpExponent; lia).
    assert (Hu : 2 ^ ulpExponent a / 2 <= 2 ^ (k - 54)).
    { apply Qle_trans with (2 ^ (k - 53) / 2).
      - apply Qmult_le_compat_r; [now apply pow2_le | discriminate].
      - replace (k - 53)%Z with (k - 54 + 1)%Z by lia. rewrite pow2_succ.
        apply Qle_lteq. right. field. }
    split; lra. }
  destruct (sign_cases q) as [H | [H | H]].
  - rewrite (nearest_neg H). rewrite Qabs_neg in Hq by lra.
    destruct (Hpos (- q)) as [H1 H2]; [lra | exact Hq|]. split; lra.
  - rewrite (nearest_zero H). pose proof (pow2_pos (k - 54)). split; lra.
  - rewrite (nearest_pos H). rewrite Qabs_pos in Hq by lra. now apply Hpos.
Qed.

Lemma nearestPositive_comp (x y : Q) :
  0 < x -> x == y -> nearestPositive x == nearestPositive y.
Proof.
  intros Hx Hxy. destruct (ilog2_spec Hx) as [H1 H2].
  assert (He : ilog2 y = ilog2 x) by (apply ilog2_unique; rewrite <- Hxy; assumption).
  unfold nearestPositive, ulpExponent. rewrite He.
  assert (Hs : x / 2 ^ Z.max (ilog2 x - 52) (-1074) == y / 2 ^ Z.max (ilog2 x - 52) (-1074))
    by (apply Qdiv_comp; [exact Hxy | reflexivity]).
  now rewrite (roundHalfEven_comp Hs).
Qed.

Lemma nearest_comp (x y : Q) : x == y -> nearest x == nearest y.
Proof.
  intros Hxy. destruct (sign_cases x) as [H | [H | H]].
  - assert (Hy : y < 0) by now rewrite <- Hxy.
    rewrite (nearest_neg H), (nearest_neg Hy).
    assert (Hn : 0 < - x) by lra.
    assert (Hnxy : - x == - y) by now rewrite Hxy.
    now rewrite (nearestPositive_comp Hn Hnxy).
  - assert (Hy : y == 0) by now rewrite <- Hxy.
    rewrite (nearest_zero H), (nearest_zero Hy). reflexivity.
  - assert (Hy : 0 < y) by now rewrite <- Hxy.
    rewrite (nearest_pos H), (nearest_pos Hy). now apply nearestPositive_comp.
Qed.

(** *** binary64 *)

Lemma binary64_cases (q : Q) :
  (binary64 q = PInf /\ 2 ^ 1024 <= nearest q) \/
  (binary64 q = NInf /\ nearest q <= - 2 ^ 1024) \/
  (binary64 q = Fin (Qred (nearest q)) /\
   - 2 ^ 1024 < nearest q /\ nearest q < 2 ^ 1024).
Proof.
  unfold binary64. cbv zeta.
  destruct (Qle_bool (2 ^ 1024) (nearest q)) eqn:E1.
  { left. split; [reflexivity | now apply Qle_bool_iff]. }
  destruct (Qle_bool (nearest q) (- 2 ^ 1024)) eqn:E2.
  { right. left. split; [reflexivity | now apply Qle_bool_iff]. }
  right. right. split; [reflexivity|]. split.
  - apply Qnot_le_lt. intros H. apply Qle_bool_iff in H. congruence.
  - apply Qnot_le_lt. intros H. apply Qle_bool_iff in H. congruence.
Qed.

Lemma binary64_comp (x y : Q) : x == y -> binary64 x = binary64 y.
Proof.
  intros Hxy. pose proof (nearest_comp Hxy) as Hn. unfold binary64. cbv zeta.
  rewrite (Qleb_comp _ _ (Qeq_refl (2 ^ 1024)) _ _ Hn).
  rewrite (Qleb_comp _ _ Hn _ _ (Qeq_refl (- 2 ^ 1024))).
  now rewrite (Qred_complete _ _ Hn).
Qed.

Lemma binary64_mono (x y : Q) : x <= y -> le (binary64 x) (binary64 y) = true.
Proof.
  intros Hxy. pose proof (nearest_mono Hxy) as Hn.
  pose proof (pow2_pos 1024) as Hpos.
  destruct (binary64_cases x) as [[-> Hx] | [[-> Hx] | (-> & Hx1 & Hx2)]];
    destruct (binary64_cases y) as [[-> Hy] | [[-> Hy] | (-> & Hy1 & Hy2)]];
    set (B := 2 ^ 1024) in *; cbn [le]; try reflexivity; try lra.
  apply Qle_bool_iff. now rewrite !Qred_correct.
Qed.

Lemma binary64_exact (x : Q) :
  isFloat x -> Qabs x < 2 ^ 1024 -> binary64 x = Fin (Qred x).
Proof.
  intros Hf Hx. pose proof (nearest_exact Hf) as Hn.
  destruct (binary64_cases x) as [[_ H] | [[_ H] | (-> & _)]].
  - exfalso. rewrite Hn in H. pose proof (Qle_Qabs x). lra.
  - exfalso. rewrite Hn in H. pose proof (Qle_Qabs (- x)) as H'.
    rewrite Qabs_opp in H'. lra.
  - now rewrite (Qred_complete _ _ Hn).
Qed.

Lemma Qred_Z (z : Z) : Qred (inject_Z z) = inject_Z z.
Proof.
  unfold Qred, inject_Z.
  pose proof (Z.ggcd_gcd z 1) as Hg. pose proof (Z.ggcd_correct_divisors z 1) as Hd.
  destruct (Z.ggcd z 1) as [g [nn dd]]. cbn [fst snd] in *.
  rewrite Z.gcd_1_r in Hg. subst g. destruct Hd as [Hn Hd].
  replace nn with z by lia. replace dd with 1%Z by lia. reflexivity.
Qed.

Lemma small_integer (z : Z) : (Z.abs z < 2 ^ 53)%Z -> Qabs (inject_Z z) < 2 ^ 1024.
Proof.
  intros Hz. apply Qlt_trans with (2 ^ 53); [|now apply pow2_lt].
  rewrite (pow2_Z (e := 53)) by lia.
  change (Qabs (inject_Z z)) with (inject_Z (Z.abs z)).
  now rewrite <- Zlt_Qlt.
Qed.

(** Integers below 2^53 in magnitude are binary64 values. *)
Lemma binary64_int (q : Q) (z : Z) :
  q == inject_Z z -> (Z.abs z < 2 ^ 53)%Z -> binary64 q = Fin (inject_Z z).
Proof.
  intros Hq Hz. rewrite (binary64_comp Hq).
  rewrite binary64_exact; [now rewrite Qred_Z | now apply isFloat_Z | now apply small_integer].
Qed.

Lemma binary64_float (q r : Q) : binary64 q = Fin r -> isFloat r.
Proof.
  intros H. destruct (binary64_cases q) as [[E _] | [[E _] | (E & _)]];
    rewrite E in H; try discriminate.
  injection H as <-. apply isFloat_comp with (nearest q).
  - symmetry. apply Qred_correct.
  - apply nearest_float.
Qed.

(** Rounding stays between two integers that are binary64 values. *)
Lemma binary64_between (q : Q) (lo hi : Z) :
  (Z.abs lo < 2 ^ 53)%Z -> (Z.abs hi < 2 ^ 53)%Z ->
  inject_Z lo <= q -> q <= inject_Z hi ->
  exists r, binary64 q = Fin r /\ inject_Z lo <= r /\ r <= inject_Z hi /\ isFloat r.
Proof.
  intros Hlo Hhi H1 H2.
  pose proof (nearest_mono H1) as Hn1. pose proof (nearest_mono H2) as Hn2.
  rewrite (nearest_exact (@isFloat_Z lo Hlo)) in Hn1.
  rewrite (nearest_exact (@isFloat_Z hi Hhi)) in Hn2.
  pose proof (@small_integer lo Hlo) as Hb1. pose proof (@small_integer hi Hhi) as Hb2.
  pose proof (Qle_Qabs (inject_Z hi)) as Hq1.
  pose proof (Qle_Qabs (- inject_Z lo)) as Hq2. rewrite Qabs_opp in Hq2.
  destruct (binary64_cases q) as [[_ H] | [[_ H] | (E & _)]];
    set (B := 2 ^ 1024) in *; try lra.
  exists (Qred (nearest q)). split; [exact E|].
  split; [now rewrite Qred_correct|]. split; [now rewrite Qred_correct|].
  apply isFloat_comp with (nearest q); [symmetry; apply Qred_correct | apply nearest_float].
Qed.

(** The rounding error below 2^k is at most 2^(k-54). *)
Lemma binary64_close (q : Q) (k : Z) :
  Qabs q < 2 ^ k -> (-1021 <= k <= 1023)%Z ->
  exists r, binary64 q = Fin r /\ isFloat r /\
            - 2 ^ (k - 54) <= r - q /\ r - q <= 2 ^ (k - 54).
Proof.
  intros Hq Hk. destruct (@nearest_err q k Hq) as [H1 H2]; [lia|].
  assert (Hs : 2 ^ (k - 54) < 2 ^ k) by (apply pow2_lt; lia).
  assert (Hb : 2 * 2 ^ k <= 2 ^ 1024).
  { rewrite <- pow2_succ. apply pow2_le. lia. }
  pose proof (Qle_Qabs q) as Hq1.
  pose proof (Qle_Qabs (- q)) as Hq2. rewrite Qabs_opp in Hq2.
  pose proof (pow2_pos (k - 54)) as Hp.
  destruct (binary64_cases q) as [[_ H] | [[_ H] | (E & _)]];
    set (B := 2 ^ 1024) in *; set (u := 2 ^ (k - 54)) in *; set (K := 2 ^ k) in *; try lra.
  exists (Qred (nearest q)). split; [exact E|].
  split; [|split; rewrite Qred_correct; assumption].
  apply isFloat_comp with (nearest q); [symmetry; apply Qred_correct | apply nearest_float].
Qed.

Lemma ofZ_int (z : Z) : (Z.abs z < 2 ^ 53)%Z -> ofZ z = Fin (inject_Z z).
Proof. intros Hz. unfold ofZ. now apply binary64_int. Qed.

Lemma Qtrunc_comp (x y : Q) : x == y -> Qtrunc x = Qtrunc y.
Proof.
  intros H. unfold Qtrunc. rewrite H at 1. destruct (Qle_bool 0 y).
  - now apply Qfloor_comp.
  - now apply Qceiling_comp.
Qed.

Lemma Qtrunc_Z (z : Z) : Qtrunc (inject_Z z) = z.
Proof. unfold Qtrunc. destruct (Qle_bool 0 (inject_Z z)); [apply Qfloor_Z | apply Qceiling_Z]. Qed.

(** ** Serial dates (C5) *)

Lemma ofZ_constants :
  ofZ 0 = Fin 0 /\ ofZ 25569 = Fin 25569 /\ ofZ 86400 = Fin 86400 /\
  ofZ 1000 = Fin 1000 /\ ofZ 30000 = Fin 30000 /\ ofZ 2958466 = Fin 2958466.
Proof. repeat split; vm_compute; reflexivity. Qed.

(** Integer literals injected into Q, as numerals. *)
Ltac literals :=
  repeat match goal with
         | |- context [inject_Z ?z] =>
           let v := eval vm_compute in (inject_Z z) in
           progress change (inject_Z z) with v
         | H : context [inject_Z ?z] |- _ =>
           let v := eval vm_compute in (inject_Z z) in
           progress change (inject_Z z) with v in H
         end.

(** On an integer serial every step of the conversion is exact. *)
Lemma serialToMs_int (q : Q) (z : Z) :
  q == inject_Z z -> (30000 < z < 2958466)%Z ->
  serialToMs (Fin q) = Fin (inject_Z ((z - 25569) * 86400000)).
Proof.
  intros Hq Hz. unfold serialToMs.
  destruct ofZ_constants as (-> & -> & -> & -> & _).
  unfold sub. change (neg (Fin 25569)) with (Fin (-25569)). cbn [add].
  rewrite (@binary64_int (q + -25569) (z - 25569)); [| |lia].
  2:{ rewrite Hq. unfold Zminus. rewrite inject_Z_plus. reflexivity. }
  cbn [mul].
  rewrite (@binary64_int (inject_Z (z - 25569) * 86400) ((z - 25569) * 86400));
    [| now rewrite inject_Z_mult | lia].
  cbn [mul].
  rewrite (@binary64_int (inject_Z ((z - 25569) * 86400) * 1000) ((z - 25569) * 86400000));
    [| rewrite <- (inject_Z_mult _ 1000); f_equiv; lia | lia].
  cbn [add].
  apply binary64_int; [| lia].
  rewrite Qplus_0_l. reflexivity.
Qed.

(** On any serial in the range the three roundings move the result by less
    than a sixteenth of a millisecond. *)
Lemma serialToMs_close (q : Q) :
  inject_Z 30000 < q -> q < inject_Z 2958466 ->
  exists r, serialToMs (Fin q) = Fin r /\
            - (1 # 16) <= r - (q - inject_Z 25569) * inject_Z 86400000 /\
            r - (q - inject_Z 25569) * inject_Z 86400000 <= 1 # 16.
Proof.
  intros Hlo Hhi. unfold serialToMs.
  destruct ofZ_constants as (-> & -> & -> & -> & _).
  unfold sub. change (neg (Fin 25569)) with (Fin (-25569)). cbn [add]. literals.
  destruct (@binary64_close (q + -25569) 22) as (x1 & -> & _ & H1 & H1'); [|lia|].
  { change (2 ^ 22) with 4194304. rewrite Qabs_pos; lra. }
  change (2 ^ (22 - 54)) with (1 # 4294967296) in H1, H1'.
  cbn [mul].
  destruct (@binary64_close (x1 * 86400) 38) as (x2 & -> & _ & H2 & H2'); [|lia|].
  { change (2 ^ 38) with 274877906944. rewrite Qabs_pos; lra. }
  change (2 ^ (38 - 54)) with (1 # 65536) in H2, H2'.
  cbn [mul].
  destruct (@binary64_close (x2 * 1000) 48) as (x3 & -> & Hf & H3 & H3'); [|lia|].
  { change (2 ^ 48) with 281474976710656. rewrite Qabs_pos; lra. }
  change (2 ^ (48 - 54)) with (1 # 64) in H3, H3'.
  cbn [add].
  assert (Hf0 : isFloat (0 + x3)).
  { apply isFloat_comp with x3; [now rewrite Qplus_0_l | exact Hf]. }
  rewrite (binary64_exact Hf0).
  - exists (Qred (0 + x3)). split; [reflexivity|]. rewrite Qred_correct. split; lra.
  - apply Qlt_trans with (2 ^ 48); [|apply pow2_lt; lia].
    change (2 ^ 48) with 281474976710656. rewrite Qabs_pos; lra.
Qed.

(** The operand that [isExcelDate] accepts is a finite number strictly
    between 30000 and 2958466. *)
Lemma isExcelDate_bounds (v : value) :
  isExcelDate v = true ->
  exists q, numValue v = Some (Fin q) /\ inject_Z 30000 < q /\ q < inject_Z 2958466.
Proof.
  unfold isExcelDate. destruct (numValue v) as [n|]; [|discriminate].
  destruct ofZ_constants as (_ & _ & _ & _ & -> & ->).
  intros H. apply andb_true_iff in H as [H Hhi]. apply andb_true_iff in H as [_ Hlo].
  destruct n as [| | |q]; try discriminate.
  exists q. split; [reflexivity|].
  unfold gt in Hlo. cbn [lt] in Hlo, Hhi.
  apply Qlt_bool_iff in Hlo, Hhi. split; assumption.
Qed.

Lemma dateOf_serial (Date_parse : jsstring -> option Z) (v : value) (q : Q) :
  isExcelDate v = true -> numValue v = Some (Fin q) ->
  dateOf Date_parse v = TimeClip (serialToMs (Fin q)).
Proof.
  intros He Hn. destruct v as [| |n|s]; try discriminate.
  - cbn [numValue] in Hn. injection Hn as ->. reflexivity.
  - cbn [numValue] in Hn. injection Hn as Hn. unfold dateOf.
    unfold isExcelDate in He. cbn [numValue] in He. rewrite Hn in *.
    apply andb_true_iff in He as [He _]. now rewrite He.
Qed.

Lemma whole_days_no_time (k : Z) :
  getUTCHours (k * 86400000) = 0%Z /\ getUTCMinutes (k * 86400000) = 0%Z.
Proof.
  unfold getUTCHours, getUTCMinutes. split.
  - replace (k * 86400000)%Z with (k * 24 * 3600000)%Z by lia.
    rewrite Z.div_mul by lia. apply Z.mod_mul. lia.
  - replace (k * 86400000)%Z with (k * 24 * 60 * 60000)%Z by lia.
    rewrite Z.div_mul by lia. apply Z.mod_mul. lia.
Qed.

Lemma floor_neighbour (r e : Q) :
  - (1 # 16) <= r - e -> r - e <= 1 # 16 ->
  (Qfloor e - 1 <= Qfloor r <= Qfloor e + 1)%Z.
Proof.
  intros H1 H2.
  destruct (Qfloor_bounds r) as [Hr1 Hr2]. destruct (Qfloor_bounds e) as [He1 He2].
  split.
  - destruct (Z_le_gt_dec (Qfloor e - 1) (Qfloor r)) as [H | H]; [exact H|]. exfalso.
    assert (Hz : (Qfloor r + 2 <= Qfloor e)%Z) by lia.
    rewrite Zle_Qle, inject_Z_plus in Hz. change (inject_Z 2) with 2 in Hz. lra.
  - destruct (Z_le_gt_dec (Qfloor r) (Qfloor e + 1)) as [H | H]; [exact H|]. exfalso.
    assert (Hz : (Qfloor e + 2 <= Qfloor r)%Z) by lia.
    rewrite Zle_Qle, inject_Z_plus in Hz. change (inject_Z 2) with 2 in Hz. lra.
Qed.

(** C5, as stated, fails.  The serial 31904.822 stands for the instant
    547415020800 ms after the epoch, whether the serial is read as the
    decimal or as the binary64 value that [parseFloat] returns, which is
    slightly larger; [formatDate] builds the date 547415020799.  The serial
    45901.1 is 02:24:00.000 on its day; the date built is one millisecond
    earlier and is printed with the minute 23. *)
Lemma serial_date_not_exact :
  (isExcelDate (VStr (js "31904.822")) = true /\
   dateOf (fun _ => None) (VStr (js "31904.822")) = Some 547415020799%Z /\
   ((31904822 # 1000) - inject_Z 25569) * inject_Z 86400000 == inject_Z 547415020800 /\
   exists d, parseFloat (js "31904.822") = Fin d /\
             inject_Z 547415020800 <= (d - inject_Z 25569) * inject_Z 86400000)
  /\
  (isExcelDate (VStr (js "45901.1")) = true /\
   ((459011 # 10) - inject_Z 25569) * inject_Z 86400000 == inject_Z 1756693440000 /\
   getUTCMinutes 1756693440000 = 24%Z /\
   formatDate (fun _ => None) (VStr (js "45901.1")) = DateTime 1756693439999%Z /\
   getUTCMinutes 1756693439999 = 23%Z).
Proof.
  split.
  - split; [vm_compute; reflexivity|]. split; [vm_compute; reflexivity|].
    split; [vm_compute; reflexivity|].
    eexists. split; [vm_compute; reflexivity|].
    apply Qle_bool_iff. vm_compute. reflexivity.
  - repeat split; vm_compute; reflexivity.
Qed.

(** C5 (amended).  For every value that [isExcelDate] recognises -- a
    number, or a string that [parseFloat] reads as a number, strictly
    between 30000 and 2958466 -- [formatDate] builds the date from
    (serial - 25569) * 86400 * 1000, computed in binary64 and cut to whole
    milliseconds: the date is the whole-millisecond instant of the Unix epoch
    plus (serial - 25569) days, or the millisecond before or after it.  When
    the serial is an integer the date is exactly that instant, its UTC hour
    and minute are zero and [formatDate] prints the date only; the serial
    45901 gives the date 20332 days after the epoch, without time of day. *)
Theorem serial_date_amended (Date_parse : jsstring -> option Z) :
  (forall v,
      isExcelDate v = true ->
      exists q t,
        numValue v = Some (Fin q) /\ inject_Z 30000 < q /\ q < inject_Z 2958466 /\
        dateOf Date_parse v = Some t /\
        (Qfloor ((q - inject_Z 25569) * inject_Z 86400000) - 1 <= t
         <= Qfloor ((q - inject_Z 25569) * inject_Z 86400000) + 1)%Z /\
        (forall z : Z,
            q == inject_Z z ->
            t = ((z - 25569) * 86400000)%Z /\
            getUTCHours t = 0%Z /\
            getUTCMinutes t = 0%Z /\
            formatDate Date_parse v = DateOnly t))
  /\
  (isExcelDate (VNum (Fin 45901)) = true /\
   isExcelDate (VStr (js "45901")) = true /\
   formatDate Date_parse (VNum (Fin 45901)) = DateOnly (20332 * 86400000)%Z /\
   formatDate Date_parse (VStr (js "45901")) = DateOnly (20332 * 86400000)%Z /\
   getUTCHours (20332 * 86400000) = 0%Z /\
   getUTCMinutes (20332 * 86400000) = 0%Z).
Proof.
  split.
  - intros v He.
    destruct (isExcelDate_bounds v He) as (q & Hn & Hlo & Hhi).
    destruct (serialToMs_close Hlo Hhi) as (r & Hr & Hr1 & Hr2).
    pose proof (dateOf_serial Date_parse v He Hn) as Hd. rewrite Hr in Hd.
    assert (Hpos : 0 <= r) by (literals; lra).
    assert (Hclip : TimeClip (Fin r) = Some (Qfloor r)).
    { unfold TimeClip, Qtrunc.
      replace (Qle_bool (Qabs r) (inject_Z 8640000000000000)) with true
        by (symmetry; apply Qle_bool_iff; rewrite Qabs_pos by exact Hpos; literals; lra).
      replace (Qle_bool 0 r) with true by (symmetry; now apply Qle_bool_iff).
      reflexivity. }
    rewrite Hclip in Hd.
    exists q, (Qfloor r). split; [exact Hn|]. split; [exact Hlo|]. split; [exact Hhi|].
    split; [exact Hd|]. split; [now apply floor_neighbour|].
    intros z Hz.
    assert (Hzr : (30000 < z < 2958466)%Z).
    { rewrite Hz in Hlo, Hhi. rewrite <- Zlt_Qlt in Hlo, Hhi. lia. }
    pose proof (serialToMs_int Hz Hzr) as Hint. rewrite Hr in Hint.
    injection Hint as Hint.
    assert (Ht : Qfloor r = ((z - 25569) * 86400000)%Z) by (rewrite Hint; apply Qfloor_Z).
    destruct (whole_days_no_time (z - 25569)) as [Hh Hm].
    rewrite Ht. split; [reflexivity|]. split; [exact Hh|]. split; [exact Hm|].
    unfold formatDate. rewrite Hd, Ht, Hh, Hm. reflexivity.
  - repeat split; vm_compute; reflexivity.
Qed.

(** ** Absolute values in the client page (C10) *)

Lemma binary64_representable (q r : Q) : binary64 q = Fin r -> representable r.
Proof.
  intros H. pose proof (@binary64_float q r H) as Hf.
  destruct (binary64_cases q) as [[E _] | [[E _] | (E & H1 & H2)]];
    rewrite E in H; try discriminate.
  injection H as <-. exists (Qred (Qred (nearest q))).
  split; [|apply Qred_correct].
  apply binary64_exact; [exact Hf|].
  rewrite Qred_correct. apply Qabs_case; intros _; lra.
Qed.

Lemma representable_zero : representable 0.
Proof. exists 0. split; [vm_compute; reflexivity | reflexivity]. Qed.

(** Rounding a larger rational never falls below a binary64 value. *)
Lemma binary64_above (x y : Q) :
  representable x -> x <= y -> le (Fin x) (binary64 y) = true.
Proof.
  intros (x' & Hx & Hxx) Hxy. pose proof (binary64_mono Hxy) as H. rewrite Hx in H.
  destruct (binary64 y) as [| | |s]; cbn [le] in H |- *; try assumption.
  apply Qle_bool_iff in H. apply Qle_bool_iff. now rewrite <- Hxx.
Qed.

Lemma binary64_nonnegative (y : Q) : 0 <= y -> nonnegative (binary64 y).
Proof.
  intros Hy. pose proof (binary64_above representable_zero Hy) as H.
  destruct (binary64 y) as [| | |s] eqn:E; cbn [le] in H; try discriminate; [exact I|].
  split; [now apply Qle_bool_iff | now apply binary64_representable with y].
Qed.
Lemma abs_nonnegative (n : number) :
  isFinite n = true -> exists q, abs n = Fin q /\ 0 <= q.
Proof.
  destruct n as [| | |r]; try discriminate. intros _.
  exists (Qred (Qabs r)). split; [reflexivity|].
  rewrite Qred_correct. apply Qabs_nonneg.
Qed.
Lemma get_cases (row : Row) (key : jsstring) :
  get row key = VUndefined \/ exists s, get row key = VStr s.
Proof.
  induction row as [|[k v] row IH]; simpl; [now left|].
  destruct (eqb key k); [right; now exists v | exact IH].
Qed.

Lemma extractNumericValue_settled (row : Row) (fieldNames : list jsstring) :
  exists q, ClientPage.extractNumericValue row fieldNames = Fin q /\ 0 <= q.
Proof.
  induction fieldNames as [|f fs IH]; cbn [ClientPage.extractNumericValue].
  - exists 0. split; [reflexivity | apply Qle_refl].
  - destruct (get_cases row f) as [-> | [s ->]]; cbn [ClientPage.candidateValue].
    + exact IH.
    + set (v := parseFloat (removeAll ClientPage.nonNumericChar s)).
      destruct (negb (isNaN v) && isFinite v) eqn:E; [|exact IH].
      apply andb_true_iff in E as [_ E].
      now apply abs_nonnegative.
Qed.
Lemma le_refl_nonnegative (a : number) : nonnegative a -> le a a = true.
Proof.
  destruct a as [| | |x]; cbn [nonnegative le]; try contradiction; [reflexivity|].
  intros _. apply Qle_bool_iff. apply Qle_refl.
Qed.

(** Adding a non-negative amount never lowers a total. *)
Lemma add_monotone (a : number) (y : Q) :
  nonnegative a -> 0 <= y ->
  nonnegative (add a (Fin y)) /\ le a (add a (Fin y)) = true.
Proof.
  destruct a as [| | |x]; cbn [nonnegative]; try contradiction.
  - intros _ _. split; [exact I | reflexivity].
  - intros [Hx Hr] Hy. cbn [add]. split.
    + apply binary64_nonnegative. lra.
    + apply binary64_above; [exact Hr | lra].
Qed.
Lemma moneyStep_monotone (fields : list jsstring) (acc : ClientPage.MoneyAcc) (row : Row) :
  nonnegative (ClientPage.m_total acc) ->
  nonnegative (ClientPage.m_total (ClientPage.moneyStep fields acc row)) /\
  le (ClientPage.m_total acc)
     (ClientPage.m_total (ClientPage.moneyStep fields acc row)) = true.
Proof.
  intros Hacc. unfold ClientPage.moneyStep.
  destruct (extractNumericValue_settled row fields) as (q & -> & Hq).
  destruct (gt (Fin q) zero); cbn [ClientPage.m_total].
  - now apply add_monotone.
  - split; [assumption | now apply le_refl_nonnegative].
Qed.

Lemma money_fold_nonnegative (fields : list jsstring) (rows : list Row)
      (acc : ClientPage.MoneyAcc) :
  nonnegative (ClientPage.m_total acc) ->
  nonnegative (ClientPage.m_total (fold_left (ClientPage.moneyStep fields) rows acc)).
Proof.
  revert acc. induction rows as [|row rows IH]; intros acc Hacc; [assumption|].
  cbn [fold_left]. apply IH. now apply moneyStep_monotone.
Qed.

Lemma zero_nonnegative : nonnegative zero.
Proof. split; [apply Qle_refl | apply representable_zero]. Qed.

Lemma yieldStep_monotone (acc : number * number) (row : Row) :
  nonnegative (fst acc) -> nonnegative (snd acc) ->
  (nonnegative (fst (ClientPage.yieldStep acc row)) /\
   nonnegative (snd (ClientPage.yieldStep acc row))) /\
  le (fst acc) (fst (ClientPage.yieldStep acc row)) = true /\
  le (snd acc) (snd (ClientPage.yieldStep acc row)) = true.
Proof.
  intros H1 H2. unfold ClientPage.yieldStep. cbn [fst snd].
  destruct (extractNumericValue_settled row ClientPage.expectedYieldNames) as (q1 & -> & Hq1).
  destruct (extractNumericValue_settled row ClientPage.harvestedNames) as (q2 & -> & Hq2).
  destruct (add_monotone (fst acc) H1 Hq1), (add_monotone (snd acc) H2 Hq2).
  repeat split; assumption.
Qed.

Lemma yield_fold_nonnegative (rows : list Row) (acc : number * number) :
  nonnegative (fst acc) -> nonnegative (snd acc) ->
  nonnegative (fst (fold_left ClientPage.yieldStep rows acc)) /\
  nonnegative (snd (fold_left ClientPage.yieldStep rows acc)).
Proof.
  revert acc. induction rows as [|row rows IH]; intros acc H1 H2; [now split|].
  cbn [fold_left]. destruct (yieldStep_monotone acc row H1 H2) as [[H3 H4] _].
  now apply IH.
Qed.

Lemma qualityStep_monotone (acc : ClientPage.QualityTotals) (row : Row) :
  nonnegative (ClientPage.rejectedItems acc) -> nonnegative (ClientPage.totalItems acc) ->
  (nonnegative (ClientPage.rejectedItems (ClientPage.qualityStep acc row)) /\
   nonnegative (ClientPage.totalItems (ClientPage.qualityStep acc row))) /\
  le (ClientPage.rejectedItems acc)
     (ClientPage.rejectedItems (ClientPage.qualityStep acc row)) = true /\
  le (ClientPage.totalItems acc)
     (ClientPage.totalItems (ClientPage.qualityStep acc row)) = true.
Proof.
  intros H1 H2. unfold ClientPage.qualityStep.
  cbn [ClientPage.rejectedItems ClientPage.totalItems].
  destruct (extractNumericValue_settled row ClientPage.rejectedNames) as (q1 & -> & Hq1).
  destruct (extractNumericValue_settled row ClientPage.totalItemNames) as (q2 & -> & Hq2).
  destruct (add_monotone (ClientPage.rejectedItems acc) H1 Hq1),
           (add_monotone (ClientPage.totalItems acc) H2 Hq2).
  repeat split; assumption.
Qed.

Lemma quality_fold_nonnegative (rows : list Row) (acc : ClientPage.QualityTotals) :
  nonnegative (ClientPage.rejectedItems acc) -> nonnegative (ClientPage.totalItems acc) ->
  nonnegative (ClientPage.rejectedItems (fold_left ClientPage.qualityStep rows acc)) /\
  nonnegative (ClientPage.totalItems (fold_left ClientPage.qualityStep rows acc)).
Proof.
  revert acc. induction rows as [|row rows IH]; intros acc H1 H2; [now split|].
  cbn [fold_left]. destruct (qualityStep_monotone acc row H1 H2) as [[H3 H4] _].
  now apply IH.
Qed.

Lemma finite_test (n : number) : negb (isNaN n) && isFinite n = isFinite n.
Proof. destruct n; reflexivity. Qed.

Lemma extractNumericValue_first_finite (row : Row) (fieldNames : list jsstring) :
  (exists before f after n,
      fieldNames = before ++ f :: after /\
      (forall g, In g before -> finiteCandidate row g = None) /\
      finiteCandidate row f = Some n /\
      ClientPage.extractNumericValue row fieldNames = abs n)
  \/
  ((forall g, In g fieldNames -> finiteCandidate row g = None) /\
   ClientPage.extractNumericValue row fieldNames = zero).
Proof.
  induction fieldNames as [|f fs IH]; cbn [ClientPage.extractNumericValue].
  - right. split; [intros g [] | reflexivity].
  - assert (Hskip :
      finiteCandidate row f = None ->
      (exists before f0 after n,
          f :: fs = before ++ f0 :: after /\
          (forall g, In g before -> finiteCandidate row g = None) /\
          finiteCandidate row f0 = Some n /\
          ClientPage.extractNumericValue row fs = abs n)
      \/
      ((forall g, In g (f :: fs) -> finiteCandidate row g = None) /\
       ClientPage.extractNumericValue row fs = zero)).
    { intros Hf.
      destruct IH as [(before & f0 & after & n & Heq & Hno & Hyes & Hres) | [Hno Hres]].
      - left. exists (f :: before), f0, after, n. subst fs.
        split; [reflexivity|]. split; [|split; assumption].
        intros g [<- | Hg]; [assumption | now apply Hno].
      - right. split; [|assumption].
        intros g [<- | Hg]; [assumption | now apply Hno]. }
    unfold finiteCandidate in Hskip at 1.
    destruct (ClientPage.candidateValue (get row f)) as [v|] eqn:Hc.
    + rewrite finite_test. destruct (isFinite v) eqn:Hfin.
      * left. exists [], f, fs, v.
        split; [reflexivity|]. split; [intros g []|]. split; [|reflexivity].
        unfold finiteCandidate. now rewrite Hc, Hfin.
      * now apply Hskip.
    + now apply Hskip.
Qed.

(** C10.  [extractNumericValue] returns the absolute value of the first
    candidate field whose cell parses to a finite number, and 0 when there is
    none; its result is a finite number >= 0 for every row and candidate
    list.  A cell [amount = "-500"] therefore counts as +500: after a row
    with amount 1000 the revenue total and the expense total are 1500, and
    negative yields, rejected counts, item counts and quality scores are
    added with their sign dropped.  No row lowers a revenue, expense, yield
    or quality total. *)
Theorem extractNumericValue_absolute :
  (forall row fieldNames,
      exists q, ClientPage.extractNumericValue row fieldNames = Fin q /\ 0 <= q)
  /\
  (forall n, isFinite n = true -> exists q, abs n = Fin q /\ 0 <= q)
  /\
  (forall row fieldNames,
      (exists before f after n,
          fieldNames = before ++ f :: after /\
          (forall g, In g before -> finiteCandidate row g = None) /\
          finiteCandidate row f = Some n /\
          ClientPage.extractNumericValue row fieldNames = abs n)
      \/
      ((forall g, In g fieldNames -> finiteCandidate row g = None) /\
       ClientPage.extractNumericValue row fieldNames = zero))
  /\
  (ClientPage.extractNumericValue [(js "amount", js "-500")]
     ClientPage.revenueAmountFields = Fin 500 /\
   ClientPage.m_total (ClientPage.revenueLoop negativeRevenue) = Fin 1500 /\
   ClientPage.revenueTotal negativeRevenue = Fin 1500 /\
   ClientPage.m_total (ClientPage.expenseLoop negativeExpense) = Fin 1500 /\
   ClientPage.expensesTotal negativeExpense = Fin 1500 /\
   ClientPage.yieldLoop negativeYield = (Fin 1500, Fin 1000) /\
   ClientPage.qualityLoop negativeQuality
   = {| ClientPage.qualityScores := [Fin 90; Fin 80];
        ClientPage.rejectedItems := Fin 5;
        ClientPage.totalItems := Fin 20 |})
  /\
  (forall fields rows row,
      le (ClientPage.m_total
            (fold_left (ClientPage.moneyStep fields) rows ClientPage.moneyStart))
         (ClientPage.m_total
            (fold_left (ClientPage.moneyStep fields) (rows ++ [row]) ClientPage.moneyStart))
      = true)
  /\
  (forall rows row,
      le (fst (fold_left ClientPage.yieldStep rows ClientPage.yieldStart))
         (fst (fold_left ClientPage.yieldStep (rows ++ [row]) ClientPage.yieldStart))
      = true /\
      le (snd (fold_left ClientPage.yieldStep rows ClientPage.yieldStart))
         (snd (fold_left ClientPage.yieldStep (rows ++ [row]) ClientPage.yieldStart))
      = true)
  /\
  (forall rows row,
      le (ClientPage.rejectedItems
            (fold_left ClientPage.qualityStep rows ClientPage.qualityStart))
         (ClientPage.rejectedItems
            (fold_left ClientPage.qualityStep (rows ++ [row]) ClientPage.qualityStart))
      = true /\
      le (ClientPage.totalItems
            (fold_left ClientPage.qualityStep rows ClientPage.qualityStart))
         (ClientPage.totalItems
            (fold_left ClientPage.qualityStep (rows ++ [row]) ClientPage.qualityStart))
      = true).
Proof.
  split.
  { intros row fields.
    destruct (extractNumericValue_settled row fields) as (q & Hq & Hs).
    exists q. split; [exact Hq | exact Hs]. }
  split.
  { intros [| | |r]; try discriminate. intros _.
    exists (Qred (Qabs r)). split; [reflexivity|].
    rewrite Qred_correct. apply Qabs_nonneg. }
  split; [apply extractNumericValue_first_finite|].
  split; [repeat split; vm_compute; reflexivity|].
  split.
  { intros fields rows row. rewrite fold_left_app. cbn [fold_left].
    apply moneyStep_monotone, money_fold_nonnegative, zero_nonnegative. }
  split.
  { intros rows row. rewrite fold_left_app. cbn [fold_left].
    destruct (yield_fold_nonnegative rows ClientPage.yieldStart
                                     zero_nonnegative zero_nonnegative) as [H1 H2].
    destruct (yieldStep_monotone _ row H1 H2) as (_ & H3 & H4). now split. }
  intros rows row. rewrite fold_left_app. cbn [fold_left].
  destruct (quality_fold_nonnegative rows ClientPage.qualityStart
                                     zero_nonnegative zero_nonnegative) as [H1 H2].
  destruct (qualityStep_monotone _ row H1 H2) as (_ & H3 & H4). now split.
Qed.

(* ================================================================== *)
(** * Further properties *)
(* ================================================================== *)

(** ** Record ranking *)

Lemma insertByScore_perm (x : Row) (l : list Row) :
  Permutation (x :: l) (insertByScore x l).
Proof.
  induction l as [|y l IH]; simpl; [reflexivity|].
  destruct (score y <=? score x)%nat; [reflexivity|].
  rewrite perm_swap. now apply perm_skip.
Qed.

Lemma sortByScore_perm (l : list Row) : Permutation l (sortByScore l).
Proof.
  induction l as [|x l IH]; simpl; [reflexivity|].
  rewrite <- insertByScore_perm. now apply perm_skip.
Qed.

Lemma insertByScore_sorted (x : Row) (l : list Row) :
  StronglySorted (fun a b => (score b <= score a)%nat) l ->
  StronglySorted (fun a b => (score b <= score a)%nat) (insertByScore x l).
Proof.
  induction l as [|y l IH]; intros Hs; simpl.
  - constructor; constructor.
  - inversion Hs as [|? ? Hl Hy]; subst.
    destruct (score y <=? score x)%nat eqn:E.
    + apply Nat.leb_le in E. constructor; [assumption|].
      constructor; [assumption|].
      rewrite Forall_forall in *. intros z Hz. specialize (Hy z Hz). lia.
    + apply Nat.leb_gt in E. constructor; [now apply IH|].
      rewrite Forall_forall in *. intros z Hz.
      apply (Permutation_in _ (Permutation_sym (insertByScore_perm x l))) in Hz.
      destruct Hz as [<- | Hz]; [lia | now apply Hy].
Qed.

Lemma sortByScore_sorted (l : list Row) :
  StronglySorted (fun a b => (score b <= score a)%nat) (sortByScore l).
Proof.
  induction l as [|x l IH]; simpl; [constructor | now apply insertByScore_sorted].
Qed.

Lemma insertByScore_stable (n : nat) (x : Row) (l : list Row) :
  filter (fun r => score r =? n)%nat (insertByScore x l)
  = filter (fun r => score r =? n)%nat (x :: l).
Proof.
  induction l as [|y l IH]; [reflexivity|].
  cbn [insertByScore]. destruct (score y <=? score x)%nat eqn:E; [reflexivity|].
  apply Nat.leb_gt in E. cbn [filter] in *. rewrite IH.
  destruct (score x =? n)%nat eqn:Ex, (score y =? n)%nat eqn:Ey; try reflexivity.
  apply Nat.eqb_eq in Ex, Ey. lia.
Qed.

Lemma sortByScore_stable (n : nat) (l : list Row) :
  filter (fun r => score r =? n)%nat (sortByScore l)
  = filter (fun r => score r =? n)%nat l.
Proof.
  induction l as [|x l IH]; [reflexivity|].
  cbn [sortByScore fold_right]. fold (sortByScore l).
  rewrite insertByScore_stable. cbn [filter]. now rewrite IH.
Qed.

(** X1.  [filterRecords] returns exactly the records that pass
    [hasMinimalContent], each as often as it occurs, ordered by descending
    score; records of equal score keep their original order. *)
Theorem filterRecords_ranked (records : list Row) :
  Permutation (filter hasMinimalContent records) (filterRecords records)
  /\
  StronglySorted (fun a b => (score b <= score a)%nat) (filterRecords records)
  /\
  (forall n,
      filter (fun r => score r =? n)%nat (filterRecords records)
      = filter (fun r => score r =? n)%nat (filter hasMinimalContent records))
  /\
  (forall r, In r (filterRecords records) <->
             In r records /\ hasMinimalContent r = true).
Proof.
  unfold filterRecords. split; [apply sortByScore_perm|].
  split; [apply sortByScore_sorted|].
  split; [intros n; apply sortByScore_stable|].
  intros r. rewrite <- filter_In. split; intros H.
  - apply (Permutation_in _ (Permutation_sym (sortByScore_perm _)) H).
  - apply (Permutation_in _ (sortByScore_perm _) H).
Qed.

Lemma sorted_app_order (l1 l2 : list Row) :
  StronglySorted (fun a b => (score b <= score a)%nat) (l1 ++ l2) ->
  forall a b, In a l1 -> In b l2 -> (score b <= score a)%nat.
Proof.
  induction l1 as [|x l1 IH]; intros Hs a b Ha Hb; [destruct Ha|].
  cbn [app] in Hs. inversion Hs as [|? ? Hl Hx]; subst.
  destruct Ha as [<- | Ha].
  - rewrite Forall_forall in Hx. apply Hx. apply in_or_app. now right.
  - now apply IH.
Qed.

(** X2.  [getLimitedRecords] shows all ranked records when [showAll] is set
    or when there are at most six of them, and the first six otherwise.  It
    always shows a prefix of the ranking, so no hidden record has a higher
    score than a shown one. *)
Theorem getLimitedRecords_top (records : list Row) (showAll : bool) :
  getLimitedRecords records showAll
  = firstn (List.length (getLimitedRecords records showAll)) (filterRecords records)
  /\
  (showAll = true -> getLimitedRecords records showAll = filterRecords records)
  /\
  (showAll = false ->
   List.length (getLimitedRecords records showAll)
   = Nat.min 6 (List.length (filterRecords records)))
  /\
  (forall shown hidden,
      In shown (getLimitedRecords records showAll) ->
      In hidden (skipn (List.length (getLimitedRecords records showAll))
                       (filterRecords records)) ->
      (score hidden <= score shown)%nat).
Proof.
  assert (Hprefix :
    getLimitedRecords records showAll
    = firstn (List.length (getLimitedRecords records showAll)) (filterRecords records)).
  { unfold getLimitedRecords, INITIAL_RECORDS_LIMIT.
    destruct (showAll || (List.length (filterRecords records) <=? 6)%nat) eqn:E.
    - now rewrite firstn_all.
    - apply orb_false_iff in E as [_ E]. apply Nat.leb_gt in E.
      rewrite length_firstn. rewrite Nat.min_l by lia. reflexivity. }
  split; [exact Hprefix|].
  split.
  { intros ->. reflexivity. }
  split.
  { intros ->. unfold getLimitedRecords, INITIAL_RECORDS_LIMIT. cbn [orb].
    destruct (List.length (filterRecords records) <=? 6)%nat eqn:E.
    - apply Nat.leb_le in E. lia.
    - apply Nat.leb_gt in E. rewrite length_firstn. lia. }
  intros shown hidden Hs Hh. rewrite Hprefix in Hs.
  apply (sorted_app_order
           (firstn (List.length (getLimitedRecords records showAll)) (filterRecords records))
           (skipn (List.length (getLimitedRecords records showAll)) (filterRecords records)));
    try assumption.
  rewrite firstn_skipn. unfold filterRecords. apply sortByScore_sorted.
Qed.

(** ** Date strings *)

Lemma digit_cases (d : N) :
  isDigit d = true -> In d [48; 49; 50; 51; 52; 53; 54; 55; 56; 57]%N.
Proof.
  unfold isDigit. intros H. apply andb_true_iff in H as [H1 H2].
  apply N.leb_le in H1, H2. cbn [In].
  assert (d = 48 \/ d = 49 \/ d = 50 \/ d = 51 \/ d = 52 \/ d = 53 \/ d = 54 \/
          d = 55 \/ d = 56 \/ d = 57)%N as Hd by lia.
  intuition auto.
Qed.

Lemma digit_plain (d : N) :
  isDigit d = true ->
  isWhiteSpace d = false /\ (d =? 45)%N = false /\ (d =? 43)%N = false /\
  (73 =? d)%N = false /\ (0 <= Z.of_N (d - 48) <= 9)%Z.
Proof.
  intros H. apply digit_cases in H. cbn [In] in H.
  repeat destruct H as [<- | H]; try contradiction; repeat split; try reflexivity;
    vm_compute; discriminate.
Qed.

Lemma spanDigits_spec (s ds rest : jsstring) :
  spanDigits s = (ds, rest) -> s = ds ++ rest /\ Forall (fun c => isDigit c = true) ds.
Proof.
  revert ds rest. induction s as [|c s IH]; intros ds rest H; simpl in H.
  - injection H as <- <-. split; [reflexivity | constructor].
  - destruct (isDigit c) eqn:Hc.
    + destruct (spanDigits s) as [d r] eqn:Hs. injection H as <- <-.
      destruct (IH d r eq_refl) as [-> Hd]. split; [reflexivity | now constructor].
    + injection H as <- <-. split; [reflexivity | constructor].
Qed.

Lemma digitsValue_bound (ds : jsstring) (acc : N) :
  Forall (fun c => isDigit c = true) ds ->
  (fold_left (fun a c => a * 10 + (c - 48)) ds acc < (acc + 1) * 10 ^ N.of_nat (List.length ds))%N.
Proof.
  revert acc. induction ds as [|d ds IH]; intros acc Hd.
  - simpl. lia.
  - inversion Hd as [|? ? Hd1 Hd2]; subst. cbn [fold_left List.length].
    specialize (IH (acc * 10 + (d - 48))%N Hd2).
    destruct (digit_plain d Hd1) as (_ & _ & _ & _ & Hrange).
    rewrite Nat2N.inj_succ, N.pow_succ_r'.
    eapply N.lt_le_trans; [exact IH|].
    rewrite N.mul_assoc. apply N.mul_le_mono_r. lia.
Qed.

Lemma decimalValue_small (ds fp : jsstring) :
  Forall (fun c => isDigit c = true) (ds ++ fp) ->
  (1 <= List.length ds <= 4)%nat ->
  exists r,
    decimalValue (digitsValue (ds ++ fp)) (Z.of_nat (List.length (ds ++ fp)))
                 (0 - Z.of_nat (List.length fp)) = Fin r /\
    0 <= r /\ r <= inject_Z 10000.
Proof.
  intros Hd Hlen. unfold decimalValue.
  destruct (digitsValue (ds ++ fp) =? 0)%N.
  { exists 0. split; [reflexivity|]. split; [apply Qle_refl | discriminate]. }
  replace (400 <? 0 - Z.of_nat (List.length fp))%Z with false
    by (symmetry; apply Z.ltb_ge; lia).
  replace (Z.of_nat (List.length (ds ++ fp)) + (0 - Z.of_nat (List.length fp)) <? -330)%Z
    with false by (symmetry; apply Z.ltb_ge; rewrite length_app; lia).
  pose proof (@digitsValue_bound (ds ++ fp) 0%N Hd) as Hb.
  fold (digitsValue (ds ++ fp)) in Hb. rewrite length_app in Hb.
  set (m := digitsValue (ds ++ fp)) in *.
  set (k := List.length fp) in *.
  assert (Hm : (Z.of_N m < 10 ^ Z.of_nat (List.length ds) * 10 ^ Z.of_nat k)%Z).
  { rewrite <- Z.pow_add_r by lia.
    replace (Z.of_nat (List.length ds) + Z.of_nat k)%Z
      with (Z.of_N (N.of_nat (List.length ds + k))) by lia.
    change 10%Z with (Z.of_N 10). rewrite <- N2Z.inj_pow. lia. }
  assert (Hp : (10 ^ Z.of_nat (List.length ds) <= 10000)%Z).
  { change 10000%Z with (10 ^ 4)%Z. apply Z.pow_le_mono_r; lia. }
  assert (Hk : (0 < 10 ^ Z.of_nat k)%Z) by (apply Z.pow_pos_nonneg; lia).
  assert (Hq : exists q, 0 <= q /\ q < inject_Z 10000 /\
                 (if (0 <=? 0 - Z.of_nat k)%Z
                  then inject_Z (Z.of_N m * 10 ^ (0 - Z.of_nat k))
                  else inject_Z (Z.of_N m) / inject_Z (10 ^ (- (0 - Z.of_nat k)))) = q).
  { eexists. split; [|split; [|reflexivity]].
    - destruct (0 <=? 0 - Z.of_nat k)%Z.
      + rewrite <- (Zle_Qle 0). apply Z.mul_nonneg_nonneg; [lia|]. apply Z.pow_nonneg. lia.
      + apply Qle_shift_div_l.
        * rewrite <- (Zlt_Qlt 0). replace (- (0 - Z.of_nat k))%Z with (Z.of_nat k) by lia.
          exact Hk.
        * rewrite Qmult_0_l. rewrite <- (Zle_Qle 0). lia.
    - destruct (0 <=? 0 - Z.of_nat k)%Z eqn:E.
      + apply Z.leb_le in E. assert (k = 0%nat) as Hk0 by lia. rewrite Hk0 in *.
        cbn [Z.of_nat Z.sub Z.opp Z.pow] in *. rewrite <- Zlt_Qlt. lia.
      + replace (- (0 - Z.of_nat k))%Z with (Z.of_nat k) by lia.
        apply Qlt_shift_div_r.
        * rewrite <- (Zlt_Qlt 0). exact Hk.
        * rewrite <- inject_Z_mult, <- Zlt_Qlt.
          eapply Z.lt_le_trans; [exact Hm|]. apply Z.mul_le_mono_nonneg_r; lia. }
  destruct Hq as (q & Hq0 & Hq1 & ->).
  destruct (@binary64_between q 0 10000) as (r & Hr & Hr0 & Hr1 & _);
    [lia | lia | exact Hq0 | now apply Qlt_le_weak |].
  exists r. split; [exact Hr|]. split; [exact Hr0 | exact Hr1].
Qed.

Lemma leading_group (lo hi : nat) (c : N) (p : list token) (s : jsstring) :
  matches (Digits lo hi :: Sep c :: p) s = true ->
  exists ds rest,
    spanDigits s = (ds, c :: rest) /\ (lo <= List.length ds <= hi)%nat /\
    matches p rest = true.
Proof.
  cbn [matches]. destruct (spanDigits s) as [ds r]. intros H.
  apply andb_true_iff in H as [H Hr]. apply andb_true_iff in H as [Hlo Hhi].
  apply Nat.leb_le in Hlo, Hhi.
  destruct r as [|x r]; [discriminate|].
  apply andb_true_iff in Hr as [Hx Hr]. apply N.eqb_eq in Hx. subst x.
  exists ds, r. repeat split; assumption.
Qed.

Lemma matches_dateShaped (s : jsstring) :
  existsb (fun pattern => matches pattern s) datePatterns = true -> dateShaped s.
Proof.
  unfold datePatterns. cbn [existsb]. rewrite !orb_true_iff.
  intros [H | [H | [H | [H | [H | H]]]]]; try discriminate;
    apply leading_group in H as (ds & rest & Hspan & Hlen & Hrest);
    unfold dateShaped; exists ds; eexists; exists rest; (split; [exact Hspan|]);
    (split; [lia|]).
  all: try (left; auto; fail).
  right. split; [reflexivity|].
  apply leading_group in Hrest as (fp & r & Hfp & _ & _). now exists fp, r.
Qed.

Lemma dateShaped_parse (s : jsstring) :
  dateShaped s -> exists r, parseFloat s = Fin r /\ 0 <= r /\ r <= inject_Z 10000.
Proof.
  intros (ds & c & rest & Hspan & Hlen & Hc).
  destruct (spanDigits_spec s Hspan) as [Hs Hds].
  destruct ds as [|d ds]; [cbn in Hlen; lia|].
  inversion Hds as [|? ? Hd Hds']; subst.
  destruct (digit_plain d Hd) as (Hws & H45 & H43 & H73 & _).
  unfold parseFloat. cbn [app trimStart]. rewrite Hws, H45, H43.
  unfold unsignedLiteral.
  assert (Hinf : startsWith (js "Infinity") (d :: ds ++ c :: rest) = false).
  { change (js "Infinity") with [73; 110; 102; 105; 110; 105; 116; 121]%N.
    cbn [startsWith]. now rewrite H73. }
  change ((d :: ds) ++ c :: rest) with (d :: ds ++ c :: rest) in Hspan.
  rewrite Hinf, Hspan.
  assert (Hexp : forall tail, (c = 47 \/ c = 45 \/ c = 46)%N -> exponentPart (c :: tail) = 0%Z).
  { intros tail [-> | [-> | ->]]; reflexivity. }
  destruct Hc as [Hc | (-> & fp & r & Hfp)].
  - assert (H46 : (c =? 46)%N = false) by (destruct Hc as [-> | ->]; reflexivity).
    rewrite H46. rewrite app_nil_r.
    destruct (@decimalValue_small (d :: ds) []) as (q & Hq & Hq0 & Hq1).
    { now rewrite app_nil_r. }
    { exact Hlen. }
    rewrite app_nil_r in Hq. rewrite Hexp by tauto.
    exists q. repeat split; assumption.
  - cbn [N.eqb Pos.eqb]. rewrite Hfp.
    destruct (spanDigits_spec rest Hfp) as [_ Hfpd].
    destruct (@decimalValue_small (d :: ds) fp) as (q & Hq & Hq0 & Hq1).
    { apply Forall_app. split; assumption. }
    { exact Hlen. }
    rewrite Hexp by tauto.
    cbn [app] in Hq |- *.
    exists q. repeat split; assumption.
Qed.

(** A snapshot of [Date.parse] for the witnesses: every string is the epoch. *)
Lemma dateString_example :
  isDateString (fun _ => Some 0%Z) (VStr (js "2025-09-01")) = true.
Proof. vm_compute. reflexivity. Defined.

(** X3.  A value that [isDateString] accepts is never taken for a serial
    date: [isExcelDate] rejects it, and [formatDate] hands it to the [Date]
    constructor and prints the resulting date, never the raw value. *)
Theorem dateString_formatted (Date_parse : jsstring -> option Z) (v : value) :
  isDateString Date_parse v = true ->
  exists s t,
    v = VStr s /\ Date_parse s = Some t /\
    isExcelDate v = false /\
    dateOf Date_parse v = Some t /\
    (formatDate Date_parse v = DateOnly t \/ formatDate Date_parse v = DateTime t).
Proof.
  destruct v as [| | |s]; try discriminate. cbn [isDateString]. intros H.
  apply andb_true_iff in H as [Hm Hp].
  destruct (Date_parse s) as [t|] eqn:Ht; [|discriminate].
  exists s, t. split; [reflexivity|]. split; [exact Ht|].
  destruct (dateShaped_parse (matches_dateShaped s Hm)) as (r & Hr & Hr0 & Hr1).
  assert (Hgt : gt (parseFloat s) (ofZ 30000) = false).
  { rewrite Hr. destruct ofZ_constants as (_ & _ & _ & _ & -> & _).
    unfold gt. cbn [lt]. apply not_true_is_false. intros Hlt.
    apply Qlt_bool_iff in Hlt. literals. lra. }
  assert (Hdate : dateOf Date_parse (VStr s) = Some t).
  { unfold dateOf. rewrite Hgt, andb_false_r. exact Ht. }
  split.
  { unfold isExcelDate. cbn [numValue]. now rewrite Hgt, andb_false_r. }
  split; [exact Hdate|].
  unfold formatDate. rewrite Hdate.
  destruct (negb (getUTCHours t =? 0)%Z || negb (getUTCMinutes t =? 0)%Z); auto.
Qed.

Lemma dateString_formatted_witness :
  exists s t,
    VStr (js "2025-09-01") = VStr s /\ Some 0%Z = Some t /\
    isExcelDate (VStr (js "2025-09-01")) = false /\
    dateOf (fun _ => Some 0%Z) (VStr (js "2025-09-01")) = Some t /\
    (formatDate (fun _ => Some 0%Z) (VStr (js "2025-09-01")) = DateOnly t \/
     formatDate (fun _ => Some 0%Z) (VStr (js "2025-09-01")) = DateTime t).
Proof. exact (dateString_formatted (fun _ => Some 0%Z) _ dateString_example). Defined.

(** ** Empty values *)

(** X4.  A string is empty for [isEmptyValue] exactly when it is the
    one-character string ["0"] or when, trimmed and in lower case, it is
    [""], ["n/a"], ["na"], ["null"], ["undefined"] or ["-"]: the placeholder
    words are recognised in any case and with surrounding white space, the
    zero only when it stands alone.  A number is empty exactly when it is
    zero. *)
Theorem isEmptyValue_strings :
  (forall s,
      isEmptyValue (VStr s) = true <->
      s = js "0" \/
      In (toLowerCase (trim s)) [js ""; js "n/a"; js "na"; js "null"; js "undefined"; js "-"])
  /\
  (forall q, isEmptyValue (VNum (Fin q)) = true <-> q == 0)
  /\
  (isEmptyValue (VStr (js " 0 ")) = false /\ isEmptyValue (VStr (js " N/A ")) = true /\
   isEmptyValue (VNum NaN) = false).
Proof.
  split.
  - intros s. cbn [isEmptyValue]. cbv zeta.
    rewrite !orb_true_iff, !inList_In, eqb_eq. split.
    + intros [H | [H | H]].
      * unfold EMPTY_STRINGS in H. cbn [In] in H.
        destruct H as [<- | [<- | H]]; [right; vm_compute; auto | now left |].
        right. repeat destruct H as [<- | H]; try contradiction; vm_compute; auto 10.
      * right. rewrite H. now left.
      * right. cbn [In] in *. intuition auto.
    + intros [-> | H].
      * left. vm_compute. auto.
      * cbn [In] in H. destruct H as [H | H].
        -- right. left. now rewrite <- H.
        -- right. right. cbn [In]. exact H.
  - split.
    + intros q. cbn [isEmptyValue]. apply Qeq_bool_iff.
    + repeat split; vm_compute; reflexivity.
Qed.

(** ** The field resolver of the server page *)


(** ** Financial totals of the server page *)

Lemma le_trans_number (a b c : number) :
  le a b = true -> le b c = true -> le a c = true.
Proof.
  destruct a as [| | |x], b as [| | |y], c as [| | |z]; cbn [le]; try discriminate; auto.
  intros H1 H2. apply Qle_bool_iff in H1, H2. apply Qle_bool_iff.
  now apply Qle_trans with y.
Qed.

Lemma nonnegative_le_zero (a : number) : nonnegative a -> le zero a = true.
Proof.
  destruct a as [| | |x]; cbn [nonnegative]; try contradiction; [reflexivity|].
  intros [H _]. cbn [le zero]. now apply Qle_bool_iff.
Qed.
Lemma positive_amount (v : number) : gt v zero = true -> positiveAmount v.
Proof.
  destruct v as [| | |y]; unfold gt, zero; cbn [lt]; try discriminate.
  - intros _. now left.
  - intros Hgt. apply Qlt_bool_iff in Hgt. right. now exists y.
Qed.
Lemma add_amount_monotone (a v : number) :
  nonnegative a -> positiveAmount v ->
  nonnegative (add a v) /\ le a (add a v) = true.
Proof.
  intros Ha [-> | (y & -> & Hy)].
  - destruct a as [| | |x]; cbn [nonnegative] in Ha; try contradiction;
      split; try exact I; reflexivity.
  - apply add_monotone; [assumption | now apply Qlt_le_weak].
Qed.

Lemma addCell_monotone (row : Row) (acc : FinancialAcc) (col : jsstring) :
  nonnegative (fin_total acc) ->
  nonnegative (fin_total (addCell row acc col)) /\
  le (fin_total acc) (fin_total (addCell row acc col)) = true /\
  fin_sources (addCell row acc col) = fin_sources acc /\
  ((fin_records acc = 0%nat -> fin_total acc = zero) ->
   fin_records (addCell row acc col) = 0%nat -> fin_total (addCell row acc col) = zero).
Proof.
  intros Ha. unfold addCell.
  destruct (gt (cleanNumericValue (get row col)) zero) eqn:E; cbn [fin_total fin_sources fin_records].
  - destruct (@add_amount_monotone (fin_total acc) _ Ha (positive_amount _ E)) as [H1 H2].
    repeat split; try assumption. intros _ H. discriminate H.
  - repeat split; try assumption; [now apply le_refl_nonnegative | auto].
Qed.

(** The state of the aggregator between two steps. *)
Lemma addCells_monotone (row : Row) (cols : list jsstring) (acc : FinancialAcc) :
  nonnegative (fin_total acc) ->
  nonnegative (fin_total (fold_left (addCell row) cols acc)) /\
  le (fin_total acc) (fin_total (fold_left (addCell row) cols acc)) = true /\
  fin_sources (fold_left (addCell row) cols acc) = fin_sources acc /\
  ((fin_records acc = 0%nat -> fin_total acc = zero) ->
   fin_records (fold_left (addCell row) cols acc) = 0%nat ->
   fin_total (fold_left (addCell row) cols acc) = zero).
Proof.
  revert acc. induction cols as [|col cols IH]; intros acc Ha; cbn [fold_left].
  - repeat split; auto. now apply le_refl_nonnegative.
  - destruct (addCell_monotone row acc col Ha) as (H1 & H2 & H3 & H4).
    destruct (IH _ H1) as (H5 & H6 & H7 & H8).
    repeat split; auto.
    + now apply le_trans_number with (fin_total (addCell row acc col)).
    + congruence.
Qed.

Lemma addRows_monotone (rows : list Row) (cols : list jsstring) (acc : FinancialAcc) :
  nonnegative (fin_total acc) ->
  nonnegative (fin_total (fold_left (fun a row => fold_left (addCell row) cols a) rows acc)) /\
  le (fin_total acc)
     (fin_total (fold_left (fun a row => fold_left (addCell row) cols a) rows acc)) = true /\
  fin_sources (fold_left (fun a row => fold_left (addCell row) cols a) rows acc)
  = fin_sources acc /\
  ((fin_records acc = 0%nat -> fin_total acc = zero) ->
   fin_records (fold_left (fun a row => fold_left (addCell row) cols a) rows acc) = 0%nat ->
   fin_total (fold_left (fun a row => fold_left (addCell row) cols a) rows acc) = zero).
Proof.
  revert acc. induction rows as [|row rows IH]; intros acc Ha; cbn [fold_left].
  - repeat split; auto. now apply le_refl_nonnegative.
  - destruct (addCells_monotone row cols acc Ha) as (H1 & H2 & H3 & H4).
    destruct (IH _ H1) as (H5 & H6 & H7 & H8).
    repeat split; auto.
    + now apply le_trans_number with (fin_total (fold_left (addCell row) cols acc)).
    + congruence.
Qed.

Lemma addSheet_monotone (isRevenue : bool) (acc : FinancialAcc) (e : jsstring * Sheet) :
  nonnegative (fin_total acc) ->
  nonnegative (fin_total (addSheet isRevenue acc e)) /\
  le (fin_total acc) (fin_total (addSheet isRevenue acc e)) = true /\
  (fin_sources (addSheet isRevenue acc e) <= S (fin_sources acc))%nat /\
  ((fin_records acc = 0%nat -> fin_total acc = zero) ->
   fin_records (addSheet isRevenue acc e) = 0%nat ->
   fin_total (addSheet isRevenue acc e) = zero).
Proof.
  intros Ha. unfold addSheet.
  assert (Hsame : nonnegative (fin_total acc) /\ le (fin_total acc) (fin_total acc) = true /\
                  (fin_sources acc <= S (fin_sources acc))%nat /\
                  ((fin_records acc = 0%nat -> fin_total acc = zero) ->
                   fin_records acc = 0%nat -> fin_total acc = zero)).
  { repeat split; auto. now apply le_refl_nonnegative. }
  destruct (rows (snd e)) as [[|r rs]|]; try exact Hsame.
  destruct (headers (snd e)) as [hs|]; try exact Hsame.
  destruct (relevantColumns isRevenue hs) as [|col cols]; try exact Hsame.
  set (acc' := {| fin_total := fin_total acc; fin_sources := S (fin_sources acc);
                  fin_categories := fin_categories acc; fin_records := fin_records acc |}).
  destruct (addRows_monotone (r :: rs) (col :: cols) acc' Ha) as (H1 & H2 & H3 & H4).
  repeat split; try assumption.
  rewrite H3. cbn. lia.
Qed.

Lemma addSheets_monotone (isRevenue : bool) (sheetsData : SheetsData) (acc : FinancialAcc) :
  nonnegative (fin_total acc) ->
  nonnegative (fin_total (fold_left (addSheet isRevenue) sheetsData acc)) /\
  le (fin_total acc) (fin_total (fold_left (addSheet isRevenue) sheetsData acc)) = true /\
  (fin_sources (fold_left (addSheet isRevenue) sheetsData acc)
   <= fin_sources acc + List.length sheetsData)%nat /\
  ((fin_records acc = 0%nat -> fin_total acc = zero) ->
   fin_records (fold_left (addSheet isRevenue) sheetsData acc) = 0%nat ->
   fin_total (fold_left (addSheet isRevenue) sheetsData acc) = zero).
Proof.
  revert acc. induction sheetsData as [|e rest IH]; intros acc Ha; cbn [fold_left List.length].
  - repeat split; auto; [now apply le_refl_nonnegative | lia].
  - destruct (addSheet_monotone isRevenue acc e Ha) as (H1 & H2 & H3 & H4).
    destruct (IH _ H1) as (H5 & H6 & H7 & H8).
    repeat split; auto.
    + now apply le_trans_number with (fin_total (addSheet isRevenue acc e)).
    + lia.
Qed.

(** X6.  The revenue and expense totals of [detectFinancialData] are never
    negative and never NaN: only cells that clean to a positive number are
    added, so a negative or zero cell changes nothing, and appending a sheet
    never lowers a total.  [sources] is at most the number of sheets, and a
    total with no counted record is 0. *)
Theorem detectFinancialData_totals (sheetsData : SheetsData) (isRevenue : bool) :
  le zero (total (detectFinancialData sheetsData isRevenue)) = true
  /\
  (sources (detectFinancialData sheetsData isRevenue) <= List.length sheetsData)%nat
  /\
  (records (detectFinancialData sheetsData isRevenue) = 0%nat ->
   total (detectFinancialData sheetsData isRevenue) = zero)
  /\
  (forall e,
      le (total (detectFinancialData sheetsData isRevenue))
         (total (detectFinancialData (sheetsData ++ [e]) isRevenue)) = true)
  /\
  (forall row acc col,
      gt (cleanNumericValue (get row col)) zero = false -> addCell row acc col = acc)
  /\
  detectRevenueData mixedRevenue
  = {| total := Fin 1000; sources := 1; categories := 0; records := 1; trend := neutral |}.
Proof.
  set (start := {| fin_total := zero; fin_sources := 0; fin_categories := [];
                   fin_records := 0 |}).
  destruct (addSheets_monotone isRevenue sheetsData start zero_nonnegative)
    as (H1 & H2 & H3 & H4).
  unfold detectFinancialData. fold start. cbn [total sources records].
  split; [now apply nonnegative_le_zero|].
  split; [exact H3|].
  split; [apply H4; reflexivity|].
  split.
  { intros e. rewrite fold_left_app. cbn [fold_left].
    now apply addSheet_monotone. }
  split; [apply addCell_skips|].
  vm_compute. reflexivity.
Qed.

(** ** Shares and percentages *)

Lemma ofNat_int (n : nat) :
  (Z.of_nat n <= 2 ^ 32)%Z -> ofNat n = Fin (inject_Z (Z.of_nat n)).
Proof. intros Hn. unfold ofNat. apply ofZ_int. lia. Qed.
Lemma share_bounded (part total : nat) :
  (part <= total)%nat -> (1 <= total)%nat -> (Z.of_nat total <= 2 ^ 32)%Z ->
  exists q, mul (div (ofNat part) (ofNat total)) (ofZ 100) = Fin q /\
            0 <= q /\ q <= inject_Z 100.
Proof.
  intros Hle Hpos Hmax.
  rewrite (@ofNat_int part) by lia. rewrite (@ofNat_int total Hmax).
  set (a := inject_Z (Z.of_nat part)). set (b := inject_Z (Z.of_nat total)).
  assert (Hb1 : 1 <= b) by (unfold b; rewrite <- (Zle_Qle 1); lia).
  assert (Ha0 : 0 <= a) by (unfold a; rewrite <- (Zle_Qle 0); lia).
  assert (Hab : a <= b) by (unfold a, b; rewrite <- Zle_Qle; lia).
  cbn [div].
  assert (Hb0 : Qeq_bool b 0 = false).
  { apply not_true_is_false. intros H. apply Qeq_bool_iff in H. lra. }
  rewrite Hb0.
  assert (Hq0 : 0 <= a / b) by (apply Qle_shift_div_l; lra).
  assert (Hq1 : a / b <= 1) by (apply Qle_shift_div_r; lra).
  destruct (@binary64_between (a / b) 0 1) as (r & -> & Hr0 & Hr1 & _);
    [lia | lia | exact Hq0 | exact Hq1 |].
  assert (H100 : ofZ 100 = Fin 100) by (vm_compute; reflexivity).
  rewrite H100. cbn [mul]. change (inject_Z 0) with 0 in Hr0. change (inject_Z 1) with 1 in Hr1.
  destruct (@binary64_between (r * 100) 0 100) as (q & -> & Hq & Hq' & _);
    [lia | lia | literals; lra | literals; lra |].
  exists q. split; [reflexivity|]. split; assumption.
Qed.
Lemma Qfloor_range (x : Q) (hi : Z) :
  0 <= x -> x < inject_Z (hi + 1) -> (0 <= Qfloor x <= hi)%Z.
Proof.
  intros Hlo Hhi. split.
  - change 0%Z with (Qfloor 0). now apply Qfloor_resp_le.
  - pose proof (Qfloor_le x) as Hf.
    assert (H : inject_Z (Qfloor x) < inject_Z (hi + 1)) by lra.
    rewrite <- Zlt_Qlt in H. lia.
Qed.

Lemma round_bounded (q : Q) :
  0 <= q -> q <= inject_Z 100 ->
  exists r, round (Fin q) = Fin r /\ 0 <= r /\ r <= inject_Z 100.
Proof.
  intros H0 H1. cbn [round].
  destruct (@Qfloor_range (q + (1 # 2)) 100) as [Hz0 Hz1]; [lra | literals; lra |].
  rewrite ofZ_int by lia.
  exists (inject_Z (Qfloor (q + (1 # 2)))). split; [reflexivity|]. split.
  - rewrite <- (Zle_Qle 0). lia.
  - rewrite <- Zle_Qle. lia.
Qed.
Lemma roundFixed_bounded (q : Q) :
  0 <= q -> q <= inject_Z 100 ->
  exists r, roundFixed 1 (Fin q) = Fin r /\ 0 <= r /\ r <= inject_Z 100.
Proof.
  intros H0 H1. cbn [roundFixed].
  assert (Habs : Qabs q == q) by (apply Qabs_pos; assumption).
  assert (Hbig : Qle_bool (inject_Z (10 ^ 21)) (Qabs q) = false).
  { apply not_true_is_false. intros H. apply Qle_bool_iff in H. rewrite Habs in H.
    literals. lra. }
  rewrite Hbig.
  assert (Hpos : Qle_bool 0 q = true) by now apply Qle_bool_iff.
  rewrite Hpos.
  change (inject_Z (10 ^ Z.of_nat 1)) with (inject_Z 10).
  set (n := Qfloor (Qabs q * inject_Z 10 + (1 # 2))).
  assert (Hn : (0 <= n <= 1000)%Z).
  { apply Qfloor_range; rewrite Habs; literals; lra. }
  assert (Hm0 : 0 <= inject_Z n / inject_Z 10).
  { apply Qle_shift_div_l; [reflexivity|]. rewrite Qmult_0_l, <- (Zle_Qle 0). lia. }
  assert (Hm1 : inject_Z n / inject_Z 10 <= inject_Z 100).
  { apply Qle_shift_div_r; [reflexivity|]. rewrite <- inject_Z_mult, <- Zle_Qle. lia. }
  destruct (@binary64_between (inject_Z n / inject_Z 10) 0 100) as (r & -> & Hr0 & Hr1 & _);
    [lia | lia | exact Hm0 | exact Hm1 |].
  exists r. split; [reflexivity|]. split; assumption.
Qed.
Lemma filter_shorter {A : Type} (f : A -> bool) (l : list A) :
  (List.length (filter f l) <= List.length l)%nat.
Proof. induction l as [|a l IH]; simpl; [lia|]. destruct (f a); simpl; lia. Qed.

(** ** Harvest metrics of the server page *)

Lemma qualityStep_harvested (rows : list Row) (acc : QualityAcc) :
  acc_totalHarvested (fold_left qualityStep rows acc)
  = fold_left (fun sum row => add sum (tryFieldNames row harvestedFields)) rows
              (acc_totalHarvested acc).
Proof.
  revert acc. induction rows as [|row rows IH]; intros acc; [reflexivity|].
  cbn [fold_left]. rewrite IH. reflexivity.
Qed.

(** X7.  The harvested total that [calculateHarvestMetrics] reports equals
    the one of [calculateProductionMetrics]; the on-time deliveries never
    exceed the deliveries, which are the rows of the [Post_Harvest] sheet;
    and, the row count being an array length (below 2^32), the on-time
    percentage is a number between 0 and 100. *)
Theorem harvest_metrics_consistent (Date_parse : jsstring -> option Z) (now : Z)
        (sheetsData : SheetsData) :
  q_totalHarvested (calculateHarvestMetrics sheetsData)
  = totalHarvested (calculateProductionMetrics Date_parse now sheetsData)
  /\
  totalDeliveries (calculateHarvestMetrics sheetsData)
  = List.length (rowsOrEmpty sheetsData (js "Post_Harvest"))
  /\
  (onTimeDeliveries (calculateHarvestMetrics sheetsData)
   <= totalDeliveries (calculateHarvestMetrics sheetsData))%nat
  /\
  ((Z.of_nat (totalDeliveries (calculateHarvestMetrics sheetsData)) < 2 ^ 32)%Z ->
   exists q,
     onTimePercentage (calculateHarvestMetrics sheetsData) = Fin q /\
     0 <= q /\ q <= inject_Z 100).
Proof.
  unfold calculateHarvestMetrics, calculateProductionMetrics.
  cbn [q_totalHarvested totalHarvested totalDeliveries onTimeDeliveries onTimePercentage].
  split; [apply qualityStep_harvested|].
  split; [reflexivity|].
  split; [apply filter_shorter|].
  intros Hmax. unfold percentage.
  set (n := List.length (rowsOrEmpty sheetsData (js "Post_Harvest"))) in *.
  set (k := List.length (filter isOnTime (rowsOrEmpty sheetsData (js "Post_Harvest")))).
  assert (Hk : (k <= n)%nat) by apply filter_shorter.
  destruct n as [|n'] eqn:Hn.
  - exists 0. split; [|split; [apply Qle_refl | literals; lra]].
    replace k with 0%nat by lia. vm_compute. reflexivity.
  - destruct (@share_bounded k (S n')) as (q & Hq & Hq0 & Hq1); [lia | lia | lia |].
    assert (Hgt : gt (ofNat (S n')) zero = true).
    { rewrite ofNat_int by lia. unfold gt, zero. cbn [lt]. apply Qlt_bool_iff.
      rewrite <- (Zlt_Qlt 0). lia. }
    rewrite Hgt, Hq. now apply roundFixed_bounded.
Qed.

(** ** Colours and icons *)

Lemma configOf_table (config : SheetTypeConfig) :
  In config SHEET_TYPE_CONFIG -> configOf (cfg_type config) = Some config.
Proof.
  unfold SHEET_TYPE_CONFIG. cbn [In].
  intros H. repeat destruct H as [<- | H]; try contradiction; vm_compute; reflexivity.
Qed.

(** X8.  The colour and the icon of a sheet are those of the first entry of
    [SHEET_TYPE_CONFIG], in declaration order, that matches the sheet: the
    entry whose type [detectSheetType] returns.  A sheet that no entry
    matches is [general], with colour [slate] and the page icon.  A sheet
    that two entries match has the colour of the earlier one, and a name
    matches in upper case, by the full Unicode mapping. *)
Theorem sheet_colour_follows_type :
  (forall name headers,
      (exists before config after,
          SHEET_TYPE_CONFIG = before ++ config :: after /\
          (forall c, In c before -> entryMatches name headers c = false) /\
          entryMatches name headers config = true /\
          detectSheetType name headers = cfg_type config /\
          getSheetColor name headers = cfg_color config /\
          getSheetIcon name headers = cfg_icon config)
      \/
      ((forall config,
           In config SHEET_TYPE_CONFIG -> entryMatches name headers config = false) /\
       detectSheetType name headers = js "general" /\
       getSheetColor name headers = js "slate" /\
       getSheetIcon name headers = js "📄"))
  /\
  (getSheetColor (js "Batch_Revenue") [js "Revenue"] = js "green" /\
   getSheetIcon (js "Batch_Revenue") [js "Revenue"] = js "🌱" /\
   getSheetColor (js "batch_revenue") [js "Revenue"] = js "green" /\
   getSheetColor (js "Ledger") [js "Revenue"] = js "emerald" /\
   getSheetColor (js "harveſt") [] = js "orange" /\
   getSheetIcon (js "harveſt") [] = js "🌾" /\
   getSheetColor (js "Ledger") [js "REVENUE"] = js "slate").
Proof.
  split.
  - intros name headers. unfold getSheetColor, getSheetIcon, detectSheetType.
    destruct (detectIn_first name headers SHEET_TYPE_CONFIG)
      as [(before & config & after & Heq & Hno & Hyes & Hres) | [Hno Hres]].
    + left. exists before, config, after.
      assert (Hin : In config SHEET_TYPE_CONFIG).
      { rewrite Heq. apply in_or_app. right. now left. }
      rewrite Hres, (configOf_table Hin). repeat split; assumption.
    + right. rewrite Hres. repeat split; assumption.
  - repeat split; vm_compute; reflexivity.
Qed.

(** ** The sheet descriptors of the dashboard object *)

Lemma mapM_Forall2 {A B : Type} (f : A -> result B) (l : list A) (bs : list B) :
  mapM f l = Ok bs -> Forall2 (fun a b => f a = Ok b) l bs.
Proof.
  revert bs. induction l as [|a l IH]; intros bs H; cbn [mapM] in H.
  - injection H as <-. constructor.
  - destruct (f a) as [b|] eqn:Hb; [|discriminate]. cbn [bind] in H.
    destruct (mapM f l) as [bs'|]; [|discriminate]. cbn [bind] in H.
    injection H as <-. constructor; [assumption | now apply IH].
Qed.

Lemma sheetInfo_fields (e : jsstring * Sheet) (i : SheetInfo) :
  sheetInfo e = Ok i ->
  exists hs rs,
    headers (snd e) = Some hs /\ rows (snd e) = Some rs /\
    info_name i = fst e /\ info_type i = detectSheetType (fst e) hs /\
    info_records i = List.length rs /\ info_headers i = hs /\
    info_color i = getSheetColor (fst e) hs /\ info_icon i = getSheetIcon (fst e) hs /\
    info_lastRecord i = last (map Some rs) None.
Proof.
  destruct e as [name sh]. unfold sheetInfo, headersOf, rowsOf. cbn [fst snd].
  destruct (headers sh) as [hs|]; [|discriminate]. cbn [bind].
  destruct (rows sh) as [rs|]; [|discriminate]. cbn [bind].
  intros H. injection H as <-. exists hs, rs. repeat split.
Qed.

Lemma sheetConfig_fields (e : jsstring * Sheet) (c : SheetConfig) :
  sheetConfig e = Ok c ->
  exists hs rs,
    headers (snd e) = Some hs /\ rows (snd e) = Some rs /\
    conf_name c = fst e /\ conf_type c = detectSheetType (fst e) hs /\
    conf_recordCount c = List.length rs /\ conf_headers c = hs /\
    conf_color c = getSheetColor (fst e) hs /\ conf_icon c = getSheetIcon (fst e) hs /\
    conf_keyColumns c = firstn 3 hs.
Proof.
  destruct e as [name sh]. unfold sheetConfig, headersOf, rowsOf. cbn [fst snd].
  destruct (headers sh) as [hs|]; [|discriminate]. cbn [bind].
  destruct (rows sh) as [rs|]; [|discriminate]. cbn [bind].
  intros H. injection H as <-. exists hs, rs. repeat split.
Qed.

Lemma last_Some_None {A : Type} (l : list A) :
  last (map Some l) None = None <-> l = [].
Proof.
  split; [|intros ->; reflexivity].
  destruct l as [|a l]; [reflexivity|]. intros H. exfalso.
  revert a H. induction l as [|b l IH]; intros a H; cbn in H; [discriminate|].
  now apply (IH b).
Qed.

(** What the two descriptor lists say about the snapshot they describe. *)
Lemma descriptors_agree (sheetsData : SheetsData) (infos : list SheetInfo)
      (confs : list SheetConfig) :
  Forall2 (fun e i => sheetInfo e = Ok i) sheetsData infos ->
  Forall2 (fun e c => sheetConfig e = Ok c) sheetsData confs ->
  map info_name infos = map fst sheetsData /\
  map conf_name confs = map fst sheetsData /\
  map info_type infos = map conf_type confs /\
  map info_color infos = map conf_color confs /\
  map info_icon infos = map conf_icon confs /\
  map info_records infos = map conf_recordCount confs /\
  list_sum (map info_records infos) = totalRows sheetsData /\
  Forall (fun i => info_lastRecord i = None <-> info_records i = 0%nat) infos /\
  Forall (fun c => conf_keyColumns c = firstn 3 (conf_headers c) /\
                   (List.length (conf_keyColumns c) <= 3)%nat) confs.
Proof.
  intros Hi. revert confs. induction Hi as [|e i rest infos He Hrest IH]; intros confs Hc.
  - inversion Hc; subst. cbn. repeat split; constructor.
  - inversion Hc as [|? c ? confs' Hce Hcrest]; subst.
    destruct (IH _ Hcrest) as (H1 & H2 & H3 & H4 & H5 & H6 & H7 & H8 & H9).
    destruct (sheetInfo_fields e He)
      as (hs & rs & Hh & Hr & Hn & Ht & Hrec & Hhd & Hcol & Hic & Hlast).
    destruct (sheetConfig_fields e Hce)
      as (hs' & rs' & Hh' & Hr' & Hn' & Ht' & Hrec' & Hhd' & Hcol' & Hic' & Hkey).
    rewrite Hh in Hh'. injection Hh' as <-. rewrite Hr in Hr'. injection Hr' as <-.
    cbn [map]. unfold totalRows in *. cbn [map]. rewrite Hr.
    unfold list_sum in *. cbn [fold_right].
    repeat split; try (f_equal; congruence).
    + constructor; [|assumption]. rewrite Hlast, Hrec, last_Some_None.
      split; [intros ->; reflexivity | apply length_zero_iff_nil].
    + constructor; [|assumption]. rewrite Hkey, Hhd'. split; [reflexivity|].
      rewrite length_firstn. lia.
Qed.

(** X9.  In the dashboard object of a well-typed snapshot the [sheets] and
    [sheetsConfig] lists name the sheets in snapshot order and agree on the
    type, colour, icon and record count of every sheet; the record counts
    add up to [metadata.totalRecords]; a sheet has no [lastRecord] exactly
    when it has no record; and [keyColumns] are the first three headers at
    most. *)
Theorem dashboard_descriptors (Date_parse : jsstring -> option Z) (now : Z)
        (sheetsData : SheetsData) :
  wellTyped sheetsData ->
  exists d,
    generateDynamicDashboard Date_parse now sheetsData = Ok d /\
    map info_name (sheets d) = map fst sheetsData /\
    map conf_name (sheetsConfig d) = map fst sheetsData /\
    map info_type (sheets d) = map conf_type (sheetsConfig d) /\
    map info_color (sheets d) = map conf_color (sheetsConfig d) /\
    map info_icon (sheets d) = map conf_icon (sheetsConfig d) /\
    map info_records (sheets d) = map conf_recordCount (sheetsConfig d) /\
    list_sum (map info_records (sheets d)) = totalRecords (metadata d) /\
    Forall (fun i => info_lastRecord i = None <-> info_records i = 0%nat) (sheets d) /\
    Forall (fun c => conf_keyColumns c = firstn 3 (conf_headers c) /\
                     (List.length (conf_keyColumns c) <= 3)%nat) (sheetsConfig d).
Proof.
  intros Hwt. unfold generateDynamicDashboard.
  rewrite (countRecords_ok 0 Hwt). cbn [bind].
  destruct (summary_cards_titles Date_parse now Hwt) as (cards & Hcards & _).
  rewrite Hcards. cbn [bind].
  destruct (mapM_ok sheetInfo sheetsData) as (infos & Hinfos & _).
  { intros e He. apply sheetInfo_ok. now apply wellTyped_In with sheetsData. }
  destruct (mapM_ok sheetConfig sheetsData) as (confs & Hconfs & _).
  { intros e He. apply sheetConfig_ok. now apply wellTyped_In with sheetsData. }
  rewrite Hinfos, Hconfs. cbn [bind].
  eexists. split; [reflexivity|].
  cbn [sheets sheetsConfig metadata totalRecords].
  destruct (descriptors_agree (mapM_Forall2 _ _ Hinfos) (mapM_Forall2 _ _ Hconfs))
    as (H1 & H2 & H3 & H4 & H5 & H6 & H7 & H8 & H9).
  repeat split; assumption.
Qed.

Lemma dashboard_descriptors_witness :
  exists d,
    generateDynamicDashboard (fun _ => None) 0%Z sparseSnapshot = Ok d /\
    map info_name (sheets d) = [js "Batches"; js "Harvest_Log"] /\
    map info_records (sheets d) = [0%nat; 1%nat].
Proof.
  destruct (dashboard_descriptors (fun _ => None) 0%Z sparseSnapshot_wellTyped)
    as (d & Hd & Hnames & _).
  exists d. split; [exact Hd|]. split; [exact Hnames|].
  vm_compute in Hd. injection Hd as <-. reflexivity.
Defined.

(** The assembly of a well-typed snapshot returns. *)
Lemma dashboard_assembles (Date_parse : jsstring -> option Z) (now : Z)
      (sheetsData : SheetsData) :
  wellTyped sheetsData ->
  exists d, generateDynamicDashboard Date_parse now sheetsData = Ok d.
Proof.
  intros Hwt. unfold generateDynamicDashboard.
  rewrite (countRecords_ok 0 Hwt). cbn [bind].
  destruct (summary_cards_titles Date_parse now Hwt) as (cards & Hcards & _).
  rewrite Hcards. cbn [bind].
  destruct (mapM_ok sheetInfo sheetsData) as (infos & Hinfos & _).
  { intros e He. apply sheetInfo_ok. now apply wellTyped_In with sheetsData. }
  destruct (mapM_ok sheetConfig sheetsData) as (confs & Hconfs & _).
  { intros e He. apply sheetConfig_ok. now apply wellTyped_In with sheetsData. }
  rewrite Hinfos, Hconfs. cbn [bind]. eexists. reflexivity.
Qed.

(** ** The page component *)

Lemma dashboard_connected (Date_parse : jsstring -> option Z) (now : Z)
      (sheetsData : SheetsData) (d : DashboardData) :
  generateDynamicDashboard Date_parse now sheetsData = Ok d ->
  connectionStatus (metadata d) = js "connected" /\ summaryCards d <> [] /\
  rawData d = sheetsData.
Proof.
  unfold generateDynamicDashboard.
  destruct (countRecords sheetsData 0) as [n|]; [|discriminate]. cbn [bind].
  destruct (generateAgriculturalSummaryCards Date_parse now sheetsData) as [cards|] eqn:Hc;
    [|discriminate]. cbn [bind].
  destruct (mapM sheetInfo sheetsData) as [infos|]; [|discriminate]. cbn [bind].
  destruct (mapM sheetConfig sheetsData) as [confs|]; [|discriminate]. cbn [bind].
  intros H. injection H as <-. cbn [metadata connectionStatus summaryCards rawData].
  split; [reflexivity|]. split; [|reflexivity].
  unfold generateAgriculturalSummaryCards in Hc.
  destruct (countRecords sheetsData 0) as [m|]; [|discriminate]. cbn [bind] in Hc.
  injection Hc as <-. intros H. discriminate H.
Qed.

(** X10.  [Home] always hands a dashboard object to the component.  It is
    the assembled dashboard, with connection status [connected], exactly
    when the fetch delivered a non-empty snapshot on which the assembly did
    not throw; in every other case -- a rejected or timed-out fetch, the
    empty mapping, a throwing assembly -- it is the fallback object, with
    status [disconnected] and the single error card.  For a well-typed,
    non-empty snapshot [Home] shows the assembled dashboard. *)
Theorem Home_fallback (Date_parse : jsstring -> option Z) (now : Z)
        (fetched : option SheetsData) :
  ((exists sd d,
       fetched = Some sd /\ sd <> [] /\
       generateDynamicDashboard Date_parse now sd = Ok d /\
       Home Date_parse now fetched = d /\
       connectionStatus (metadata d) = js "connected")
   \/
   (Home Date_parse now fetched = fallbackData now /\
    (fetched = None \/ fetched = Some [] \/
     exists sd, fetched = Some sd /\
                generateDynamicDashboard Date_parse now sd = TypeError)))
  /\
  summaryCards (Home Date_parse now fetched) <> []
  /\
  (connectionStatus (metadata (fallbackData now)) = js "disconnected" /\
   map card_title (summaryCards (fallbackData now)) = [js "Error Loading Data"])
  /\
  (forall sd, fetched = Some sd -> sd <> [] -> wellTyped sd ->
              generateDynamicDashboard Date_parse now sd
              = Ok (Home Date_parse now fetched)).
Proof.
  assert (Hcases :
    (exists sd d,
        fetched = Some sd /\ sd <> [] /\
        generateDynamicDashboard Date_parse now sd = Ok d /\
        Home Date_parse now fetched = d /\
        connectionStatus (metadata d) = js "connected")
    \/
    (Home Date_parse now fetched = fallbackData now /\
     (fetched = None \/ fetched = Some [] \/
      exists sd, fetched = Some sd /\
                 generateDynamicDashboard Date_parse now sd = TypeError))).
  { destruct fetched as [[|e rest]|]; cbn [Home].
    - right. split; [reflexivity|]. right. now left.
    - destruct (generateDynamicDashboard Date_parse now (e :: rest)) as [d|] eqn:Hd.
      + left. exists (e :: rest), d. split; [reflexivity|]. split; [discriminate|].
        split; [exact Hd|]. split; [reflexivity|].
        now destruct (dashboard_connected _ _ _ Hd).
      + right. split; [reflexivity|]. right. right. now exists (e :: rest).
    - right. split; [reflexivity|]. now left. }
  split; [exact Hcases|].
  split.
  { destruct Hcases as [(sd & d & _ & _ & Hd & -> & _) | [-> _]].
    - now destruct (dashboard_connected _ _ _ Hd) as (_ & H & _).
    - discriminate. }
  split; [split; reflexivity|].
  intros sd -> Hne Hwt. destruct sd as [|e rest]; [contradiction|]. cbn [Home].
  destruct (dashboard_assembles Date_parse now Hwt) as [d Hd].
  now rewrite Hd.
Qed.

(** ** Sheet types and sheet selection in the client page *)

Lemma sheetsNamed_In (keywords : list jsstring) (sheetsData : ClientPage.SheetsData)
      (e : jsstring * option (list Row)) :
  In e (ClientPage.sheetsNamed keywords sheetsData) <->
  In e sheetsData /\ existsb (fun k => includes (toLowerCase (fst e)) k) keywords = true.
Proof. unfold ClientPage.sheetsNamed. apply filter_In. Qed.

(** The branch of an [if] chain that produced a given string, and the name
    test that holds in it. *)
Ltac chain H :=
  repeat match type of H with
         | (if ?c then _ else _) = _ => let E := fresh "E" in destruct c eqn:E
         end;
  try (vm_compute in H; discriminate H).

Ltac name_test :=
  repeat match goal with
         | H : _ || _ = true |- _ => apply orb_true_iff in H; destruct H as [H | H]
         end;
  match goal with
  | H : includes _ _ = true |- _ => rewrite H
  end;
  cbn [orb]; repeat rewrite orb_true_r; reflexivity.

(** X11.  Every sheet that [determineSheetType] types as revenue, expense,
    production, quality or logistics is read by the loop of that kind: the
    name tests of the loops contain those of the typing.  The converse
    fails, since the loops know more keywords: a sheet named [Earnings] is
    typed [general] and still counted as revenue, and a sheet named
    [Cost of Sales] is typed [revenue] and read by both the revenue and the
    expense loop. *)
Theorem typed_sheets_are_read (sheetsData : ClientPage.SheetsData)
        (e : jsstring * option (list Row)) :
  (In e sheetsData /\ ClientPage.determineSheetType (fst e) = js "revenue" ->
   In e (ClientPage.revenueSheets sheetsData))
  /\
  (In e sheetsData /\ ClientPage.determineSheetType (fst e) = js "expense" ->
   In e (ClientPage.expenseSheets sheetsData))
  /\
  (In e sheetsData /\ ClientPage.determineSheetType (fst e) = js "production" ->
   In e (ClientPage.productionSheets sheetsData))
  /\
  (In e sheetsData /\
   (ClientPage.determineSheetType (fst e) = js "quality" \/
    ClientPage.determineSheetType (fst e) = js "logistics") ->
   In e (ClientPage.qualitySheets sheetsData))
  /\
  (ClientPage.determineSheetType (js "Earnings") = js "general" /\
   ClientPage.m_total (ClientPage.revenueLoop earningsSheet) = Fin 250)
  /\
  (ClientPage.determineSheetType (js "Cost of Sales") = js "revenue" /\
   ClientPage.m_total (ClientPage.revenueLoop costOfSales) = Fin 250 /\
   ClientPage.m_total (ClientPage.expenseLoop costOfSales) = Fin 250).
Proof.
  unfold ClientPage.revenueSheets, ClientPage.expenseSheets, ClientPage.productionSheets,
    ClientPage.qualitySheets.
  rewrite !sheetsNamed_In. cbn [existsb].
  unfold ClientPage.determineSheetType. cbv zeta.
  split; [intros [Hin H]; split; [exact Hin|]; chain H; name_test|].
  split; [intros [Hin H]; split; [exact Hin|]; chain H; name_test|].
  split; [intros [Hin H]; split; [exact Hin|]; chain H; name_test|].
  split; [intros [Hin [H | H]]; (split; [exact Hin|]); chain H; name_test|].
  split; repeat split; vm_compute; reflexivity.
Qed.

(** ** Counters of the client page *)

Lemma roundedShare_bounded (part total : nat) :
  (part <= total)%nat -> (Z.of_nat total < 2 ^ 32)%Z ->
  exists q, ClientPage.roundedShare part total = Fin q /\ 0 <= q /\ q <= inject_Z 100.
Proof.
  intros Hle Hmax. unfold ClientPage.roundedShare. destruct total as [|n].
  - exists 0. split; [reflexivity|]. split; [apply Qle_refl | literals; lra].
  - cbn [Nat.ltb Nat.leb].
    destruct (@share_bounded part (S n)) as (q & -> & Hq0 & Hq1); [lia | lia | lia |].
    now apply round_bounded.
Qed.

Lemma filter_implies_shorter {A : Type} (f g : A -> bool) (l : list A) :
  (forall x, f x = true -> g x = true) ->
  (List.length (filter f l) <= List.length (filter g l))%nat.
Proof.
  intros H. induction l as [|a l IH]; [reflexivity|]. cbn [filter].
  destruct (f a) eqn:Hf.
  - rewrite (H a Hf). cbn [List.length]. lia.
  - destruct (g a); cbn [List.length]; lia.
Qed.

Lemma selected_rows_shorter (g : Row -> bool) (p : jsstring * option (list Row) -> bool)
      (sheetsData : ClientPage.SheetsData) :
  (List.length (filter g (ClientPage.rowsOfSheets (filter p sheetsData)))
   <= List.length (filter g (ClientPage.rowsOfSheets sheetsData)))%nat.
Proof.
  unfold ClientPage.rowsOfSheets.
  induction sheetsData as [|e rest IH]; [reflexivity|]. cbn [filter flat_map].
  destruct (p e); cbn [flat_map]; rewrite ?filter_app, ?length_app; lia.
Qed.

Lemma isGrowing_hasStatus (row : Row) :
  ClientPage.isGrowing row = true -> hasStatus row = true.
Proof.
  unfold ClientPage.isGrowing, hasStatus.
  destruct (ClientPage.statusOf row); [reflexivity | discriminate].
Qed.

Lemma operationStep_counts (acc : ClientPage.OperationCounts) (row : Row) :
  let acc' := ClientPage.operationStep acc row in
  (ClientPage.totalOperations acc'
   = ClientPage.totalOperations acc + if hasStatus row then 1 else 0)%nat /\
  ((ClientPage.activeOperations acc + ClientPage.completedOperations acc
    + ClientPage.pendingOperations acc <= ClientPage.totalOperations acc)%nat ->
   (ClientPage.activeOperations acc' + ClientPage.completedOperations acc'
    + ClientPage.pendingOperations acc' <= ClientPage.totalOperations acc')%nat).
Proof.
  unfold ClientPage.operationStep, hasStatus.
  destruct (ClientPage.statusOf row) as [status|]; cbv zeta.
  - repeat match goal with |- context [if ?c then _ else _] => destruct c end;
      cbn [ClientPage.totalOperations ClientPage.activeOperations
           ClientPage.completedOperations ClientPage.pendingOperations]; split; lia.
  - split; lia.
Qed.

Lemma operation_fold (rows : list Row) (acc : ClientPage.OperationCounts) :
  (ClientPage.totalOperations (fold_left ClientPage.operationStep rows acc)
   = ClientPage.totalOperations acc + List.length (filter hasStatus rows))%nat /\
  ((ClientPage.activeOperations acc + ClientPage.completedOperations acc
    + ClientPage.pendingOperations acc <= ClientPage.totalOperations acc)%nat ->
   (ClientPage.activeOperations (fold_left ClientPage.operationStep rows acc)
    + ClientPage.completedOperations (fold_left ClientPage.operationStep rows acc)
    + ClientPage.pendingOperations (fold_left ClientPage.operationStep rows acc)
    <= ClientPage.totalOperations (fold_left ClientPage.operationStep rows acc))%nat).
Proof.
  revert acc. induction rows as [|row rows IH]; intros acc; cbn [fold_left filter].
  - cbn [List.length]. split; [lia | auto].
  - destruct (operationStep_counts acc row) as [H1 H2].
    destruct (IH (ClientPage.operationStep acc row)) as [H3 H4].
    split.
    + rewrite H3, H1. destruct (hasStatus row); cbn [List.length]; lia.
    + intros H. apply H4, H2, H.
Qed.

Lemma delivery_fold (rows : list Row) (acc : nat * nat) :
  (snd acc <= fst acc)%nat ->
  (snd (fold_left ClientPage.deliveryStep rows acc)
   <= fst (fold_left ClientPage.deliveryStep rows acc))%nat /\
  (fst (fold_left ClientPage.deliveryStep rows acc) <= fst acc + List.length rows)%nat.
Proof.
  revert acc. induction rows as [|row rows IH]; intros acc Hacc; cbn [fold_left List.length].
  - split; lia.
  - destruct (IH (ClientPage.deliveryStep acc row)) as [H1 H2].
    + unfold ClientPage.deliveryStep.
      destruct (ClientPage.deliveryStatusOf row) as [status|]; [|assumption].
      cbn [fst snd]. destruct (_ || _); lia.
    + split; [assumption|].
      eapply Nat.le_trans; [exact H2|].
      unfold ClientPage.deliveryStep.
      destruct (ClientPage.deliveryStatusOf row); cbn [fst]; lia.
Qed.

(** X12.  The counters of the client page keep their order: the active,
    completed and pending operations together never exceed the operations
    counted, which are the rows with a status; the active batches of the
    production sheets are among them; the on-time deliveries never exceed
    the deliveries.  With counts below 2^32 the completion rate and the
    on-time percentage are numbers between 0 and 100. *)
Theorem client_counters (sheetsData : ClientPage.SheetsData) :
  (ClientPage.activeOperations (ClientPage.operationCounts sheetsData)
   + ClientPage.completedOperations (ClientPage.operationCounts sheetsData)
   + ClientPage.pendingOperations (ClientPage.operationCounts sheetsData)
   <= ClientPage.totalOperations (ClientPage.operationCounts sheetsData))%nat
  /\
  ClientPage.totalOperations (ClientPage.operationCounts sheetsData)
  = List.length (filter hasStatus (ClientPage.rowsOfSheets sheetsData))
  /\
  (ClientPage.activeBatches sheetsData
   <= ClientPage.totalOperations (ClientPage.operationCounts sheetsData))%nat
  /\
  (snd (ClientPage.deliveryCounts sheetsData)
   <= fst (ClientPage.deliveryCounts sheetsData))%nat
  /\
  (fst (ClientPage.deliveryCounts sheetsData)
   <= List.length (ClientPage.rowsOfSheets (ClientPage.qualitySheets sheetsData)))%nat
  /\
  ((Z.of_nat (ClientPage.totalOperations (ClientPage.operationCounts sheetsData)) < 2 ^ 32)%Z ->
   exists q, ClientPage.completionRate sheetsData = Fin q /\ 0 <= q /\ q <= inject_Z 100)
  /\
  ((Z.of_nat (fst (ClientPage.deliveryCounts sheetsData)) < 2 ^ 32)%Z ->
   exists q, ClientPage.onTimePercentage sheetsData = Fin q /\ 0 <= q /\ q <= inject_Z 100).
Proof.
  destruct (operation_fold (ClientPage.rowsOfSheets sheetsData) ClientPage.operationStart)
    as [Htotal Hsum].
  cbn [ClientPage.operationStart ClientPage.totalOperations ClientPage.activeOperations
       ClientPage.completedOperations ClientPage.pendingOperations] in Htotal, Hsum.
  fold ClientPage.operationStart in Htotal, Hsum.
  fold (ClientPage.operationCounts sheetsData) in Htotal, Hsum.
  specialize (Hsum (Nat.le_refl _)).
  destruct (delivery_fold
              (ClientPage.rowsOfSheets (ClientPage.qualitySheets sheetsData))
              (0%nat, 0%nat) (Nat.le_refl _)) as [Hd1 Hd2].
  fold (ClientPage.deliveryCounts sheetsData) in Hd1, Hd2. cbn [fst] in Hd2.
  split; [exact Hsum|].
  split; [exact Htotal|].
  split.
  { rewrite Htotal. unfold ClientPage.activeBatches, ClientPage.productionSheets,
      ClientPage.sheetsNamed.
    eapply Nat.le_trans; [apply (filter_implies_shorter _ hasStatus), isGrowing_hasStatus|].
    apply selected_rows_shorter. }
  split; [exact Hd1|].
  split; [exact Hd2|].
  split.
  - intros Hmax. unfold ClientPage.completionRate. apply roundedShare_bounded; lia.
  - intros Hmax. unfold ClientPage.onTimePercentage. apply roundedShare_bounded; lia.
Qed.

(** ** Profit margin and trend of the client page *)

Lemma money_count_zero (fields : list jsstring) (rows : list Row) (acc : ClientPage.MoneyAcc) :
  (ClientPage.m_count acc = 0%nat -> ClientPage.m_total acc = zero) ->
  ClientPage.m_count (fold_left (ClientPage.moneyStep fields) rows acc) = 0%nat ->
  ClientPage.m_total (fold_left (ClientPage.moneyStep fields) rows acc) = zero.
Proof.
  revert acc. induction rows as [|row rows IH]; intros acc Hacc; cbn [fold_left]; [exact Hacc|].
  apply IH. unfold ClientPage.moneyStep.
  destruct (gt (ClientPage.extractNumericValue row fields) zero);
    cbn [ClientPage.m_count ClientPage.m_total]; [discriminate | exact Hacc].
Qed.

Lemma expensesOnly_no_stream :
  ClientPage.m_count (ClientPage.revenueLoop negativeExpense) = 0%nat.
Proof. reflexivity. Defined.

(** X13.  When no row has contributed a positive revenue amount
    ([revenueStreams] is 0: no revenue sheet, or only zero amounts), the
    revenue total and the profit margin are 0 and the revenue trend is
    [down], not [neutral], whatever the expenses are. *)
Theorem no_revenue_trend (sheetsData : ClientPage.SheetsData) :
  ClientPage.m_count (ClientPage.revenueLoop sheetsData) = 0%nat ->
  ClientPage.m_total (ClientPage.revenueLoop sheetsData) = zero /\
  ClientPage.profitMargin sheetsData = zero /\
  ClientPage.revenueTrend sheetsData = ClientPage.down.
Proof.
  intros H.
  assert (Ht : ClientPage.m_total (ClientPage.revenueLoop sheetsData) = zero).
  { unfold ClientPage.revenueLoop in *. apply money_count_zero; [reflexivity | exact H]. }
  assert (Hm : ClientPage.profitMargin sheetsData = zero).
  { unfold ClientPage.profitMargin. rewrite Ht. reflexivity. }
  split; [exact Ht|]. split; [exact Hm|].
  unfold ClientPage.revenueTrend. rewrite Hm. vm_compute. reflexivity.
Qed.

Lemma no_revenue_trend_witness :
  ClientPage.m_total (ClientPage.revenueLoop negativeExpense) = zero /\
  ClientPage.profitMargin negativeExpense = zero /\
  ClientPage.revenueTrend negativeExpense = ClientPage.down.
Proof. exact (no_revenue_trend negativeExpense expensesOnly_no_stream). Defined.

(** ** Rows built by the sheets library *)

Lemma protoKey_eqb (key : jsstring) :
  (eqb key SheetsLibrary.protoKey = true -> key = SheetsLibrary.protoKey) /\
  (eqb key SheetsLibrary.protoKey = false -> key <> SheetsLibrary.protoKey).
Proof.
  split.
  - apply eqb_eq.
  - intros H ->. rewrite eqb_refl in H. discriminate.
Qed.

Lemma get_setOwn (obj : Row) (key value k : jsstring) :
  get (SheetsLibrary.setOwn obj key value) k
  = if eqb k key then VStr value else get obj k.
Proof.
  induction obj as [|[k0 v0] rest IH]; cbn [SheetsLibrary.setOwn get]; [reflexivity|].
  destruct (eqb key k0) eqn:E; cbn [get].
  - apply eqb_eq in E. subst k0. destruct (eqb k key); reflexivity.
  - rewrite IH. destruct (eqb k k0) eqn:E0; [|reflexivity].
    apply eqb_eq in E0. subst k0.
    destruct (eqb k key) eqn:E1; [|reflexivity].
    apply eqb_eq in E1. subst key. rewrite eqb_refl in E. discriminate.
Qed.

Lemma keys_setOwn (obj : Row) (key value k : jsstring) :
  In k (map fst (SheetsLibrary.setOwn obj key value)) <-> k = key \/ In k (map fst obj).
Proof.
  induction obj as [|[k0 v0] rest IH]; cbn [SheetsLibrary.setOwn map fst In].
  - split; [intros [H | []]; left; now symmetry | intros [H | []]; left; now symmetry].
  - destruct (eqb key k0) eqn:E; cbn [map fst In].
    + apply eqb_eq in E. subst k0. split; [tauto|].
      intros [H | H]; [left; now symmetry | exact H].
    + rewrite IH. tauto.
Qed.

Lemma NoDup_setOwn (obj : Row) (key value : jsstring) :
  NoDup (map fst obj) -> NoDup (map fst (SheetsLibrary.setOwn obj key value)).
Proof.
  induction obj as [|[k0 v0] rest IH]; cbn [SheetsLibrary.setOwn map fst]; intros Hnd.
  - constructor; [intros [] | constructor].
  - destruct (eqb key k0) eqn:E; cbn [map fst]; [exact Hnd|].
    inversion Hnd as [|? ? Hnot Hrest]; subst. constructor; [|now apply IH].
    rewrite keys_setOwn. intros [H | H]; [|now apply Hnot].
    subst k0. rewrite eqb_refl in E. discriminate.
Qed.

Lemma get_setProp (obj : Row) (key value k : jsstring) :
  get (SheetsLibrary.setProp obj key value) k
  = if eqb key SheetsLibrary.protoKey then get obj k
    else if eqb k key then VStr value else get obj k.
Proof.
  unfold SheetsLibrary.setProp.
  destruct (eqb key SheetsLibrary.protoKey); [reflexivity | apply get_setOwn].
Qed.

Lemma keys_setProp (obj : Row) (key value k : jsstring) :
  In k (map fst (SheetsLibrary.setProp obj key value))
  <-> (k = key /\ k <> SheetsLibrary.protoKey) \/ In k (map fst obj).
Proof.
  unfold SheetsLibrary.setProp. destruct (protoKey_eqb key) as [Hyes Hno].
  destruct (eqb key SheetsLibrary.protoKey).
  - specialize (Hyes eq_refl). split; [now right|].
    intros [[-> H] | H]; [contradiction | exact H].
  - specialize (Hno eq_refl). rewrite keys_setOwn. split.
    + intros [-> | H]; [left; now split | now right].
    + intros [[-> _] | H]; [now left | now right].
Qed.

Lemma NoDup_setProp (obj : Row) (key value : jsstring) :
  NoDup (map fst obj) -> NoDup (map fst (SheetsLibrary.setProp obj key value)).
Proof.
  unfold SheetsLibrary.setProp.
  destruct (eqb key SheetsLibrary.protoKey); [auto | apply NoDup_setOwn].
Qed.

Lemma fillFrom_keys (text : SheetsLibrary.cell -> jsstring) (headers : list jsstring)
      (r : list SheetsLibrary.cell) (index : nat) (obj : Row) (k : jsstring) :
  In k (map fst (fillFrom text index headers r obj))
  <-> In k (map fst obj)
      \/ (In k (columnKeysFrom index headers) /\ k <> SheetsLibrary.protoKey).
Proof.
  revert index obj. induction headers as [|h rest IH]; intros index obj;
    cbn [fillFrom columnKeysFrom In]; [tauto|].
  rewrite IH, keys_setProp. split.
  - intros [[[-> H] | H] | [H1 H2]]; auto.
  - intros [H | [[<- | H1] H2]]; auto.
Qed.

Lemma fillFrom_NoDup (text : SheetsLibrary.cell -> jsstring) (headers : list jsstring)
      (r : list SheetsLibrary.cell) (index : nat) (obj : Row) :
  NoDup (map fst obj) -> NoDup (map fst (fillFrom text index headers r obj)).
Proof.
  revert index obj. induction headers as [|h rest IH]; intros index obj Hnd;
    cbn [fillFrom]; [exact Hnd|].
  apply IH, NoDup_setProp, Hnd.
Qed.

Lemma fillFrom_other (text : SheetsLibrary.cell -> jsstring) (headers : list jsstring)
      (r : list SheetsLibrary.cell) (index : nat) (obj : Row) (k : jsstring) :
  ~ In k (columnKeysFrom index headers) ->
  get (fillFrom text index headers r obj) k = get obj k.
Proof.
  revert index obj. induction headers as [|h rest IH]; intros index obj Hnot;
    cbn [fillFrom columnKeysFrom In] in *; [reflexivity|].
  rewrite IH by tauto. rewrite get_setProp.
  destruct (eqb (SheetsLibrary.columnKey h index) SheetsLibrary.protoKey); [reflexivity|].
  destruct (eqb k (SheetsLibrary.columnKey h index)) eqn:E; [|reflexivity].
  apply eqb_eq in E. exfalso. apply Hnot. left. now symmetry.
Qed.

Lemma columnKeysFrom_nth (headers : list jsstring) (index i : nat) :
  (i < List.length headers)%nat ->
  nth i (columnKeysFrom index headers) []
  = SheetsLibrary.columnKey (nth i headers []) (index + i).
Proof.
  revert index i. induction headers as [|h rest IH]; intros index i Hi;
    cbn [List.length] in Hi; [lia|].
  destruct i as [|i]; cbn [columnKeysFrom nth].
  - now rewrite Nat.add_0_r.
  - rewrite IH by lia. f_equal. lia.
Qed.

Lemma columnKeysFrom_length (headers : list jsstring) (index : nat) :
  List.length (columnKeysFrom index headers) = List.length headers.
Proof.
  revert index. induction headers as [|h rest IH]; intros index;
    cbn [columnKeysFrom List.length]; [reflexivity|]. now rewrite IH.
Qed.

Lemma columnKeysFrom_In (headers : list jsstring) (index : nat) (k : jsstring) :
  In k (columnKeysFrom index headers) <->
  exists j, (j < List.length headers)%nat /\
            k = SheetsLibrary.columnKey (nth j headers []) (index + j).
Proof.
  split.
  - intros H. destruct (In_nth _ _ [] H) as (j & Hj & Hn).
    rewrite columnKeysFrom_length in Hj. exists j. split; [exact Hj|].
    rewrite <- Hn. now apply columnKeysFrom_nth.
  - intros (j & Hj & ->). rewrite <- columnKeysFrom_nth by exact Hj.
    apply nth_In. now rewrite columnKeysFrom_length.
Qed.

(** The last column that carries a key decides the cell stored under it. *)
Lemma fillFrom_last (text : SheetsLibrary.cell -> jsstring) (headers : list jsstring)
      (r : list SheetsLibrary.cell) (index : nat) (obj : Row) (i : nat) :
  (i < List.length headers)%nat ->
  SheetsLibrary.columnKey (nth i headers []) (index + i) <> SheetsLibrary.protoKey ->
  (forall j, (i < j < List.length headers)%nat ->
             SheetsLibrary.columnKey (nth j headers []) (index + j)
             <> SheetsLibrary.columnKey (nth i headers []) (index + i)) ->
  get (fillFrom text index headers r obj)
      (SheetsLibrary.columnKey (nth i headers []) (index + i))
  = VStr (text (nth (index + i) r SheetsLibrary.CUndefined)).
Proof.
  revert index obj i. induction headers as [|h rest IH]; intros index obj i Hi Hproto Hlast;
    cbn [List.length] in Hi; [lia|].
  cbn [fillFrom]. destruct i as [|i].
  - cbn [nth] in Hproto |- *. rewrite Nat.add_0_r in Hproto |- *. rewrite fillFrom_other.
    + rewrite get_setProp, eqb_refl.
      destruct (protoKey_eqb (SheetsLibrary.columnKey h index)) as [Hyes _].
      destruct (eqb (SheetsLibrary.columnKey h index) SheetsLibrary.protoKey);
        [now specialize (Hyes eq_refl) | reflexivity].
    + rewrite columnKeysFrom_In. intros (j & Hj & Hk).
      apply (Hlast (S j)).
      * cbn [List.length]. lia.
      * cbn [nth]. rewrite Nat.add_0_r.
        replace (index + S j)%nat with (S index + j)%nat by lia. now symmetry.
  - cbn [nth] in Hproto |- *.
    replace (index + S i)%nat with (S index + i)%nat in Hproto |- * by lia.
    apply IH; [lia | exact Hproto |].
    intros j Hj. specialize (Hlast (S j)). cbn [nth List.length] in Hlast.
    replace (index + S j)%nat with (S index + j)%nat in Hlast by lia.
    replace (index + S i)%nat with (S index + i)%nat in Hlast by lia.
    apply Hlast. lia.
Qed.

Lemma publishedRowFrom_fill (numberToString : number -> jsstring)
      (headers : list jsstring) (row : list SheetsLibrary.cell)
      (index : nat) (obj : Row) (hasData : bool) :
  SheetsLibrary.publishedRowFrom numberToString index headers row obj hasData
  = (fillFrom (fun c => fst (SheetsLibrary.publishedCell numberToString c))
              index headers row obj,
     hasData
     || existsb (fun i => snd (SheetsLibrary.publishedCell
                                 numberToString (nth i row SheetsLibrary.CUndefined)))
                (seq index (List.length headers))).
Proof.
  revert index obj hasData. induction headers as [|h rest IH]; intros index obj hasData;
    cbn [SheetsLibrary.publishedRowFrom fillFrom List.length seq existsb].
  - now rewrite orb_false_r.
  - destruct (SheetsLibrary.publishedCell numberToString (nth index row SheetsLibrary.CUndefined))
      as [stringValue data] eqn:E.
    rewrite IH. cbn [fst snd]. now rewrite orb_assoc.
Qed.

Lemma apiRowFrom_fill (numberToString : number -> jsstring)
      (headers : list jsstring) (r : list SheetsLibrary.cell) (index : nat) (obj : Row) :
  SheetsLibrary.apiRowFrom numberToString index headers r obj
  = fillFrom (SheetsLibrary.apiCell numberToString) index headers r obj.
Proof.
  revert index obj. induction headers as [|h rest IH]; intros index obj;
    cbn [SheetsLibrary.apiRowFrom fillFrom]; [reflexivity|]. apply IH.
Qed.

Lemma get_missing (obj : Row) (k : jsstring) :
  ~ In k (map fst obj) -> get obj k = VUndefined.
Proof.
  induction obj as [|[k0 v0] rest IH]; cbn [map fst In get]; [reflexivity|].
  intros Hnot. destruct (eqb k k0) eqn:E.
  - apply eqb_eq in E. exfalso. apply Hnot. left. now symmetry.
  - apply IH. tauto.
Qed.

Lemma get_present (obj : Row) (k : jsstring) :
  In k (map fst obj) -> exists s, get obj k = VStr s.
Proof.
  induction obj as [|[k0 v0] rest IH]; cbn [map fst In get]; [contradiction|].
  intros Hin. destruct (eqb k k0) eqn:E; [now exists v0|].
  destruct Hin as [H | H]; [|now apply IH].
  subst k0. rewrite eqb_refl in E. discriminate.
Qed.

Lemma reader_row_keys (numberToString : number -> jsstring)
      (headers : list jsstring) (r : list SheetsLibrary.cell) (k : jsstring) :
  (In k (map fst (fst (SheetsLibrary.publishedRow numberToString headers r)))
   <-> In k (columnKeys headers) /\ k <> SheetsLibrary.protoKey) /\
  (In k (map fst (SheetsLibrary.apiRow numberToString headers r))
   <-> In k (columnKeys headers) /\ k <> SheetsLibrary.protoKey).
Proof.
  unfold SheetsLibrary.publishedRow, SheetsLibrary.apiRow, columnKeys.
  rewrite publishedRowFrom_fill, apiRowFrom_fill. cbn [fst].
  rewrite !fillFrom_keys. cbn [map In]. tauto.
Qed.

(** X14.  A row read by either reader of the sheets library has as its
    properties exactly the column keys other than [__proto__], each once:
    a column under the header [__proto__] leaves no property.  Under a key
    the row stores the text of the last column carrying that key, so of two
    columns with the same header the later one wins.  The published reader
    counts a row as having data exactly when a cell under one of the headers
    has data: cells beyond the header row do not count. *)
Theorem library_rows (numberToString : number -> jsstring)
        (headers : list jsstring) (r : list SheetsLibrary.cell) :
  (NoDup (map fst (fst (SheetsLibrary.publishedRow numberToString headers r))) /\
   NoDup (map fst (SheetsLibrary.apiRow numberToString headers r)))
  /\
  (forall k,
      (In k (map fst (fst (SheetsLibrary.publishedRow numberToString headers r)))
       <-> In k (columnKeys headers) /\ k <> SheetsLibrary.protoKey) /\
      (In k (map fst (SheetsLibrary.apiRow numberToString headers r))
       <-> In k (columnKeys headers) /\ k <> SheetsLibrary.protoKey))
  /\
  (forall i, (i < List.length headers)%nat ->
      SheetsLibrary.columnKey (nth i headers []) i <> SheetsLibrary.protoKey ->
      (forall j, (i < j < List.length headers)%nat ->
                 SheetsLibrary.columnKey (nth j headers []) j
                 <> SheetsLibrary.columnKey (nth i headers []) i) ->
      get (fst (SheetsLibrary.publishedRow numberToString headers r))
          (SheetsLibrary.columnKey (nth i headers []) i)
      = VStr (fst (SheetsLibrary.publishedCell
                     numberToString (nth i r SheetsLibrary.CUndefined))) /\
      get (SheetsLibrary.apiRow numberToString headers r)
          (SheetsLibrary.columnKey (nth i headers []) i)
      = VStr (SheetsLibrary.apiCell numberToString (nth i r SheetsLibrary.CUndefined)))
  /\
  snd (SheetsLibrary.publishedRow numberToString headers r)
  = existsb (fun i => snd (SheetsLibrary.publishedCell
                             numberToString (nth i r SheetsLibrary.CUndefined)))
            (seq 0 (List.length headers))
  /\
  (SheetsLibrary.publishedRow numberToString protoHeaders protoRow
   = ([(js "Batch", js "B-1"); (js "Qty", js "12")], true) /\
   SheetsLibrary.apiRow numberToString protoHeaders protoRow
   = [(js "Batch", js "B-1"); (js "Qty", js "12")] /\
   SheetsLibrary.publishedRow numberToString repeatedHeaders
                              [SheetsLibrary.CStr (js "B-7"); SheetsLibrary.CStr (js "40");
                               SheetsLibrary.CStr (js "note"); SheetsLibrary.CStr (js "")]
   = ([(js "Batch", js "B-7"); (js "ExpectedYield", js ""); (js "col_3", js "note")], true)).
Proof.
  split.
  { unfold SheetsLibrary.publishedRow, SheetsLibrary.apiRow.
    rewrite publishedRowFrom_fill, apiRowFrom_fill. cbn [fst].
    split; apply fillFrom_NoDup; constructor. }
  split; [intros k; apply reader_row_keys|].
  split.
  { intros i Hi Hproto Hlast.
    unfold SheetsLibrary.publishedRow, SheetsLibrary.apiRow.
    rewrite publishedRowFrom_fill, apiRowFrom_fill. cbn [fst].
    split.
    - exact (@fillFrom_last
               (fun c => fst (SheetsLibrary.publishedCell numberToString c))
               headers r 0 [] i Hi Hproto Hlast).
    - exact (@fillFrom_last (SheetsLibrary.apiCell numberToString)
               headers r 0 [] i Hi Hproto Hlast). }
  split.
  { unfold SheetsLibrary.publishedRow. rewrite publishedRowFrom_fill. reflexivity. }
  repeat split; vm_compute; reflexivity.
Qed.

(** X15.  On a row read by the sheets library the field resolver of the
    server page never gets past a candidate that is a column of the sheet:
    the first candidate that is a column key decides, even when its cell is
    empty, and later candidates are not consulted.  The candidates before
    it are names that [Object.prototype] does not have, as those of the
    pipeline are, and the deciding column is not [__proto__], which leaves
    no property. *)
Theorem library_row_resolved (numberToString : number -> jsstring)
        (headers : list jsstring) (r : list SheetsLibrary.cell)
        (before : list jsstring) (f : jsstring) (after : list jsstring) :
  (forall g, In g before -> ~ In g (columnKeys headers)) ->
  (forall g, In g before -> ~ In g objectPrototypeNames) ->
  In f (columnKeys headers) ->
  f <> SheetsLibrary.protoKey ->
  (tryFieldNames (fst (SheetsLibrary.publishedRow numberToString headers r))
                 (before ++ f :: after)
   = cleanNumericValue
       (get (fst (SheetsLibrary.publishedRow numberToString headers r)) f) /\
   exists s, get (fst (SheetsLibrary.publishedRow numberToString headers r)) f = VStr s)
  /\
  (tryFieldNames (SheetsLibrary.apiRow numberToString headers r) (before ++ f :: after)
   = cleanNumericValue (get (SheetsLibrary.apiRow numberToString headers r) f) /\
   exists s, get (SheetsLibrary.apiRow numberToString headers r) f = VStr s).
Proof.
  intros Hbefore Hnames Hf Hproto.
  assert (Hgen : forall obj : Row,
             (forall k, In k (map fst obj)
                        <-> In k (columnKeys headers) /\ k <> SheetsLibrary.protoKey) ->
             tryFieldNames obj (before ++ f :: after) = cleanNumericValue (get obj f) /\
             exists s, get obj f = VStr s).
  { intros obj Hkeys.
    assert (Hpresent : exists s, get obj f = VStr s).
    { apply get_present, Hkeys. now split. }
    split; [|exact Hpresent].
    clear Hf Hnames. induction before as [|g before IH]; cbn [app tryFieldNames].
    - destruct Hpresent as [s ->]. reflexivity.
    - rewrite get_missing.
      + apply IH. intros g' Hg'. apply Hbefore. now right.
      + rewrite Hkeys. intros [Hg _]. revert Hg. apply Hbefore. now left. }
  split; apply Hgen; intros k; apply (reader_row_keys numberToString headers r k).
Qed.

Lemma repeatedHeaders_resolved :
  (forall g, In g [js "ExpectedYield(kg)"] -> ~ In g (columnKeys repeatedHeaders)) /\
  (forall g, In g [js "ExpectedYield(kg)"] -> ~ In g objectPrototypeNames) /\
  In (js "ExpectedYield") (columnKeys repeatedHeaders) /\
  js "ExpectedYield" <> SheetsLibrary.protoKey.
Proof.
  split; [|split; [|split]].
  - intros g [<- | []]. vm_compute. intros H.
    repeat (destruct H as [H | H]; [discriminate H|]). exact H.
  - intros g [<- | []]. vm_compute. intros H.
    repeat (destruct H as [H | H]; [discriminate H|]). exact H.
  - vm_compute. right. left. reflexivity.
  - vm_compute. discriminate.
Defined.

Lemma library_row_resolved_witness :
  tryFieldNames (fst (SheetsLibrary.publishedRow integerToString repeatedHeaders repeatedRow))
                ([js "ExpectedYield(kg)"] ++ js "ExpectedYield" :: [js "Expected Yield"])
  = cleanNumericValue
      (get (fst (SheetsLibrary.publishedRow integerToString repeatedHeaders repeatedRow))
           (js "ExpectedYield")) /\
  get (fst (SheetsLibrary.publishedRow integerToString repeatedHeaders repeatedRow))
      (js "ExpectedYield") = VStr [].
Proof.
  split.
  - exact (proj1 (proj1 (@library_row_resolved
                           integerToString repeatedHeaders repeatedRow
                           [js "ExpectedYield(kg)"] (js "ExpectedYield") [js "Expected Yield"]
                           (proj1 repeatedHeaders_resolved)
                           (proj1 (proj2 repeatedHeaders_resolved))
                           (proj1 (proj2 (proj2 repeatedHeaders_resolved)))
                           (proj2 (proj2 (proj2 repeatedHeaders_resolved)))))).
  - reflexivity.
Defined.

(** ** The row loop of the published reader *)

Lemma collectRows_blank_run (numberToString : number -> jsstring) (headers : list jsstring)
      (blanks rest : list (list SheetsLibrary.cell)) (n : nat) :
  Forall (fun row => snd (SheetsLibrary.publishedRow numberToString headers row) = false)
         blanks ->
  (n < SheetsLibrary.MAX_CONSECUTIVE_EMPTY)%nat ->
  (SheetsLibrary.MAX_CONSECUTIVE_EMPTY <= n + List.length blanks)%nat ->
  SheetsLibrary.collectRows numberToString headers (blanks ++ rest) n = [].
Proof.
  unfold SheetsLibrary.MAX_CONSECUTIVE_EMPTY.
  revert n. induction blanks as [|row blanks IH]; intros n Hblank Hn Hlen;
    cbn [List.length] in Hlen; [lia|].
  inversion Hblank as [|? ? Hrow Hrest]; subst.
  cbn [app SheetsLibrary.collectRows].
  destruct (SheetsLibrary.publishedRow numberToString headers row) as [obj hasData].
  cbn [snd] in Hrow. subst hasData. unfold SheetsLibrary.MAX_CONSECUTIVE_EMPTY.
  destruct (5 <=? S n)%nat eqn:E; [reflexivity|].
  apply Nat.leb_gt in E. apply IH; [exact Hrest | lia | lia].
Qed.

Lemma collectRows_cut (numberToString : number -> jsstring) (headers : list jsstring)
      (pre blanks rest : list (list SheetsLibrary.cell)) (n : nat) :
  Forall (fun row => snd (SheetsLibrary.publishedRow numberToString headers row) = false)
         blanks ->
  (SheetsLibrary.MAX_CONSECUTIVE_EMPTY <= List.length blanks)%nat ->
  (n < SheetsLibrary.MAX_CONSECUTIVE_EMPTY)%nat ->
  SheetsLibrary.collectRows numberToString headers (pre ++ blanks ++ rest) n
  = SheetsLibrary.collectRows numberToString headers pre n.
Proof.
  intros Hblank Hlen. revert n. induction pre as [|row pre IH]; intros n Hn.
  - cbn [app SheetsLibrary.collectRows]. apply collectRows_blank_run; [exact Hblank | exact Hn | lia].
  - cbn [app SheetsLibrary.collectRows].
    destruct (SheetsLibrary.publishedRow numberToString headers row) as [obj hasData].
    destruct hasData.
    + f_equal. apply IH. unfold SheetsLibrary.MAX_CONSECUTIVE_EMPTY. lia.
    + destruct (SheetsLibrary.MAX_CONSECUTIVE_EMPTY <=? S n)%nat eqn:E; [reflexivity|].
      apply Nat.leb_gt in E. apply IH, E.
Qed.

Lemma collectRows_all (numberToString : number -> jsstring) (headers : list jsstring)
      (data : list (list SheetsLibrary.cell)) (n : nat) :
  (forall pre blanks rest,
      data = pre ++ blanks ++ rest ->
      Forall (fun row => snd (SheetsLibrary.publishedRow numberToString headers row) = false)
             blanks ->
      ((match pre with [] => n | _ => 0 end) + List.length blanks
       < SheetsLibrary.MAX_CONSECUTIVE_EMPTY)%nat) ->
  SheetsLibrary.collectRows numberToString headers data n
  = map fst (filter snd (map (SheetsLibrary.publishedRow numberToString headers) data)).
Proof.
  revert n. induction data as [|row data IH]; intros n Hrun; [reflexivity|].
  cbn [SheetsLibrary.collectRows map filter].
  destruct (SheetsLibrary.publishedRow numberToString headers row) as [obj hasData] eqn:Erow.
  cbn [snd]. destruct hasData.
  - cbn [map fst]. f_equal. apply IH. intros pre blanks rest Hdata Hblank.
    specialize (Hrun (row :: pre) blanks rest). cbn [app] in Hrun.
    rewrite Hdata in Hrun. specialize (Hrun eq_refl Hblank).
    destruct pre; cbn [Nat.add] in *; exact Hrun.
  - assert (Hone : (n + 1 < SheetsLibrary.MAX_CONSECUTIVE_EMPTY)%nat).
    { apply (Hrun [] [row] data); [reflexivity|]. constructor; [|constructor].
      now rewrite Erow. }
    destruct (SheetsLibrary.MAX_CONSECUTIVE_EMPTY <=? S n)%nat eqn:E.
    + apply Nat.leb_le in E. lia.
    + apply IH. intros pre blanks rest Hdata Hblank. destruct pre as [|p pre].
      * cbn [app] in Hdata.
        assert (H := Hrun [] (row :: blanks) rest). cbn [app List.length] in H.
        rewrite Hdata in H. specialize (H eq_refl).
        assert (Hb : Forall (fun row => snd (SheetsLibrary.publishedRow
                                              numberToString headers row) = false)
                            (row :: blanks)).
        { constructor; [now rewrite Erow | exact Hblank]. }
        specialize (H Hb). lia.
      * assert (H := Hrun (row :: p :: pre) blanks rest). cbn [app] in H.
        rewrite Hdata in H. cbn [app] in H. exact (H eq_refl Hblank).
Qed.

Lemma collectRows_prefix (numberToString : number -> jsstring) (headers : list jsstring)
      (data : list (list SheetsLibrary.cell)) (n : nat) :
  exists dropped,
    map fst (filter snd (map (SheetsLibrary.publishedRow numberToString headers) data))
    = SheetsLibrary.collectRows numberToString headers data n ++ dropped.
Proof.
  revert n. induction data as [|row data IH]; intros n; [now exists []|].
  cbn [SheetsLibrary.collectRows map filter].
  destruct (SheetsLibrary.publishedRow numberToString headers row) as [obj hasData].
  cbn [snd]. destruct hasData.
  - destruct (IH 0%nat) as [dropped Hd]. exists dropped.
    cbn [map fst app]. now rewrite Hd.
  - destruct (SheetsLibrary.MAX_CONSECUTIVE_EMPTY <=? S n)%nat.
    + eexists. reflexivity.
    + apply IH.
Qed.

(** X16.  The rows that the published reader keeps are an initial part of
    the rows with data, in sheet order: a kept row always comes from a sheet
    row with data, no row is kept twice and none out of order. *)
Theorem collectRows_kept (numberToString : number -> jsstring) (headers : list jsstring)
        (data : list (list SheetsLibrary.cell)) :
  (exists dropped,
      map fst (filter snd (map (SheetsLibrary.publishedRow numberToString headers) data))
      = SheetsLibrary.collectRows numberToString headers data 0 ++ dropped)
  /\
  (forall obj,
      In obj (SheetsLibrary.collectRows numberToString headers data 0) ->
      exists row, In row data /\
                  SheetsLibrary.publishedRow numberToString headers row = (obj, true))
  /\
  (List.length (SheetsLibrary.collectRows numberToString headers data 0)
   <= List.length data)%nat.
Proof.
  destruct (collectRows_prefix numberToString headers data 0) as [dropped Hd].
  split; [now exists dropped|].
  assert (Hin : forall obj,
             In obj (SheetsLibrary.collectRows numberToString headers data 0) ->
             In (obj, true) (map (SheetsLibrary.publishedRow numberToString headers) data)).
  { intros obj Hobj.
    assert (H : In obj (map fst (filter snd (map (SheetsLibrary.publishedRow
                                                     numberToString headers) data)))).
    { rewrite Hd. apply in_or_app. now left. }
    apply in_map_iff in H. destruct H as ([o b] & Ho & Hf).
    apply filter_In in Hf. destruct Hf as [Hf Hb]. cbn [fst snd] in *. now subst. }
  split.
  - intros obj Hobj. apply Hin, in_map_iff in Hobj.
    destruct Hobj as (row & Hrow & Hdata). now exists row.
  - apply (f_equal (@List.length _)) in Hd. rewrite length_app, length_map in Hd.
    pose proof (filter_shorter snd (map (SheetsLibrary.publishedRow numberToString headers) data))
      as Hf.
    rewrite length_map in Hf. lia.
Qed.

(** X17.  When a sheet holds no run of five consecutive rows without data,
    the published reader keeps every row with data. *)
Theorem collectRows_complete (numberToString : number -> jsstring) (headers : list jsstring)
        (data : list (list SheetsLibrary.cell)) :
  (forall pre blanks rest,
      data = pre ++ blanks ++ rest ->
      Forall (fun row => snd (SheetsLibrary.publishedRow numberToString headers row) = false)
             blanks ->
      (List.length blanks < SheetsLibrary.MAX_CONSECUTIVE_EMPTY)%nat) ->
  SheetsLibrary.collectRows numberToString headers data 0
  = map fst (filter snd (map (SheetsLibrary.publishedRow numberToString headers) data)).
Proof.
  intros Hrun. apply collectRows_all. intros pre blanks rest Hdata Hblank.
  specialize (Hrun pre blanks rest Hdata Hblank). destruct pre; cbn [Nat.add]; exact Hrun.
Qed.

Lemma collectRows_complete_witness :
  SheetsLibrary.collectRows integerToString [js "Batch"; js "Qty"]
                            [dataRow "B-1"; blankRow; dataRow "B-2"] 0
  = map fst (filter snd (map (SheetsLibrary.publishedRow integerToString [js "Batch"; js "Qty"])
                             [dataRow "B-1"; blankRow; dataRow "B-2"])).
Proof.
  apply (@collectRows_complete integerToString [js "Batch"; js "Qty"]
                               [dataRow "B-1"; blankRow; dataRow "B-2"]).
  intros pre blanks rest Hdata _.
  apply (f_equal (@List.length _)) in Hdata. rewrite !length_app in Hdata.
  cbn [List.length] in Hdata. unfold SheetsLibrary.MAX_CONSECUTIVE_EMPTY. lia.
Defined.

(** X18.  After five consecutive rows without data the published reader
    stops: whatever follows the run, rows with data included, is not read,
    and the result is that of the rows before the run. *)
Theorem collectRows_cutoff (numberToString : number -> jsstring) (headers : list jsstring)
        (pre blanks rest : list (list SheetsLibrary.cell)) :
  Forall (fun row => snd (SheetsLibrary.publishedRow numberToString headers row) = false)
         blanks ->
  (SheetsLibrary.MAX_CONSECUTIVE_EMPTY <= List.length blanks)%nat ->
  SheetsLibrary.collectRows numberToString headers (pre ++ blanks ++ rest) 0
  = SheetsLibrary.collectRows numberToString headers pre 0.
Proof.
  intros Hblank Hlen. apply collectRows_cut; [exact Hblank | exact Hlen|].
  unfold SheetsLibrary.MAX_CONSECUTIVE_EMPTY. lia.
Qed.

Lemma blank_run_example :
  Forall (fun row => snd (SheetsLibrary.publishedRow
                            integerToString [js "Batch"; js "Qty"] row) = false)
         [blankRow; blankRow; []; blankRow; blankRow].
Proof. repeat constructor. Defined.

Lemma collectRows_cutoff_witness :
  SheetsLibrary.collectRows integerToString [js "Batch"; js "Qty"] interruptedRows 0
  = SheetsLibrary.collectRows integerToString [js "Batch"; js "Qty"]
                              [dataRow "B-1"; blankRow; dataRow "B-2"] 0.
Proof.
  apply (@collectRows_cutoff integerToString [js "Batch"; js "Qty"]
                            [dataRow "B-1"; blankRow; dataRow "B-2"]
                            [blankRow; blankRow; []; blankRow; blankRow]
                            [dataRow "B-3"]).
  - exact blank_run_example.
  - unfold SheetsLibrary.MAX_CONSECUTIVE_EMPTY. cbn [List.length]. lia.
Defined.

(** ** Snapshots built by the sheets library *)

Lemma setOwnSheet_names (result : SheetsData) (name : jsstring) (sh : Sheet) (n : jsstring) :
  In n (map fst (SheetsLibrary.setOwnSheet result name sh))
  <-> n = name \/ In n (map fst result).
Proof.
  induction result as [|[n0 old] rest IH]; cbn [SheetsLibrary.setOwnSheet map fst In].
  - split; intros [H | []]; left; now symmetry.
  - destruct (eqb name n0) eqn:E; cbn [map fst In].
    + apply eqb_eq in E. subst n0. split; [tauto|].
      intros [H | H]; [left; now symmetry | exact H].
    + rewrite IH. tauto.
Qed.

Lemma setOwnSheet_NoDup (result : SheetsData) (name : jsstring) (sh : Sheet) :
  NoDup (map fst result) -> NoDup (map fst (SheetsLibrary.setOwnSheet result name sh)).
Proof.
  induction result as [|[n0 old] rest IH]; cbn [SheetsLibrary.setOwnSheet map fst]; intros Hnd.
  - constructor; [intros [] | constructor].
  - destruct (eqb name n0) eqn:E; cbn [map fst]; [exact Hnd|].
    inversion Hnd as [|? ? Hnot Hrest]; subst. constructor; [|now apply IH].
    rewrite setOwnSheet_names. intros [H | H]; [|now apply Hnot].
    subst n0. rewrite eqb_refl in E. discriminate.
Qed.

Lemma setOwnSheet_Forall (P : Sheet -> Prop) (result : SheetsData) (name : jsstring)
      (sh : Sheet) :
  Forall (fun e => P (snd e)) result -> P sh ->
  Forall (fun e => P (snd e)) (SheetsLibrary.setOwnSheet result name sh).
Proof.
  intros Hall Hsh. induction result as [|[n0 old] rest IH]; cbn [SheetsLibrary.setOwnSheet].
  - constructor; [exact Hsh | constructor].
  - inversion Hall as [|? ? Hold Hrest]; subst.
    destruct (eqb name n0); constructor; auto.
Qed.

Lemma sheet_setOwnSheet (result : SheetsData) (name : jsstring) (sh : Sheet) (n : jsstring) :
  sheet (SheetsLibrary.setOwnSheet result name sh) n
  = if eqb n name then Some sh else sheet result n.
Proof.
  induction result as [|[n0 old] rest IH]; cbn [SheetsLibrary.setOwnSheet sheet]; [reflexivity|].
  destruct (eqb name n0) eqn:E; cbn [sheet].
  - apply eqb_eq in E. subst n0. destruct (eqb n name); reflexivity.
  - rewrite IH. destruct (eqb n n0) eqn:E0; [|reflexivity].
    apply eqb_eq in E0. subst n0.
    destruct (eqb n name) eqn:E1; [|reflexivity].
    apply eqb_eq in E1. subst name. rewrite eqb_refl in E. discriminate.
Qed.

Lemma setSheet_names (result : SheetsData) (name : jsstring) (sh : Sheet) (n : jsstring) :
  In n (map fst (SheetsLibrary.setSheet result name sh))
  <-> (n = name /\ n <> SheetsLibrary.protoKey) \/ In n (map fst result).
Proof.
  unfold SheetsLibrary.setSheet. destruct (protoKey_eqb name) as [Hyes Hno].
  destruct (eqb name SheetsLibrary.protoKey).
  - specialize (Hyes eq_refl). split; [now right|].
    intros [[-> H] | H]; [contradiction | exact H].
  - specialize (Hno eq_refl). rewrite setOwnSheet_names. split.
    + intros [-> | H]; [left; now split | now right].
    + intros [[-> _] | H]; [now left | now right].
Qed.

Lemma setSheet_NoDup (result : SheetsData) (name : jsstring) (sh : Sheet) :
  NoDup (map fst result) -> NoDup (map fst (SheetsLibrary.setSheet result name sh)).
Proof.
  unfold SheetsLibrary.setSheet.
  destruct (eqb name SheetsLibrary.protoKey); [auto | apply setOwnSheet_NoDup].
Qed.

Lemma setSheet_Forall (P : Sheet -> Prop) (result : SheetsData) (name : jsstring) (sh : Sheet) :
  Forall (fun e => P (snd e)) result -> P sh ->
  Forall (fun e => P (snd e)) (SheetsLibrary.setSheet result name sh).
Proof.
  unfold SheetsLibrary.setSheet.
  destruct (eqb name SheetsLibrary.protoKey); [auto | apply setOwnSheet_Forall].
Qed.

Lemma sheet_setSheet (result : SheetsData) (name : jsstring) (sh : Sheet) (n : jsstring) :
  sheet (SheetsLibrary.setSheet result name sh) n
  = if eqb name SheetsLibrary.protoKey then sheet result n
    else if eqb n name then Some sh else sheet result n.
Proof.
  unfold SheetsLibrary.setSheet.
  destruct (eqb name SheetsLibrary.protoKey); [reflexivity | apply sheet_setOwnSheet].
Qed.

Lemma readSheets_names (build : list (list SheetsLibrary.cell) -> Sheet)
      (workbook : list (jsstring * list (list SheetsLibrary.cell)))
      (result : SheetsData) (n : jsstring) :
  In n (map fst (readSheets build workbook result))
  <-> In n (map fst result)
      \/ (In n (map fst workbook) /\ n <> SheetsLibrary.protoKey).
Proof.
  unfold readSheets. revert result.
  induction workbook as [|e rest IH]; intros result; cbn [fold_left map In]; [tauto|].
  rewrite IH, setSheet_names. split.
  - intros [[[-> H] | H] | [H1 H2]]; auto.
  - intros [H | [[<- | H1] H2]]; auto.
Qed.

Lemma readSheets_NoDup (build : list (list SheetsLibrary.cell) -> Sheet)
      (workbook : list (jsstring * list (list SheetsLibrary.cell))) (result : SheetsData) :
  NoDup (map fst result) -> NoDup (map fst (readSheets build workbook result)).
Proof.
  unfold readSheets. revert result.
  induction workbook as [|e rest IH]; intros result Hnd; cbn [fold_left]; [exact Hnd|].
  apply IH, setSheet_NoDup, Hnd.
Qed.

Lemma readSheets_Forall (P : Sheet -> Prop) (build : list (list SheetsLibrary.cell) -> Sheet)
      (workbook : list (jsstring * list (list SheetsLibrary.cell))) (result : SheetsData) :
  (forall values, P (build values)) ->
  Forall (fun e => P (snd e)) result ->
  Forall (fun e => P (snd e)) (readSheets build workbook result).
Proof.
  intros Hbuild. unfold readSheets. revert result.
  induction workbook as [|e rest IH]; intros result Hall; cbn [fold_left]; [exact Hall|].
  apply IH, setSheet_Forall; [exact Hall | apply Hbuild].
Qed.

(** The last sheet of a name is the one that the snapshot holds. *)
Lemma readSheets_last (build : list (list SheetsLibrary.cell) -> Sheet)
      (workbook : list (jsstring * list (list SheetsLibrary.cell))) (result : SheetsData)
      (n : jsstring) :
  ~ In n (map fst workbook) ->
  sheet (readSheets build workbook result) n = sheet result n.
Proof.
  unfold readSheets. revert result.
  induction workbook as [|e rest IH]; intros result Hnot; cbn [fold_left]; [reflexivity|].
  cbn [map In] in Hnot. rewrite IH by tauto. rewrite sheet_setSheet.
  destruct (eqb (fst e) SheetsLibrary.protoKey); [reflexivity|].
  destruct (eqb n (fst e)) eqn:E; [|reflexivity].
  apply eqb_eq in E. exfalso. apply Hnot. left. now symmetry.
Qed.

Lemma readSheets_step (build : list (list SheetsLibrary.cell) -> Sheet)
      (before after : list (jsstring * list (list SheetsLibrary.cell)))
      (name : jsstring) (values : list (list SheetsLibrary.cell)) (result : SheetsData) :
  readSheets build (before ++ (name, values) :: after) result
  = readSheets build after
               (SheetsLibrary.setSheet (readSheets build before result) name (build values)).
Proof. unfold readSheets. now rewrite fold_left_app. Qed.

Lemma publishedSheet_rectangular (numberToString : number -> jsstring)
      (jsonData : list (list SheetsLibrary.cell)) :
  rectangular (SheetsLibrary.publishedSheet numberToString jsonData).
Proof.
  destruct jsonData as [|first data]; cbn [SheetsLibrary.publishedSheet].
  - exists [], []. repeat split; constructor.
  - cbv zeta. eexists. eexists. split; [reflexivity|]. split; [reflexivity|].
    apply Forall_forall. intros obj Hobj.
    destruct (collectRows_prefix numberToString (map (SheetsLibrary.publishedHeader numberToString) first)
                                 data 0) as [dropped Hd].
    assert (H : In obj (map fst (filter snd
                 (map (SheetsLibrary.publishedRow
                         numberToString (map (SheetsLibrary.publishedHeader numberToString) first))
                      data)))).
    { rewrite Hd. apply in_or_app. now left. }
    apply in_map_iff in H. destruct H as ([o b] & Ho & Hf). cbn [fst] in Ho. subst o.
    apply filter_In in Hf. destruct Hf as [Hf _].
    apply in_map_iff in Hf. destruct Hf as (row & Hrow & _).
    replace obj with (fst (SheetsLibrary.publishedRow
                             numberToString
                             (map (SheetsLibrary.publishedHeader numberToString) first) row))
      by now rewrite Hrow.
    split.
    + unfold SheetsLibrary.publishedRow. rewrite publishedRowFrom_fill. cbn [fst].
      apply fillFrom_NoDup. constructor.
    + intros k. apply reader_row_keys.
Qed.

Lemma apiSheet_rectangular (numberToString : number -> jsstring)
      (values : list (list SheetsLibrary.cell)) :
  rectangular (SheetsLibrary.apiSheet numberToString values).
Proof.
  destruct values as [|first data]; cbn [SheetsLibrary.apiSheet].
  - exists [], []. repeat split; constructor.
  - cbv zeta. eexists. eexists. split; [reflexivity|]. split; [reflexivity|].
    apply Forall_forall. intros obj Hobj.
    apply in_map_iff in Hobj. destruct Hobj as (r & <- & _).
    split.
    + unfold SheetsLibrary.apiRow. rewrite apiRowFrom_fill.
      apply fillFrom_NoDup. constructor.
    + intros k. apply reader_row_keys.
Qed.

Lemma rectangular_wellTyped (sheetsData : SheetsData) :
  Forall (fun e => rectangular (snd e)) sheetsData -> wellTyped sheetsData.
Proof.
  unfold wellTyped. apply Forall_impl. intros e (hs & rs & Hh & Hr & _).
  rewrite Hh, Hr. split; discriminate.
Qed.

Lemma createDemoData_wellTyped : wellTyped SheetsLibrary.createDemoData.
Proof. repeat constructor; discriminate. Qed.

Lemma published_snapshot_rectangular (numberToString : number -> jsstring)
      (workbook : list (jsstring * list (list SheetsLibrary.cell))) :
  Forall (fun e => rectangular (snd e))
         (SheetsLibrary.fetchPublishedSheet numberToString workbook).
Proof.
  unfold SheetsLibrary.fetchPublishedSheet.
  fold (readSheets (SheetsLibrary.publishedSheet numberToString) workbook []).
  apply readSheets_Forall; [apply publishedSheet_rectangular | constructor].
Qed.

Lemma api_snapshot_rectangular (numberToString : number -> jsstring)
      (titles : list jsstring) (ranges : list (list (list SheetsLibrary.cell))) :
  Forall (fun e => rectangular (snd e))
         (SheetsLibrary.apiSnapshot numberToString titles ranges).
Proof.
  unfold SheetsLibrary.apiSnapshot.
  fold (readSheets (SheetsLibrary.apiSheet numberToString)
                   (SheetsLibrary.titled 0 titles ranges) []).
  apply readSheets_Forall; [apply apiSheet_rectangular | constructor].
Qed.

Lemma getAllSheets_wellTyped (numberToString : number -> jsstring)
      (env : SheetsLibrary.Environment) (sheetsData : SheetsData) :
  SheetsLibrary.getAllSheets numberToString env = Some sheetsData -> wellTyped sheetsData.
Proof.
  unfold SheetsLibrary.getAllSheets.
  destruct (SheetsLibrary.spreadsheetId env) as [[|c id]|]; try discriminate.
  destruct (startsWith (js "2PACX") (c :: id)).
  - destruct (SheetsLibrary.workbook env) as [wb|]; intros H; injection H as <-.
    + apply rectangular_wellTyped, published_snapshot_rectangular.
    + apply createDemoData_wellTyped.
  - destruct (SheetsLibrary.sheetTitles env) as [sheets|].
    + destruct (SheetsLibrary.truthyTitles sheets) as [|t titles].
      * intros H; injection H as <-. apply createDemoData_wellTyped.
      * destruct (SheetsLibrary.valueRanges env) as [ranges|]; intros H; injection H as <-.
        -- apply rectangular_wellTyped, api_snapshot_rectangular.
        -- apply createDemoData_wellTyped.
    + intros H; injection H as <-. apply createDemoData_wellTyped.
Qed.

(** X19.  The snapshot that the published reader builds from a workbook
    names each sheet of the workbook once, but for a sheet named
    [__proto__], which leaves no entry; it holds for a name the last sheet
    read under it; and it is rectangular: every sheet has its headers and
    rows, and every row has exactly the column keys other than [__proto__]
    as properties.  The snapshot of the API reader is rectangular too.
    [getAllSheets] is rejected exactly when the spreadsheet id is missing or
    empty; it answers with the demo data when the API lists no sheet with a
    title, or when a request or the download fails.  Whatever it answers,
    the page assembles its dashboard without throwing, and [Home] shows that
    dashboard, or the fallback when the snapshot is empty, as it is for a
    workbook whose only sheet is named [__proto__]. *)
Theorem library_snapshot (numberToString : number -> jsstring)
        (Date_parse : jsstring -> option Z) (now : Z) :
  (forall workbook,
      NoDup (map fst (SheetsLibrary.fetchPublishedSheet numberToString workbook)) /\
      (forall name,
          In name (map fst (SheetsLibrary.fetchPublishedSheet numberToString workbook))
          <-> In name (map fst workbook) /\ name <> SheetsLibrary.protoKey) /\
      (forall before name values after,
          workbook = before ++ (name, values) :: after ->
          ~ In name (map fst after) ->
          name <> SheetsLibrary.protoKey ->
          sheet (SheetsLibrary.fetchPublishedSheet numberToString workbook) name
          = Some (SheetsLibrary.publishedSheet numberToString values)) /\
      Forall (fun e => rectangular (snd e))
             (SheetsLibrary.fetchPublishedSheet numberToString workbook))
  /\
  (forall titles ranges,
      NoDup (map fst (SheetsLibrary.apiSnapshot numberToString titles ranges)) /\
      (forall name,
          In name (map fst (SheetsLibrary.apiSnapshot numberToString titles ranges))
          <-> In name (map fst (SheetsLibrary.titled 0 titles ranges)) /\
              name <> SheetsLibrary.protoKey) /\
      Forall (fun e => rectangular (snd e))
             (SheetsLibrary.apiSnapshot numberToString titles ranges))
  /\
  (forall env,
      (SheetsLibrary.getAllSheets numberToString env = None
       <-> SheetsLibrary.spreadsheetId env = None \/
           SheetsLibrary.spreadsheetId env = Some []) /\
      (forall id sheets,
          SheetsLibrary.spreadsheetId env = Some id -> id <> [] ->
          startsWith (js "2PACX") id = false ->
          SheetsLibrary.sheetTitles env = Some sheets ->
          SheetsLibrary.truthyTitles sheets = [] ->
          SheetsLibrary.getAllSheets numberToString env
          = Some SheetsLibrary.createDemoData) /\
      (forall sheetsData,
          SheetsLibrary.getAllSheets numberToString env = Some sheetsData ->
          wellTyped sheetsData /\
          exists d,
            generateDynamicDashboard Date_parse now sheetsData = Ok d /\
            (sheetsData <> [] -> Home Date_parse now (Some sheetsData) = d) /\
            (sheetsData = [] ->
             Home Date_parse now (Some sheetsData) = fallbackData now)))
  /\
  (forall values,
      SheetsLibrary.fetchPublishedSheet numberToString [(SheetsLibrary.protoKey, values)] = [] /\
      Home Date_parse now
           (Some (SheetsLibrary.fetchPublishedSheet
                    numberToString [(SheetsLibrary.protoKey, values)]))
      = fallbackData now).
Proof.
  split.
  { intros workbook. unfold SheetsLibrary.fetchPublishedSheet.
    fold (readSheets (SheetsLibrary.publishedSheet numberToString) workbook []).
    split; [apply readSheets_NoDup; constructor|].
    split.
    { intros name. rewrite readSheets_names. cbn [map In]. tauto. }
    split.
    { intros before name values after -> Hlast Hproto.
      rewrite readSheets_step.
      rewrite (@readSheets_last (SheetsLibrary.publishedSheet numberToString) after _ name Hlast).
      rewrite sheet_setSheet, eqb_refl.
      destruct (protoKey_eqb name) as [Hyes _].
      destruct (eqb name SheetsLibrary.protoKey); [now specialize (Hyes eq_refl) | reflexivity]. }
    apply readSheets_Forall; [apply publishedSheet_rectangular | constructor]. }
  split.
  { intros titles ranges. unfold SheetsLibrary.apiSnapshot.
    fold (readSheets (SheetsLibrary.apiSheet numberToString)
                     (SheetsLibrary.titled 0 titles ranges) []).
    split; [apply readSheets_NoDup; constructor|].
    split.
    { intros name. rewrite readSheets_names. cbn [map In]. tauto. }
    apply readSheets_Forall; [apply apiSheet_rectangular | constructor]. }
  split.
  { intros env. split.
    { unfold SheetsLibrary.getAllSheets.
      destruct (SheetsLibrary.spreadsheetId env) as [[|c id]|].
      - split; [now right | reflexivity].
      - destruct (startsWith (js "2PACX") (c :: id)).
        + destruct (SheetsLibrary.workbook env); split;
            try discriminate; intros [H | H]; discriminate H.
        + destruct (SheetsLibrary.sheetTitles env) as [sheets|];
            [destruct (SheetsLibrary.truthyTitles sheets);
             [|destruct (SheetsLibrary.valueRanges env)]|];
            split; try discriminate; intros [H | H]; discriminate H.
      - split; [now left | reflexivity]. }
    split.
    { intros id sheets Hid Hne Hpub Htitles Hnone. unfold SheetsLibrary.getAllSheets.
      rewrite Hid. destruct id as [|c id]; [contradiction|].
      now rewrite Hpub, Htitles, Hnone. }
    intros sheetsData Hget.
    pose proof (getAllSheets_wellTyped numberToString env Hget) as Hwt.
    split; [exact Hwt|].
    destruct (@dashboard_assembles Date_parse now sheetsData Hwt) as [d Hd].
    exists d. split; [exact Hd|]. split.
    - intros Hne. destruct sheetsData as [|e rest]; [contradiction|].
      cbn [Home]. now rewrite Hd.
    - intros ->. reflexivity. }
  intros values. split; reflexivity.
Qed.

(** ** The retry schedule of the data hook *)

Lemma retry_schedule (retryDelay : Z) (outcome : Z -> RealTimeHook.fetchOutcome)
      (remaining : nat) (attempt : Z) :
  (List.length (fst (RealTimeHook.retry retryDelay outcome remaining attempt))
   <= remaining)%nat /\
  fst (RealTimeHook.retry retryDelay outcome remaining attempt)
  = map (fun i => (retryDelay * 2 ^ (attempt - 1 + Z.of_nat i))%Z)
        (seq 0 (List.length (fst (RealTimeHook.retry retryDelay outcome remaining attempt)))) /\
  (forall i,
      (i < List.length (fst (RealTimeHook.retry retryDelay outcome remaining attempt)))%nat ->
      outcome (attempt + Z.of_nat i)%Z = RealTimeHook.Failed) /\
  match snd (RealTimeHook.retry retryDelay outcome remaining attempt) with
  | RealTimeHook.Connected =>
    outcome (attempt + Z.of_nat (List.length
               (fst (RealTimeHook.retry retryDelay outcome remaining attempt))))%Z
    = RealTimeHook.Succeeded
  | RealTimeHook.Cancelled =>
    outcome (attempt + Z.of_nat (List.length
               (fst (RealTimeHook.retry retryDelay outcome remaining attempt))))%Z
    = RealTimeHook.Aborted
  | RealTimeHook.Disconnected =>
    outcome (attempt + Z.of_nat (List.length
               (fst (RealTimeHook.retry retryDelay outcome remaining attempt))))%Z
    = RealTimeHook.Failed /\
    List.length (fst (RealTimeHook.retry retryDelay outcome remaining attempt)) = remaining
  end.
Proof.
  revert attempt. induction remaining as [|remaining IH]; intros attempt;
    cbn [RealTimeHook.retry]; destruct (outcome attempt) eqn:E;
    try (cbn [fst snd List.length seq map]; rewrite Z.add_0_r;
         repeat split; solve [lia | assumption | reflexivity | intros i Hi; lia]).
  destruct (IH (attempt + 1)%Z) as (Hlen & Hdelays & Hfailed & Hend).
  destruct (RealTimeHook.retry retryDelay outcome remaining (attempt + 1)) as [delays e].
  cbn [fst snd List.length] in *.
  split; [lia|]. split.
  { cbn [seq map]. f_equal; [f_equal; f_equal; lia|].
    rewrite <- seq_shift, map_map. rewrite Hdelays at 1.
    apply map_ext. intros i. f_equal. f_equal. lia. }
  split.
  { intros [|i] Hi; [now rewrite Z.add_0_r|].
    replace (attempt + Z.of_nat (S i))%Z with (attempt + 1 + Z.of_nat i)%Z by lia.
    apply Hfailed. lia. }
  replace (attempt + Z.of_nat (S (List.length delays)))%Z
    with (attempt + 1 + Z.of_nat (List.length delays))%Z by lia.
  destruct e; [exact Hend | | exact Hend].
  destruct Hend as [H1 H2]. split; [exact H1 | now rewrite H2].
Qed.

Lemma totalDelay_geometric (retryDelay : Z) (start count : nat) :
  totalDelay (map (fun i => (retryDelay * 2 ^ Z.of_nat i)%Z) (seq start count))
  = (retryDelay * (2 ^ Z.of_nat (start + count) - 2 ^ Z.of_nat start))%Z.
Proof.
  unfold totalDelay. revert start. induction count as [|count IH]; intros start.
  - cbn [seq map fold_right]. rewrite Nat.add_0_r. lia.
  - cbn [seq map fold_right]. rewrite IH.
    replace (S start + count)%nat with (start + S count)%nat by lia.
    rewrite (Nat2Z.inj_succ start), Z.pow_succ_r by lia. lia.
Qed.




